(** * xmod.c: simplified XMODEM/CRC protocol -- embedding and properties

    The C translation unit [xmod.c] keeps the whole transfer session in
    file-scope statics and talks to the outside through five external
    functions ([uart_putc], [uart_available], [uart_getc], [GetMillis],
    [ResetMillis]) and one external array ([buffer]).  Below, the statics and
    the array are the fields of a [session] record that every operation
    receives and returns, the calls that produce output are appended to a log
    inside the session, and the calls that read the environment are answered by
    an explicit list of polling events. *)

From Stdlib Require Import ZArith Lia Bool.
From stdpp Require Import base tactics option list.

Local Open Scope Z_scope.

(** ** Fixed-width integers

    [uint8_t] and [uint16_t] values are integers of [Z]; every conversion to
    one of these types that the C code performs (assignment, cast, argument
    passing) is written out as a reduction modulo [2^8] or [2^16]. *)

Definition u8 (x : Z) : Z := x mod 256.
Definition u16 (x : Z) : Z := x mod 65536.

Definition is_u8 (x : Z) : Prop := 0 <= x < 256.
Definition is_u16 (x : Z) : Prop := 0 <= x < 65536.

(** ** Constants of the translation unit *)

Definition MAXRETRY : Z := 15.
Definition TIMEOUT_MS : Z := 1000.

Definition X_SOH : Z := 1.
Definition X_EOT : Z := 4.
Definition X_ACK : Z := 6.
Definition X_NAK : Z := 21.
Definition X_ETB : Z := 23.
Definition X_CAN : Z := 24.

Definition POLY : Z := 0x1021.

(** The character constant ['C'] of the handshake. *)
Definition CHAR_C : Z := 67.

(** The value [XMOD_BUFFSIZE] takes when the build does not define it. *)
Definition XMOD_BUFFSIZE_default : Z := 256.

Inductive STATE : Set :=
| TRANS_AWAIT
| TRANS_RUN
| TRANS_ABORT
| TRANS_BLOCK
| TRANS_BLOCK2
| TRANS_CRC1
| TRANS_CRC2
| TRANS_END.

Definition STATE_eqb (a b : STATE) : bool :=
  match a, b with
  | TRANS_AWAIT, TRANS_AWAIT | TRANS_RUN, TRANS_RUN
  | TRANS_ABORT, TRANS_ABORT | TRANS_BLOCK, TRANS_BLOCK
  | TRANS_BLOCK2, TRANS_BLOCK2 | TRANS_CRC1, TRANS_CRC1
  | TRANS_CRC2, TRANS_CRC2 | TRANS_END, TRANS_END => true
  | _, _ => false
  end.

(** ** CRC engine *)

Module Crc.

(** One iteration of the [for] loop of [xmod_crc_update]:
    [if (CRC_acc & 0x8000) { CRC_acc <<= 1; CRC_acc ^= POLY; }
     else CRC_acc <<= 1;] on a [uint16_t] accumulator. *)
Definition crc_round (CRC_acc : Z) : Z :=
  if negb (Z.land CRC_acc 0x8000 =? 0)
  then u16 (Z.lxor (u16 (Z.shiftl CRC_acc 1)) POLY)
  else u16 (Z.shiftl CRC_acc 1).

(** The loop [for (uint8_t i = 0; i < 8; i++)], [n] iterations left. *)
Fixpoint crc_loop (n : nat) (CRC_acc : Z) : Z :=
  match n with
  | O => CRC_acc
  | S n' => crc_loop n' (crc_round CRC_acc)
  end.

(** [uint16_t xmod_crc_update(uint16_t CRC_acc, uint8_t CRC_input)];
    the two arguments are converted to the parameter types on entry. *)
Definition xmod_crc_update (CRC_acc CRC_input : Z) : Z :=
  let acc := u16 CRC_acc in
  let inp := u8 CRC_input in
  let acc := u16 (Z.lxor acc (Z.shiftl (u16 inp) 8)) in
  crc_loop 8 acc.

(** The accumulator after folding a run of bytes, as both callers do it:
    [current_crc = xmod_crc_update(current_crc, byte)] per byte. *)
Definition crc_bytes (acc : Z) (bs : list Z) : Z :=
  fold_left xmod_crc_update bs acc.

(** *** The step as the specification words it

    "XOR the byte (shifted into the high octet) into the accumulator, then
    perform 8 rounds of: if the top bit is set, shift left and XOR with
    polynomial 0x1021; otherwise just shift left", on 16-bit values. *)
Definition top_bit_set (x : Z) : bool := 32768 <=? x.

Definition shift_left16 (x : Z) : Z := (2 * x) mod 65536.

Definition spec_round (x : Z) : Z :=
  if top_bit_set x then Z.lxor (shift_left16 x) 0x1021 else shift_left16 x.

Definition ccitt_false_step (a b : Z) : Z :=
  Nat.iter 8 spec_round (Z.lxor a (b * 256)).

End Crc.

Import Crc.

(** ** Session state, output log and faults *)

(** What the code does to the outside: [uart_putc(c)] puts the octet [c] on
    the line, [ResetMillis()] restarts the millisecond timer. *)
Inductive io_event : Set :=
| Putc (c : Z)
| ResetMillis.

(** The file-scope statics of [xmod.c], the caller's [buffer] array and the
    log of the output calls made so far, oldest first.  [retrycount] and
    [counter] are [int]; [current_crc], [crc_recv] and [mempos] are
    [uint16_t]; [blocknum] and [last_succeeded_block] are [uint8_t]; the
    elements of [buffer] are [uint8_t] and its length is the array size
    [XMOD_BUFFSIZE].  The two [int]s are only counted up from 0, [counter]
    to 128 and [retrycount] to [MAXRETRY + 1] (lemmas
    [xmod_download_counters_ok] and [upload_body_retrycount] below); their
    arithmetic is that of [Z]. *)
Record session : Type := mkSession {
  state : STATE;
  retrycount : Z;
  counter : Z;
  current_crc : Z;
  crc_recv : Z;
  mempos : Z;
  blocknum : Z;
  last_succeeded_block : Z;
  buffer : list Z;
  io : list io_event
}.

Definition set_state (v : STATE) (s : session) : session :=
  mkSession v (retrycount s) (counter s) (current_crc s) (crc_recv s)
    (mempos s) (blocknum s) (last_succeeded_block s) (buffer s) (io s).
Definition set_retrycount (v : Z) (s : session) : session :=
  mkSession (state s) v (counter s) (current_crc s) (crc_recv s)
    (mempos s) (blocknum s) (last_succeeded_block s) (buffer s) (io s).
Definition set_counter (v : Z) (s : session) : session :=
  mkSession (state s) (retrycount s) v (current_crc s) (crc_recv s)
    (mempos s) (blocknum s) (last_succeeded_block s) (buffer s) (io s).
Definition set_current_crc (v : Z) (s : session) : session :=
  mkSession (state s) (retrycount s) (counter s) v (crc_recv s)
    (mempos s) (blocknum s) (last_succeeded_block s) (buffer s) (io s).
Definition set_crc_recv (v : Z) (s : session) : session :=
  mkSession (state s) (retrycount s) (counter s) (current_crc s) v
    (mempos s) (blocknum s) (last_succeeded_block s) (buffer s) (io s).
Definition set_mempos (v : Z) (s : session) : session :=
  mkSession (state s) (retrycount s) (counter s) (current_crc s) (crc_recv s)
    v (blocknum s) (last_succeeded_block s) (buffer s) (io s).
Definition set_blocknum (v : Z) (s : session) : session :=
  mkSession (state s) (retrycount s) (counter s) (current_crc s) (crc_recv s)
    (mempos s) v (last_succeeded_block s) (buffer s) (io s).
Definition set_last_succeeded_block (v : Z) (s : session) : session :=
  mkSession (state s) (retrycount s) (counter s) (current_crc s) (crc_recv s)
    (mempos s) (blocknum s) v (buffer s) (io s).
Definition set_buffer (v : list Z) (s : session) : session :=
  mkSession (state s) (retrycount s) (counter s) (current_crc s) (crc_recv s)
    (mempos s) (blocknum s) (last_succeeded_block s) v (io s).
Definition set_io (v : list io_event) (s : session) : session :=
  mkSession (state s) (retrycount s) (counter s) (current_crc s) (crc_recv s)
    (mempos s) (blocknum s) (last_succeeded_block s) (buffer s) v.

(** [uart_putc(c)]: the argument is converted to [char]; the log keeps the
    octet that goes out. *)
Definition uart_putc (c : Z) (s : session) : session :=
  set_io (io s ++ [Putc (u8 c)]) s.

Definition reset_millis (s : session) : session :=
  set_io (io s ++ [ResetMillis]) s.

(** An access to [buffer] at an index outside the array has no defined
    behaviour in C.  The embedding stops there and reports the index. *)
Inductive result (A : Type) : Type :=
| Ok (a : A)
| OutOfBounds (idx : Z).
Arguments Ok {A} a.
Arguments OutOfBounds {A} idx.

#[global] Instance result_ret : MRet result := fun A a => Ok a.
#[global] Instance result_bind : MBind result := fun A B f m =>
  match m with
  | Ok a => f a
  | OutOfBounds i => OutOfBounds i
  end.

Definition in_buffer (i : Z) (s : session) : bool :=
  (0 <=? i) && (i <? Z.of_nat (length (buffer s))).

(** [buffer[i] = v] *)
Definition store (i v : Z) (s : session) : result session :=
  if in_buffer i s
  then Ok (set_buffer (<[Z.to_nat i := u8 v]> (buffer s)) s)
  else OutOfBounds i.

(** [buffer[i]] *)
Definition load (i : Z) (s : session) : result Z :=
  match buffer s !! Z.to_nat i with
  | Some v => if 0 <=? i then Ok v else OutOfBounds i
  | None => OutOfBounds i
  end.

(** ** Receive state machine *)

Definition in_state (s : session) (st : STATE) : bool := STATE_eqb (state s) st.

(** [STATE handlebyte(char d)]: the new state is the returned value, the
    statics changed on the way are in the returned session.  [d] is the value
    of the [char] argument; the casts [(uint8_t) d] and [(uint16_t) d] are
    written out, so the definition reads the same for a signed and for an
    unsigned [char].  [DEBUG_PRINT] expands to nothing. *)
Definition handlebyte (d : Z) (s : session) : result (STATE * session) :=
  if in_state s TRANS_AWAIT && (d =? X_SOH) then
    let s := set_counter 0 s in
    let s := set_current_crc 0 s in
    Ok (TRANS_BLOCK, s)
  else if in_state s TRANS_BLOCK then
    let s := set_blocknum (u8 d) s in
    Ok (TRANS_BLOCK2, s)
  else if in_state s TRANS_BLOCK2 then
    if negb (blocknum s =? 0xFF - u8 d) then
      Ok (TRANS_ABORT, s)
    else
      let s := if blocknum s =? last_succeeded_block s
               then set_mempos (u16 (mempos s - 128)) s
               else s in
      Ok (TRANS_RUN, s)
  else if in_state s TRANS_AWAIT && (d =? X_EOT) then
    let s := uart_putc X_ACK s in
    let s := uart_putc X_ACK s in
    Ok (TRANS_END, s)
  else if in_state s TRANS_AWAIT && (d =? X_ETB) then
    let s := uart_putc X_ACK s in
    Ok (TRANS_END, s)
  else if in_state s TRANS_AWAIT then
    Ok (TRANS_ABORT, s)
  else if in_state s TRANS_RUN then
    let s := set_counter (counter s + 1) s in
    let s := set_current_crc (xmod_crc_update (current_crc s) d) s in
    s ← store (mempos s) d s;
    let s := set_mempos (u16 (mempos s + 1)) s in
    if counter s =? 128 then Ok (TRANS_CRC1, s) else Ok (TRANS_RUN, s)
  else if in_state s TRANS_CRC1 then
    let s := set_crc_recv (u16 (Z.shiftl (u16 d) 8)) s in
    Ok (TRANS_CRC2, s)
  else if in_state s TRANS_CRC2 then
    let s := set_crc_recv (u16 (Z.lor (crc_recv s) (u8 d))) s in
    if crc_recv s =? current_crc s then
      let s := uart_putc X_ACK s in
      let s := set_last_succeeded_block (blocknum s) s in
      Ok (TRANS_AWAIT, s)
    else
      let s := uart_putc X_NAK s in
      let s := set_mempos (u16 (mempos s - 128)) s in
      Ok (TRANS_AWAIT, s)
  else
    Ok (TRANS_RUN, s).

(** [state = handlebyte(d);] as the download loop does it. *)
Definition receive (d : Z) (s : session) : result session :=
  '(st, s') ← handlebyte d s;
  Ok (set_state st s').

(** ** Polling events

    One iteration of either polling loop asks [uart_available()].  When the
    answer is no, [GetMillis()] is read: [Idle ms] is such an iteration with
    the timer showing [ms].  When the answer is yes, [uart_getc()] delivers
    [d]: that is [Avail d]. *)
Inductive poll : Set :=
| Idle (ms : Z)
| Avail (d : Z).

Definition running (s : session) : bool :=
  negb (in_state s TRANS_ABORT) && negb (in_state s TRANS_END).

(** ** Download *)

(** The body of the [do ... while] loop of [xmod_download].  Both [continue]
    statements jump to the loop test and so skip the [ResetMillis()] at the
    end of the body. *)
Definition download_body (e : poll) (s : session) : result session :=
  match e with
  | Idle ms =>
      if ms <=? TIMEOUT_MS then Ok s
      else if retrycount s >? MAXRETRY then Ok (set_state TRANS_ABORT s)
      else
        let s := uart_putc CHAR_C s in
        let s := set_retrycount (retrycount s + 1) s in
        Ok (reset_millis s)
  | Avail d =>
      s ← receive d s;
      Ok (reset_millis s)
  end.

(** [do { body } while (state != TRANS_ABORT && state != TRANS_END);] over
    the events that the environment supplies.  The result pairs the session
    with the events not yet consumed; when the events run out the session is
    returned as it stands, still running. *)
Fixpoint download_loop (evs : list poll) (s : session)
  : result (session * list poll) :=
  match evs with
  | [] => Ok (s, [])
  | e :: evs' =>
      s' ← download_body e s;
      if running s' then download_loop evs' s' else Ok (s', evs')
  end.

(** [while (uart_available()) (void)uart_getc();] *)
Fixpoint eat_garbage (evs : list poll) : list poll :=
  match evs with
  | Avail _ :: evs' => eat_garbage evs'
  | _ => evs
  end.

(** The statements of [xmod_download] before the loop. *)
Definition download_init (s : session) : session :=
  let s := set_mempos 0 s in
  let s := set_retrycount 0 s in
  let s := set_last_succeeded_block 0 s in
  let s := uart_putc CHAR_C s in
  set_state TRANS_AWAIT s.

(** [void xmod_download()], entered with the statics as [s] holds them. *)
Definition xmod_download (evs : list poll) (s : session)
  : result (session * list poll) :=
  '(s', rest) ← download_loop evs (download_init s);
  Ok (s', eat_garbage rest).

(** ** Transmit driver and upload *)

Section Upload.

(** The array size, a build-time constant ([#ifndef XMOD_BUFFSIZE]). *)
Variable XMOD_BUFFSIZE : Z.

(** The loop [for (uint8_t p = 0; p < 128; p++)] of [xmod_sendblock] with
    [n] iterations left. *)
Fixpoint send_payload (n : nat) (p offset : Z) (s : session)
  : result session :=
  match n with
  | O => Ok s
  | S n' =>
      byte ← load (p + offset) s;
      let s := set_current_crc (xmod_crc_update (current_crc s) byte) s in
      let s := uart_putc byte s in
      send_payload n' (p + 1) offset s
  end.

(** [uint16_t offset = 128*(blocknum-1);
     if (offset >= XMOD_BUFFSIZE) { offset = 0; }] *)
Definition block_offset (blocknum : Z) : Z :=
  let offset := u16 (128 * (blocknum - 1)) in
  if offset >=? XMOD_BUFFSIZE then 0 else offset.

(** [STATE xmod_sendblock()].  The function has the return type [STATE] and
    no [return] statement, so C leaves open what a caller reads from the
    call: [junk] stands for that value and is handed back unchanged.  (A
    value that is none of the eight enumerators would keep the loop of
    [xmod_upload] going just as the six that are neither [TRANS_END] nor
    [TRANS_ABORT] do.) *)
Definition xmod_sendblock (junk : STATE) (s : session)
  : result (STATE * session) :=
  let s := uart_putc X_SOH s in
  let s := uart_putc (blocknum s) s in
  let s := uart_putc (0xFF - blocknum s) s in
  let s := set_current_crc 0 s in
  let offset := block_offset (blocknum s) in
  s ← send_payload 128 0 offset s;
  let s := uart_putc (Z.land (Z.shiftr (current_crc s) 8) 0xFF) s in
  let s := uart_putc (Z.land (current_crc s) 0xFF) s in
  Ok (junk, s).

(** The body of the [do ... while] loop of [xmod_upload]. *)
Definition upload_body (junk : STATE) (e : poll) (s : session)
  : result session :=
  match e with
  | Idle ms =>
      if ms <=? TIMEOUT_MS then Ok s
      else if retrycount s >? MAXRETRY then Ok (set_state TRANS_ABORT s)
      else
        let s := set_retrycount (retrycount s + 1) s in
        Ok (reset_millis s)
  | Avail d =>
      let s := reset_millis s in
      if d =? CHAR_C then
        let s := set_blocknum 1 s in
        '(st, s) ← xmod_sendblock junk s;
        Ok (set_state st s)
      else if d =? X_ACK then
        let s := set_blocknum (u8 (blocknum s + 1)) s in
        if blocknum s =? XMOD_BUFFSIZE `quot` 128 + 1 then
          let s := uart_putc X_EOT s in
          Ok (set_state TRANS_END s)
        else
          '(_, s) ← xmod_sendblock junk s;
          Ok s
      else
        '(_, s) ← xmod_sendblock junk s;
        Ok s
  end.

(** [do { body } while (state != TRANS_END && state != TRANS_ABORT);]
    Every event comes with the value a call of [xmod_sendblock] in that
    iteration hands back. *)
Fixpoint upload_loop (evs : list (poll * STATE)) (s : session)
  : result session :=
  match evs with
  | [] => Ok s
  | (e, junk) :: evs' =>
      s' ← upload_body junk e s;
      if running s' then upload_loop evs' s' else Ok s'
  end.

(** The statements of [xmod_upload] before the loop. *)
Definition upload_init (s : session) : session :=
  let s := set_state TRANS_AWAIT s in
  let s := set_blocknum 1 s in
  set_last_succeeded_block 0 s.

(** [void xmod_upload()] *)
Definition xmod_upload (evs : list (poll * STATE)) (s : session)
  : result session :=
  upload_loop evs (upload_init s).

End Upload.

(** ** Frames on the wire *)

(** [SOH, block number, complement, payload, CRC high, CRC low] for a given
    pair of CRC octets. *)
Definition frame_with (n : Z) (payload : list Z) (hi lo : Z) : list Z :=
  [X_SOH; n; 0xFF - n] ++ payload ++ [hi; lo].

Definition crc_hi (crc : Z) : Z := Z.land (Z.shiftr crc 8) 0xFF.
Definition crc_lo (crc : Z) : Z := Z.land crc 0xFF.

(** A frame whose CRC octets are those of its payload. *)
Definition frame (n : Z) (payload : list Z) : list Z :=
  let crc := crc_bytes 0 payload in
  frame_with n payload (crc_hi crc) (crc_lo crc).

(** [k] timer resets in a row. *)
Definition resets (k : nat) : list io_event := replicate k ResetMillis.

(** The log of [k] timeouts of the download loop: the handshake character
    again and a timer reset, each time. *)
Fixpoint handshakes (k : nat) : list io_event :=
  match k with
  | O => []
  | S k' => Putc CHAR_C :: ResetMillis :: handshakes k'
  end.

(** What [uart_putc] logged, without the timer resets. *)
Fixpoint sent (l : list io_event) : list Z :=
  match l with
  | [] => []
  | Putc c :: l' => c :: sent l'
  | ResetMillis :: l' => sent l'
  end.

(** The session a caller starts from: a buffer and statics at zero. *)
Definition fresh (buf : list Z) : session :=
  mkSession TRANS_AWAIT 0 0 0 0 0 0 0 buf [].


(** The 128 octets of [buf] from index [m] on. *)
Definition slot (m : Z) (buf : list Z) : list Z :=
  take 128 (drop (Z.to_nat m) buf).

(** The 16-bit value the handler assembles from the two CRC octets in
    states [TRANS_CRC1] and [TRANS_CRC2]. *)
Definition crc_of_octets (hi lo : Z) : Z :=
  u16 (Z.lor (u16 (Z.shiftl (u16 hi) 8)) (u8 lo)).

(** The cursor with which the payload of a frame numbered [n] is stored:
    state [TRANS_BLOCK2] rewinds it when [n] is the last committed number. *)
Definition run_cursor (n : Z) (s : session) : Z :=
  if n =? last_succeeded_block s then u16 (mempos s - 128) else mempos s.

(** A 128-octet slot at [m] lies inside the array of [s], and the cursor
    stays below [2^16] while the slot is filled. *)
Definition slot_fits (m : Z) (s : session) : Prop :=
  0 <= m /\ m + 128 <= Z.of_nat (length (buffer s)) /\ m + 128 < 65536.

(** ** Concrete inputs used to exercise the statements *)

(** A zeroed array of the default size, and a payload of 128 equal octets. *)
Definition demo_buffer : list Z :=
  replicate (Z.to_nat XMOD_BUFFSIZE_default) 0.
Definition demo_payload (b : Z) : list Z := replicate 128 b.

(** ** Transfers *)

(** The octets of a run of well-formed frames, each given by its block
    number and its payload. *)
Definition frames (fs : list (Z * list Z)) : list Z :=
  concat ((fun f => frame (fst f) (snd f)) <$> fs).

(** Every frame of the run has an octet as number, 128 payload octets, and
    a number other than that of the frame before it ([prev] for the first). *)
Fixpoint in_sequence (prev : Z) (fs : list (Z * list Z)) : Prop :=
  match fs with
  | [] => True
  | f :: fs' =>
      is_u8 (fst f) /\ fst f <> prev /\ length (snd f) = 128%nat
      /\ in_sequence (fst f) fs'
  end.

(** The number of the last frame of the run, [prev] when there is none. *)
Definition last_number (prev : Z) (fs : list (Z * list Z)) : Z :=
  default prev (fst <$> last fs).



(** ** The two [int] counters *)

(** [retrycount] is between 0 and [MAXRETRY + 1]; [counter] is 0 while the
    header of a frame is read and below 128 while its payload is. *)
Definition counters_ok (s : session) : Prop :=
  0 <= retrycount s <= MAXRETRY + 1
  /\ match state s with
     | TRANS_RUN => 0 <= counter s < 128
     | TRANS_BLOCK | TRANS_BLOCK2 => counter s = 0
     | _ => True
     end.

(** ** Corrupted payloads *)

(** The octets [p] XORed one by one with the octets [e]. *)
Definition xor_bytes (p e : list Z) : list Z := zip_with Z.lxor p e.

(** The octets [bs] with bit [j] of octet number [i] inverted. *)
Definition flip_bit (i : nat) (j : Z) (bs : list Z) : list Z :=
  alter (fun b => Z.lxor b (2 ^ j)) i bs.

(** ** Shapes a session keeps *)

(** The payloads of a run of frames, one after the other. *)
Definition payloads (fs : list (Z * list Z)) : list Z :=
  concat (snd <$> fs).

(** Every static holds a value of its C type and the array holds octets. *)
Definition well_typed (s : session) : Prop :=
  is_u16 (current_crc s) /\ is_u16 (crc_recv s) /\ is_u16 (mempos s)
  /\ is_u8 (blocknum s) /\ is_u8 (last_succeeded_block s)
  /\ Forall is_u8 (buffer s).

(** The octets a receiver answers with. *)
Definition is_reply (c : Z) : Prop :=
  c = CHAR_C \/ c = X_ACK \/ c = X_NAK.

(** ** Uploads *)

(** The frames of [k] blocks of the array from block [b] on, as
    [xmod_sendblock] sends them: block [b] lies at offset [128 * (b - 1)]. *)
Fixpoint buffer_frames (buf : list Z) (b : Z) (k : nat) : list Z :=
  match k with
  | O => []
  | S k' => frame b (slot (128 * (b - 1)) buf) ++ buffer_frames buf (b + 1) k'
  end.

(** Iterations that each read an ACK; [js] are the values a call of
    [xmod_sendblock] hands back in them. *)
Definition acks (js : list STATE) : list (poll * STATE) :=
  (fun j => (Avail X_ACK, j)) <$> js.

(** A silent iteration whose timer reading is past the timeout. *)
Definition is_timeout (e : poll) : Prop :=
  match e with
  | Idle ms => TIMEOUT_MS < ms
  | Avail _ => False
  end.

(** * Properties *)

(** ** Fixed-width arithmetic *)

Lemma u8_small x : is_u8 x -> u8 x = x.
Proof. unfold is_u8, u8. intros. apply Z.mod_small. lia. Qed.

Lemma u16_small x : is_u16 x -> u16 x = x.
Proof. unfold is_u16, u16. intros. apply Z.mod_small. lia. Qed.

Lemma u8_range x : is_u8 (u8 x).
Proof. unfold is_u8, u8. apply Z.mod_pos_bound. lia. Qed.

Lemma u16_range x : is_u16 (u16 x).
Proof. unfold is_u16, u16. apply Z.mod_pos_bound. lia. Qed.

Lemma is_u8_u16 x : is_u8 x -> is_u16 x.
Proof. unfold is_u8, is_u16. lia. Qed.

Lemma below_pow2_bits n x i :
  0 <= n -> 0 <= x < 2 ^ n -> n <= i -> Z.testbit x i = false.
Proof.
  intros Hn Hx Hi.
  rewrite <- (Z.mod_small x (2 ^ n)) by lia.
  apply Z.mod_pow2_bits_high. lia.
Qed.

Lemma bits_below_pow2 n x :
  0 <= n -> 0 <= x -> (forall i, n <= i -> Z.testbit x i = false) ->
  x < 2 ^ n.
Proof.
  intros Hn Hx Hbits.
  destruct (Z.eq_dec x 0) as [->|Hne].
  - apply Z.pow_pos_nonneg; lia.
  - apply Z.log2_lt_pow2; [lia|].
    destruct (Z_lt_le_dec (Z.log2 x) n) as [?|Hle]; [assumption|].
    specialize (Hbits _ Hle).
    rewrite Z.bit_log2 in Hbits by lia. discriminate.
Qed.

Lemma lxor_u16 a b : is_u16 a -> is_u16 b -> is_u16 (Z.lxor a b).
Proof.
  unfold is_u16. intros Ha Hb. split.
  - apply Z.lxor_nonneg. lia.
  - apply (bits_below_pow2 16); [lia| apply Z.lxor_nonneg; lia |].
    intros i Hi. rewrite Z.lxor_spec.
    rewrite (below_pow2_bits 16 a), (below_pow2_bits 16 b) by (simpl; lia).
    reflexivity.
Qed.

Lemma lor_u16 a b : is_u16 a -> is_u16 b -> is_u16 (Z.lor a b).
Proof.
  unfold is_u16. intros Ha Hb. split.
  - apply Z.lor_nonneg. lia.
  - apply (bits_below_pow2 16); [lia| apply Z.lor_nonneg; lia |].
    intros i Hi. rewrite Z.lor_spec.
    rewrite (below_pow2_bits 16 a), (below_pow2_bits 16 b) by (simpl; lia).
    reflexivity.
Qed.

Lemma land_top_bit x :
  is_u16 x -> (Z.land x 0x8000 =? 0) = negb (32768 <=? x).
Proof.
  unfold is_u16. intros Hx.
  assert (Hb : Z.land x 0x8000 = if Z.testbit x 15 then 32768 else 0).
  { apply Z.bits_inj'. intros i Hi. rewrite Z.land_spec.
    change 0x8000 with (2 ^ 15). rewrite Z.pow2_bits_eqb by lia.
    destruct (Z.eqb_spec 15 i) as [<-|Hne].
    - rewrite andb_true_r. destruct (Z.testbit x 15) eqn:E.
      + change 32768 with (2 ^ 15). rewrite Z.pow2_bits_true; lia.
      + now rewrite Z.bits_0.
    - rewrite andb_false_r. destruct (Z.testbit x 15).
      + change 32768 with (2 ^ 15). rewrite Z.pow2_bits_false; lia.
      + now rewrite Z.bits_0. }
  rewrite Hb.
  assert (Ht : Z.testbit x 15 = (32768 <=? x)).
  { rewrite Z.testbit_eqb by lia. change (2 ^ 15) with 32768.
    destruct (Z.leb_spec 32768 x).
    - assert (x / 32768 = 1) as -> by (Z.div_mod_to_equations; lia).
      reflexivity.
    - rewrite Z.div_small by lia. reflexivity. }
  rewrite Ht. destruct (32768 <=? x); reflexivity.
Qed.

(** ** CRC engine *)

Lemma shiftl1_u16 x : u16 (Z.shiftl x 1) = shift_left16 x.
Proof.
  unfold u16, shift_left16. rewrite Z.shiftl_mul_pow2 by lia.
  f_equal. change (2 ^ 1) with 2. lia.
Qed.

Lemma shift_left16_range x : is_u16 (shift_left16 x).
Proof. unfold is_u16, shift_left16. apply Z.mod_pos_bound. lia. Qed.

Lemma crc_round_spec x : is_u16 x -> crc_round x = spec_round x.
Proof.
  intros Hx. unfold crc_round, spec_round, top_bit_set.
  rewrite land_top_bit by assumption. rewrite negb_involutive.
  rewrite shiftl1_u16.
  destruct (32768 <=? x).
  - apply u16_small, lxor_u16; [apply shift_left16_range|].
    unfold POLY, is_u16. lia.
  - reflexivity.
Qed.

Lemma crc_round_range x : is_u16 (crc_round x).
Proof. unfold crc_round. destruct (negb _); apply u16_range. Qed.

Lemma crc_loop_spec n x :
  is_u16 x -> crc_loop n x = Nat.iter n spec_round x.
Proof.
  revert x. induction n as [|n IH]; intros x Hx; [reflexivity|].
  cbn [crc_loop]. rewrite IH by apply crc_round_range.
  rewrite crc_round_spec by assumption.
  symmetry. apply Nat.iter_succ_r.
Qed.

Lemma crc_loop_range n x : is_u16 x -> is_u16 (crc_loop n x).
Proof.
  revert x. induction n as [|n IH]; intros x Hx; [assumption|].
  cbn [crc_loop]. apply IH, crc_round_range.
Qed.

Lemma xmod_crc_update_range a b : is_u16 (xmod_crc_update a b).
Proof. unfold xmod_crc_update. apply crc_loop_range, u16_range. Qed.

Lemma crc_bytes_range acc bs : is_u16 acc -> is_u16 (crc_bytes acc bs).
Proof.
  unfold crc_bytes. revert acc.
  induction bs as [|b bs IH]; intros acc Hacc; [assumption|].
  cbn [fold_left]. apply IH, xmod_crc_update_range.
Qed.

Lemma crc_bytes_app acc bs cs :
  crc_bytes acc (bs ++ cs) = crc_bytes (crc_bytes acc bs) cs.
Proof. unfold crc_bytes. apply fold_left_app. Qed.

Lemma high_octet_range b : is_u8 b -> is_u16 (b * 256).
Proof. unfold is_u8, is_u16. lia. Qed.

Lemma xmod_crc_update_spec a b :
  is_u16 a -> is_u8 b -> xmod_crc_update a b = ccitt_false_step a b.
Proof.
  intros Ha Hb. unfold xmod_crc_update, ccitt_false_step.
  rewrite (u16_small a), (u8_small b) by assumption.
  rewrite (u16_small b) by now apply is_u8_u16.
  rewrite Z.shiftl_mul_pow2 by lia. change (2 ^ 8) with 256.
  rewrite u16_small
    by (apply lxor_u16; [assumption | now apply high_octet_range]).
  apply crc_loop_spec, lxor_u16; [assumption | now apply high_octet_range].
Qed.

(** The check values of the CRC catalogue for the message "123456789": the
    step gives [0x29B1] from the start value [0xFFFF] (CRC-16/CCITT-FALSE)
    and [0x31C3] from the start value [0] that this program uses. *)
Example crc_check_ccitt_false :
  crc_bytes 0xFFFF [49; 50; 51; 52; 53; 54; 55; 56; 57] = 0x29B1.
Proof. vm_compute. reflexivity. Qed.

Example crc_check_from_zero :
  crc_bytes 0 [49; 50; 51; 52; 53; 54; 55; 56; 57] = 0x31C3.
Proof. vm_compute. reflexivity. Qed.

(** ** Receive handler: one lemma per state *)

#[local] Arguments u8 : simpl never.
#[local] Arguments u16 : simpl never.
#[local] Arguments xmod_crc_update : simpl never.
#[local] Arguments Z.of_nat : simpl never.
#[local] Arguments Z.to_nat : simpl never.
#[local] Arguments Z.sub : simpl never.
#[local] Arguments Z.add : simpl never.
#[local] Arguments Z.mul : simpl never.
#[local] Arguments Z.eqb : simpl nomatch.
#[local] Arguments Z.ltb : simpl nomatch.
#[local] Arguments Z.leb : simpl nomatch.

Ltac fields :=
  cbn [state counter mempos buffer current_crc retrycount crc_recv
       blocknum last_succeeded_block io].

Ltac open_session s :=
  let st := fresh "st" in
  destruct s as [st ? ? ? ? ? ? ? ? ?]; simpl in *; subst st;
  unfold receive, handlebyte, in_state, store, in_buffer; simpl.

Lemma receive_soh s :
  state s = TRANS_AWAIT ->
  receive X_SOH s =
  Ok (mkSession TRANS_BLOCK (retrycount s) 0 0 (crc_recv s) (mempos s)
        (blocknum s) (last_succeeded_block s) (buffer s) (io s)).
Proof. intros Hst. open_session s. reflexivity. Qed.

Lemma receive_blocknum s d :
  state s = TRANS_BLOCK ->
  receive d s =
  Ok (mkSession TRANS_BLOCK2 (retrycount s) (counter s) (current_crc s)
        (crc_recv s) (mempos s) (u8 d) (last_succeeded_block s) (buffer s)
        (io s)).
Proof. intros Hst. open_session s. reflexivity. Qed.

Lemma receive_complement_ok s d :
  state s = TRANS_BLOCK2 -> blocknum s = 0xFF - u8 d ->
  receive d s =
  Ok (mkSession TRANS_RUN (retrycount s) (counter s) (current_crc s)
        (crc_recv s) (run_cursor (blocknum s) s) (blocknum s)
        (last_succeeded_block s) (buffer s) (io s)).
Proof.
  intros Hst Hbn. unfold run_cursor. open_session s.
  rewrite <- Hbn, Z.eqb_refl. simpl.
  match goal with |- context [?a =? ?b] => destruct (a =? b) end; reflexivity.
Qed.

Lemma receive_complement_bad s d :
  state s = TRANS_BLOCK2 -> blocknum s <> 0xFF - u8 d ->
  receive d s = Ok (set_state TRANS_ABORT s).
Proof.
  intros Hst Hbn. open_session s.
  match goal with |- context [?a =? ?b] => destruct (Z.eqb_spec a b) end;
    [contradiction | reflexivity].
Qed.

(** One payload octet in [TRANS_RUN] with the cursor inside the array. *)
Lemma receive_run_step s d :
  state s = TRANS_RUN -> 0 <= mempos s < Z.of_nat (length (buffer s)) ->
  receive d s =
  Ok (mkSession (if counter s + 1 =? 128 then TRANS_CRC1 else TRANS_RUN)
        (retrycount s) (counter s + 1)
        (xmod_crc_update (current_crc s) d) (crc_recv s)
        (u16 (mempos s + 1)) (blocknum s) (last_succeeded_block s)
        (<[Z.to_nat (mempos s) := u8 d]> (buffer s)) (io s)).
Proof.
  intros Hst Hm. open_session s.
  match goal with |- context [0 <=? ?m] =>
    replace (0 <=? m) with true by (symmetry; apply Z.leb_le; lia) end.
  match goal with |- context [?m <? ?l] =>
    replace (m <? l) with true by (symmetry; apply Z.ltb_lt; lia) end.
  simpl.
  match goal with |- context [?a =? ?b] => destruct (a =? b) end; reflexivity.
Qed.

(** One payload octet in [TRANS_RUN] with the cursor past the array: the
    store is made at the cursor, whatever its value. *)
Lemma receive_run_overflow s d :
  state s = TRANS_RUN -> Z.of_nat (length (buffer s)) <= mempos s ->
  receive d s = OutOfBounds (mempos s).
Proof.
  intros Hst Hm. open_session s.
  match goal with |- context [?m <? ?l] =>
    replace (m <? l) with false by (symmetry; apply Z.ltb_ge; lia) end.
  rewrite andb_false_r. reflexivity.
Qed.

Lemma receive_crc1 s d :
  state s = TRANS_CRC1 ->
  receive d s =
  Ok (mkSession TRANS_CRC2 (retrycount s) (counter s) (current_crc s)
        (u16 (Z.shiftl (u16 d) 8)) (mempos s) (blocknum s)
        (last_succeeded_block s) (buffer s) (io s)).
Proof. intros Hst. open_session s. reflexivity. Qed.

Lemma receive_crc2_match s d :
  state s = TRANS_CRC2 ->
  u16 (Z.lor (crc_recv s) (u8 d)) = current_crc s ->
  receive d s =
  Ok (mkSession TRANS_AWAIT (retrycount s) (counter s) (current_crc s)
        (current_crc s) (mempos s) (blocknum s) (blocknum s) (buffer s)
        (io s ++ [Putc X_ACK])).
Proof.
  intros Hst Hcrc. open_session s. rewrite Hcrc, Z.eqb_refl. reflexivity.
Qed.

Lemma receive_crc2_mismatch s d :
  state s = TRANS_CRC2 ->
  u16 (Z.lor (crc_recv s) (u8 d)) <> current_crc s ->
  receive d s =
  Ok (mkSession TRANS_AWAIT (retrycount s) (counter s) (current_crc s)
        (u16 (Z.lor (crc_recv s) (u8 d))) (u16 (mempos s - 128))
        (blocknum s) (last_succeeded_block s) (buffer s)
        (io s ++ [Putc X_NAK])).
Proof.
  intros Hst Hcrc. open_session s.
  match goal with |- context [?a =? ?b] => destruct (Z.eqb_spec a b) end;
    [contradiction | reflexivity].
Qed.

(** ** The download loop on arriving bytes *)

Lemma running_reset_millis s : running (reset_millis s) = running s.
Proof. destruct s. reflexivity. Qed.

(** A byte after which the session is still running: the loop goes on. *)
Lemma download_loop_avail d evs s s' :
  receive d s = Ok s' -> running s' = true ->
  download_loop (Avail d :: evs) s = download_loop evs (reset_millis s').
Proof.
  intros Hr Hrun. cbn [download_loop download_body]. rewrite Hr.
  cbn [mbind result_bind]. now rewrite running_reset_millis, Hrun.
Qed.

(** A byte that ends the session: the loop is left, the later events stay. *)
Lemma download_loop_stop d evs s s' :
  receive d s = Ok s' -> running s' = false ->
  download_loop (Avail d :: evs) s = Ok (reset_millis s', evs).
Proof.
  intros Hr Hrun. cbn [download_loop download_body]. rewrite Hr.
  cbn [mbind result_bind]. now rewrite running_reset_millis, Hrun.
Qed.

Lemma download_loop_fault d evs s i :
  receive d s = OutOfBounds i ->
  download_loop (Avail d :: evs) s = OutOfBounds i.
Proof.
  intros Hr. cbn [download_loop download_body]. now rewrite Hr.
Qed.

(** [SOH], block number, complement: the handler is in [TRANS_RUN], with
    the cursor rewound when the number is the last committed one. *)
Lemma download_header s n evs :
  state s = TRANS_AWAIT -> is_u8 n ->
  download_loop (Avail X_SOH :: Avail n :: Avail (0xFF - n) :: evs) s =
  download_loop evs
    (mkSession TRANS_RUN (retrycount s) 0 0 (crc_recv s) (run_cursor n s)
       n (last_succeeded_block s) (buffer s) (io s ++ resets 3)).
Proof.
  intros Hst Hn.
  assert (H1 : u8 n = n) by now apply u8_small.
  assert (H2 : u8 (255 - n) = 255 - n)
    by (apply u8_small; unfold is_u8 in *; lia).
  erewrite download_loop_avail;
    [| apply receive_soh; assumption | reflexivity].
  erewrite download_loop_avail;
    [| apply receive_blocknum; reflexivity | reflexivity].
  erewrite download_loop_avail;
    [| apply receive_complement_ok;
       [reflexivity
       | unfold reset_millis, set_io; fields; rewrite H1, H2; lia]
     | reflexivity].
  unfold reset_millis, set_io, run_cursor. fields. rewrite H1.
  rewrite <- !app_assoc. reflexivity.
Qed.

(** A run of payload octets that fits both the block and the array. *)
Lemma download_payload p : forall s evs,
  state s = TRANS_RUN ->
  0 <= counter s < 128 -> counter s + Z.of_nat (length p) <= 128 ->
  0 <= mempos s ->
  mempos s + Z.of_nat (length p) <= Z.of_nat (length (buffer s)) ->
  mempos s + Z.of_nat (length p) < 65536 ->
  download_loop ((Avail <$> p) ++ evs) s =
  download_loop evs
    (mkSession
       (if counter s + Z.of_nat (length p) =? 128
        then TRANS_CRC1 else TRANS_RUN)
       (retrycount s) (counter s + Z.of_nat (length p))
       (crc_bytes (current_crc s) p) (crc_recv s)
       (mempos s + Z.of_nat (length p)) (blocknum s)
       (last_succeeded_block s)
       (list_inserts (Z.to_nat (mempos s)) (u8 <$> p) (buffer s))
       (io s ++ resets (length p))).
Proof.
  induction p as [|d p IH]; intros s evs Hst Hc Hcl Hm Hml Hmu.
  - destruct s as [st rc cnt crc rcv m bn last buf out]. simpl in *. subst st.
    rewrite !Z.add_0_r, app_nil_r.
    replace (cnt =? 128) with false by (symmetry; apply Z.eqb_neq; lia).
    reflexivity.
  - cbn [fmap list_fmap app length] in *.
    erewrite download_loop_avail;
      [| apply receive_run_step; [assumption | lia]
       | destruct (counter s + 1 =? 128); reflexivity].
    unfold reset_millis, set_io. fields.
    rewrite u16_small by (unfold is_u16; lia).
    destruct (Z.eqb_spec (counter s + 1) 128) as [E|E].
    + (* the block is complete: no octet is left *)
      destruct p as [|d' p']; [|cbn [length] in Hcl; lia].
      cbn [fmap list_fmap app length list_inserts].
      replace (counter s + Z.of_nat 1) with (counter s + 1) by lia.
      replace (mempos s + Z.of_nat 1) with (mempos s + 1) by lia.
      destruct (Z.eqb_spec (counter s + 1) 128); [|contradiction].
      reflexivity.
    + rewrite IH; fields; rewrite ?length_insert; try lia; try reflexivity.
      replace (counter s + 1 + Z.of_nat (length p))
        with (counter s + Z.of_nat (S (length p))) by lia.
      replace (mempos s + 1 + Z.of_nat (length p))
        with (mempos s + Z.of_nat (S (length p))) by lia.
      replace (Z.to_nat (mempos s + 1)) with (S (Z.to_nat (mempos s))) by lia.
      cbn [list_inserts].
      rewrite list_insert_inserts_lt by lia.
      rewrite <- app_assoc. reflexivity.
Qed.

(** ** The two CRC octets *)

Lemma land_255 x : Z.land x 0xFF = x mod 256.
Proof. change 0xFF with (Z.ones 8). now rewrite Z.land_ones by lia. Qed.

Lemma crc_hi_range c : is_u8 (crc_hi c).
Proof.
  unfold crc_hi, is_u8. rewrite land_255. apply Z.mod_pos_bound. lia.
Qed.

Lemma crc_lo_range c : is_u8 (crc_lo c).
Proof.
  unfold crc_lo, is_u8. rewrite land_255. apply Z.mod_pos_bound. lia.
Qed.

Lemma crc_of_octets_range hi lo : is_u16 (crc_of_octets hi lo).
Proof. unfold crc_of_octets. apply u16_range. Qed.

(** The handler reassembles a 16-bit value from its octets as the
    transmit driver takes them apart. *)
Lemma crc_of_octets_hi_lo c :
  is_u16 c -> crc_of_octets (crc_hi c) (crc_lo c) = c.
Proof.
  intros Hc. unfold crc_of_octets.
  pose proof (crc_hi_range c) as Hh. pose proof (crc_lo_range c) as Hl.
  rewrite (u16_small (crc_hi c)) by now apply is_u8_u16.
  rewrite (u8_small (crc_lo c)) by assumption.
  assert (Hs : is_u16 (Z.shiftl (crc_hi c) 8)).
  { rewrite Z.shiftl_mul_pow2 by lia. change (2 ^ 8) with 256.
    now apply high_octet_range. }
  rewrite (u16_small (Z.shiftl _ _)) by assumption.
  rewrite u16_small by (apply lor_u16; [assumption | now apply is_u8_u16]).
  apply Z.bits_inj'. intros i Hi.
  rewrite Z.lor_spec. unfold crc_hi, crc_lo. rewrite !land_255.
  change 256 with (2 ^ 8).
  rewrite (Z.testbit_mod_pow2 c 8 i) by lia.
  destruct (Z.ltb_spec i 8) as [Hlt|Hge].
  - rewrite Z.shiftl_spec_low by lia. reflexivity.
  - rewrite Z.shiftl_spec by lia.
    rewrite Z.testbit_mod_pow2 by lia.
    rewrite Z.shiftr_spec by lia.
    replace (i - 8 + 8) with i by lia.
    destruct (Z.ltb_spec (i - 8) 8) as [Hlt'|Hge'].
    + simpl. now rewrite orb_false_r.
    + simpl. symmetry.
      apply (below_pow2_bits 16); unfold is_u16 in Hc; simpl; lia.
Qed.

(** The two CRC octets after the payload, when the received value matches
    the accumulator. *)
Lemma download_crc_match s hi lo evs :
  state s = TRANS_CRC1 -> crc_of_octets hi lo = current_crc s ->
  download_loop (Avail hi :: Avail lo :: evs) s =
  download_loop evs
    (mkSession TRANS_AWAIT (retrycount s) (counter s) (current_crc s)
       (current_crc s) (mempos s) (blocknum s) (blocknum s) (buffer s)
       (io s ++ [ResetMillis; Putc X_ACK; ResetMillis])).
Proof.
  intros Hst Hcrc.
  erewrite download_loop_avail;
    [| apply receive_crc1; assumption | reflexivity].
  erewrite download_loop_avail;
    [| apply receive_crc2_match; [reflexivity | exact Hcrc] | reflexivity].
  unfold reset_millis, set_io. fields.
  rewrite <- !app_assoc. reflexivity.
Qed.

(** The same two octets when the received value differs. *)
Lemma download_crc_mismatch s hi lo evs :
  state s = TRANS_CRC1 -> crc_of_octets hi lo <> current_crc s ->
  download_loop (Avail hi :: Avail lo :: evs) s =
  download_loop evs
    (mkSession TRANS_AWAIT (retrycount s) (counter s) (current_crc s)
       (crc_of_octets hi lo) (u16 (mempos s - 128)) (blocknum s)
       (last_succeeded_block s) (buffer s)
       (io s ++ [ResetMillis; Putc X_NAK; ResetMillis])).
Proof.
  intros Hst Hcrc.
  erewrite download_loop_avail;
    [| apply receive_crc1; assumption | reflexivity].
  erewrite download_loop_avail;
    [| apply receive_crc2_mismatch; [reflexivity | exact Hcrc] | reflexivity].
  unfold reset_millis, set_io. fields.
  rewrite <- !app_assoc. reflexivity.
Qed.

(** ** Whole frames *)

(** The log entries one frame leaves: a timer reset per byte and the reply
    [r] when the last byte is handled. *)
Lemma frame_log_assoc (l : list io_event) r :
  ((l ++ resets 3) ++ resets 128) ++ [ResetMillis; Putc r; ResetMillis]
  = l ++ resets 132 ++ [Putc r; ResetMillis].
Proof. rewrite <- !app_assoc. reflexivity. Qed.

(** Header and payload of a frame, up to the first CRC octet. *)
Lemma download_frame_payload s n p evs :
  state s = TRANS_AWAIT -> is_u8 n -> length p = 128%nat ->
  slot_fits (run_cursor n s) s ->
  download_loop ((Avail <$> ([X_SOH; n; 0xFF - n] ++ p)) ++ evs) s =
  download_loop evs
    (mkSession TRANS_CRC1 (retrycount s) 128 (crc_bytes 0 p) (crc_recv s)
       (run_cursor n s + 128) n (last_succeeded_block s)
       (list_inserts (Z.to_nat (run_cursor n s)) (u8 <$> p) (buffer s))
       (io s ++ resets 3 ++ resets 128)).
Proof.
  intros Hst Hn Hp (Hm0 & Hm1 & Hm2).
  cbn [fmap list_fmap app].
  rewrite download_header by assumption.
  rewrite download_payload; fields; rewrite ?Hp; try lia; try reflexivity.
  rewrite <- app_assoc. reflexivity.
Qed.

Lemma frame_with_events n p hi lo evs :
  (Avail <$> frame_with n p hi lo) ++ evs
  = (Avail <$> ([X_SOH; n; 0xFF - n] ++ p)) ++ Avail hi :: Avail lo :: evs.
Proof.
  unfold frame_with. rewrite app_assoc, fmap_app, <- app_assoc. reflexivity.
Qed.

(** A frame whose CRC octets match its payload is committed. *)
Lemma download_frame_match s n p hi lo evs :
  state s = TRANS_AWAIT -> is_u8 n -> length p = 128%nat ->
  slot_fits (run_cursor n s) s ->
  crc_of_octets hi lo = crc_bytes 0 p ->
  download_loop ((Avail <$> frame_with n p hi lo) ++ evs) s =
  download_loop evs
    (mkSession TRANS_AWAIT (retrycount s) 128 (crc_bytes 0 p)
       (crc_bytes 0 p) (run_cursor n s + 128) n n
       (list_inserts (Z.to_nat (run_cursor n s)) (u8 <$> p) (buffer s))
       (io s ++ resets 132 ++ [Putc X_ACK; ResetMillis])).
Proof.
  intros Hst Hn Hp Hfit Hcrc.
  rewrite frame_with_events, download_frame_payload by assumption.
  rewrite (download_crc_match _ hi lo) by (try reflexivity; exact Hcrc).
  fields. rewrite app_assoc, frame_log_assoc. reflexivity.
Qed.

(** A frame whose CRC octets do not match its payload is refused and the
    cursor is back where the payload started. *)
Lemma download_frame_mismatch s n p hi lo evs :
  state s = TRANS_AWAIT -> is_u8 n -> length p = 128%nat ->
  slot_fits (run_cursor n s) s ->
  crc_of_octets hi lo <> crc_bytes 0 p ->
  download_loop ((Avail <$> frame_with n p hi lo) ++ evs) s =
  download_loop evs
    (mkSession TRANS_AWAIT (retrycount s) 128 (crc_bytes 0 p)
       (crc_of_octets hi lo) (run_cursor n s) n (last_succeeded_block s)
       (list_inserts (Z.to_nat (run_cursor n s)) (u8 <$> p) (buffer s))
       (io s ++ resets 132 ++ [Putc X_NAK; ResetMillis])).
Proof.
  intros Hst Hn Hp Hfit Hcrc.
  rewrite frame_with_events, download_frame_payload by assumption.
  rewrite (download_crc_mismatch _ hi lo) by (try reflexivity; exact Hcrc).
  fields. destruct Hfit as (Hm0 & Hm1 & Hm2).
  replace (run_cursor n s + 128 - 128) with (run_cursor n s) by lia.
  rewrite u16_small by (unfold is_u16; lia).
  rewrite app_assoc, frame_log_assoc. reflexivity.
Qed.

Lemma frame_crc_matches p :
  crc_of_octets (crc_hi (crc_bytes 0 p)) (crc_lo (crc_bytes 0 p))
  = crc_bytes 0 p.
Proof. apply crc_of_octets_hi_lo, crc_bytes_range. unfold is_u16. lia. Qed.

(** A well-formed frame is committed. *)
Lemma download_frame s n p evs :
  state s = TRANS_AWAIT -> is_u8 n -> length p = 128%nat ->
  slot_fits (run_cursor n s) s ->
  download_loop ((Avail <$> frame n p) ++ evs) s =
  download_loop evs
    (mkSession TRANS_AWAIT (retrycount s) 128 (crc_bytes 0 p)
       (crc_bytes 0 p) (run_cursor n s + 128) n n
       (list_inserts (Z.to_nat (run_cursor n s)) (u8 <$> p) (buffer s))
       (io s ++ resets 132 ++ [Putc X_ACK; ResetMillis])).
Proof.
  intros. unfold frame. apply download_frame_match; try assumption.
  apply frame_crc_matches.
Qed.

(** Octets are left alone by the conversion to [uint8_t]. *)
Lemma fmap_u8_octets p : Forall is_u8 p -> u8 <$> p = p.
Proof.
  induction 1 as [|d p Hd _ IH]; [reflexivity|].
  cbn [fmap list_fmap]. rewrite u8_small by assumption. f_equal. exact IH.
Qed.

(** Reading back a slot that was just filled. *)
Lemma slot_list_inserts (m : Z) (p buf : list Z) :
  0 <= m -> length p = 128%nat ->
  m + 128 <= Z.of_nat (length buf) ->
  slot m (list_inserts (Z.to_nat m) p buf) = p.
Proof.
  intros Hm Hp Hfit. unfold slot.
  apply list_eq. intros i.
  destruct (Nat.lt_ge_cases i 128) as [Hi|Hi].
  - rewrite lookup_take_lt by assumption. rewrite lookup_drop.
    rewrite list_lookup_inserts by lia.
    f_equal. lia.
  - rewrite lookup_take_ge by assumption.
    symmetry. apply lookup_ge_None. lia.
Qed.

(** Outside the slot the array keeps its content. *)
Lemma lookup_list_inserts_outside (m : nat) (p buf : list Z) (i : nat) :
  (i < m \/ m + length p <= i)%nat ->
  list_inserts m p buf !! i = buf !! i.
Proof.
  intros [Hi|Hi].
  - now apply list_lookup_inserts_lt.
  - now apply list_lookup_inserts_ge.
Qed.

(** ** Transmit driver *)

Lemma send_payload_ok n : forall p offset s,
  0 <= p + offset ->
  p + offset + Z.of_nat n <= Z.of_nat (length (buffer s)) ->
  send_payload n p offset s =
  Ok (mkSession (state s) (retrycount s) (counter s)
        (crc_bytes (current_crc s)
           (take n (drop (Z.to_nat (p + offset)) (buffer s))))
        (crc_recv s) (mempos s) (blocknum s) (last_succeeded_block s)
        (buffer s)
        (io s ++ (Putc <$> (u8 <$>
           take n (drop (Z.to_nat (p + offset)) (buffer s)))))).
Proof.
  induction n as [|n IH]; intros p offset s Hlo Hhi.
  - destruct s as [st rc cnt crc rcv m bn last buf out].
    cbn. now rewrite app_nil_r.
  - cbn [send_payload]. unfold load.
    destruct (lookup_lt_is_Some_2 (buffer s) (Z.to_nat (p + offset)))
      as [v Hv]; [lia|].
    rewrite Hv.
    replace (0 <=? p + offset) with true by (symmetry; apply Z.leb_le; lia).
    cbn [mbind result_bind].
    rewrite IH;
      cbn [state counter mempos buffer current_crc retrycount crc_recv
           blocknum last_succeeded_block io uart_putc set_current_crc set_io];
      try lia.
    rewrite (drop_S _ _ _ Hv).
    replace (Z.to_nat (p + 1 + offset)) with (S (Z.to_nat (p + offset))) by lia.
    cbn [take fmap list_fmap crc_bytes fold_left].
    rewrite <- app_assoc. reflexivity.
Qed.

(** The octets [xmod_sendblock] puts on the line are a frame: the block
    number, its complement, the slot of the buffer at the block's offset
    and the CRC of that slot folded from [0]. *)
Lemma xmod_sendblock_ok cap junk s :
  is_u8 (blocknum s) ->
  Forall is_u8 (slot (block_offset cap (blocknum s)) (buffer s)) ->
  0 <= block_offset cap (blocknum s) ->
  block_offset cap (blocknum s) + 128 <= Z.of_nat (length (buffer s)) ->
  xmod_sendblock cap junk s =
  Ok (junk,
      mkSession (state s) (retrycount s) (counter s)
        (crc_bytes 0 (slot (block_offset cap (blocknum s)) (buffer s)))
        (crc_recv s) (mempos s) (blocknum s) (last_succeeded_block s)
        (buffer s)
        (io s ++ (Putc <$>
           frame (blocknum s)
             (slot (block_offset cap (blocknum s)) (buffer s))))).
Proof.
  intros Hbn Hbuf Hlo Hhi. unfold xmod_sendblock.
  cbn [state counter mempos buffer current_crc retrycount crc_recv
       blocknum last_succeeded_block io uart_putc set_current_crc set_io].
  rewrite send_payload_ok;
    cbn [state counter mempos buffer current_crc retrycount crc_recv
         blocknum last_succeeded_block io uart_putc set_current_crc set_io];
    try lia.
  cbn [mbind result_bind].
  replace (0 + block_offset cap (blocknum s))
    with (block_offset cap (blocknum s)) by lia.
  fold (slot (block_offset cap (blocknum s)) (buffer s)).
  set (pl := slot (block_offset cap (blocknum s)) (buffer s)) in *.
  rewrite (fmap_u8_octets pl) by assumption.
  cbn [state counter mempos buffer current_crc retrycount crc_recv
       blocknum last_succeeded_block io uart_putc set_current_crc set_io].
  fold (crc_hi (crc_bytes 0 pl)). fold (crc_lo (crc_bytes 0 pl)).
  unfold uart_putc.
  cbn [state counter mempos buffer current_crc retrycount crc_recv
       blocknum last_succeeded_block io set_io].
  rewrite (u8_small (crc_hi _)) by apply crc_hi_range.
  rewrite (u8_small (crc_lo _)) by apply crc_lo_range.
  rewrite (u8_small (blocknum s)) by assumption.
  rewrite (u8_small (255 - blocknum s)) by (unfold is_u8 in *; lia).
  unfold frame, frame_with.
  rewrite !fmap_app. cbn [fmap list_fmap].
  rewrite <- !app_assoc. reflexivity.
Qed.

(** ** The [int] counters stay small

    [counter] and [retrycount] are [int]s in the C code and plain integers
    here.  In a download they never leave the range [0 .. 128] and
    [0 .. MAXRETRY + 1], far from any overflow; an upload keeps [retrycount]
    in the same range. *)

Lemma download_init_counters_ok s : counters_ok (download_init s).
Proof. destruct s. split; [cbn; unfold MAXRETRY; lia | exact I]. Qed.

Lemma download_body_counters_ok e s s' :
  running s = true -> counters_ok s ->
  download_body e s = Ok s' -> counters_ok s'.
Proof.
  intros Hrun [Hrc Hcnt] Hbody.
  destruct s as [st rc cnt crc rcv m bn last buf out].
  cbn [retrycount counter state] in *.
  destruct e as [ms|d]; cbn [download_body] in Hbody.
  - destruct (ms <=? TIMEOUT_MS); [injection Hbody as <-; now split|].
    cbn [retrycount] in Hbody. rewrite Z.gtb_ltb in Hbody.
    destruct (Z.ltb_spec MAXRETRY rc); injection Hbody as <-;
      split; cbn; try exact I; try assumption; try lia.
  - unfold receive, handlebyte, in_state, store, in_buffer in Hbody.
    cbn [state] in Hbody.
    destruct st; try discriminate Hrun; cbn in Hbody;
      repeat (match type of Hbody with
              | context [if ?b then _ else _] => destruct b eqn:?
              end; cbn in Hbody);
      try discriminate Hbody;
      injection Hbody as <-; split; cbn; try exact I; try assumption;
      try lia;
      repeat match goal with
             | H : (_ =? _) = false |- _ => apply Z.eqb_neq in H
             end; lia.
Qed.

Lemma download_loop_counters_ok evs : forall s s' rest,
  counters_ok s -> running s = true ->
  download_loop evs s = Ok (s', rest) -> counters_ok s'.
Proof.
  induction evs as [|e evs IH]; intros s s' rest Hok Hrun Hloop.
  - cbn in Hloop. injection Hloop as <- _. exact Hok.
  - cbn [download_loop] in Hloop.
    destruct (download_body e s) as [s1|i] eqn:Hbody; [|discriminate].
    cbn [mbind result_bind] in Hloop.
    pose proof (download_body_counters_ok e s s1 Hrun Hok Hbody) as Hok1.
    destruct (running s1) eqn:Hrun1.
    + exact (IH s1 s' rest Hok1 Hrun1 Hloop).
    + injection Hloop as <- _. exact Hok1.
Qed.

Lemma xmod_download_counters_ok evs s s' rest :
  xmod_download evs s = Ok (s', rest) -> counters_ok s'.
Proof.
  unfold xmod_download. intros H.
  destruct (download_loop evs (download_init s)) as [[s1 r]|i] eqn:E;
    [|discriminate].
  cbn [mbind result_bind] in H. injection H as <- _.
  apply (download_loop_counters_ok evs (download_init s) s1 r);
    [apply download_init_counters_ok | destruct s; reflexivity | exact E].
Qed.

Lemma send_payload_retrycount n : forall p offset s s',
  send_payload n p offset s = Ok s' -> retrycount s' = retrycount s.
Proof.
  induction n as [|n IH]; intros p offset s s' H.
  - cbn in H. now injection H as <-.
  - cbn [send_payload] in H.
    destruct (load (p + offset) s) as [v|i]; [|discriminate].
    cbn [mbind result_bind] in H. apply IH in H.
    destruct s. exact H.
Qed.

Lemma xmod_sendblock_retrycount cap junk s r s' :
  xmod_sendblock cap junk s = Ok (r, s') -> retrycount s' = retrycount s.
Proof.
  unfold xmod_sendblock. intros H.
  destruct (send_payload _ _ _ _) as [s1|i] eqn:E; [|discriminate].
  cbn [mbind result_bind] in H. injection H as _ <-.
  apply send_payload_retrycount in E. destruct s, s1. exact E.
Qed.

Lemma upload_body_retrycount cap junk e s s' :
  0 <= retrycount s <= MAXRETRY + 1 ->
  upload_body cap junk e s = Ok s' ->
  0 <= retrycount s' <= MAXRETRY + 1.
Proof.
  intros Hrc Hbody.
  destruct e as [ms|d]; cbn [upload_body] in Hbody.
  - destruct (ms <=? TIMEOUT_MS); [now injection Hbody as <-|].
    rewrite Z.gtb_ltb in Hbody.
    destruct (Z.ltb_spec MAXRETRY (retrycount s)); injection Hbody as <-;
      destruct s; cbn in *; lia.
  - destruct (d =? CHAR_C).
    { destruct (xmod_sendblock _ _ _) as [[st s1]|i] eqn:E; [|discriminate].
      cbn [mbind result_bind] in Hbody. injection Hbody as <-.
      apply xmod_sendblock_retrycount in E.
      destruct s, s1. cbn in *. lia. }
    destruct (d =? X_ACK).
    + destruct (_ =? _).
      { injection Hbody as <-. destruct s. cbn in *. lia. }
      destruct (xmod_sendblock _ _ _) as [[st s1]|i] eqn:E; [|discriminate].
      cbn [mbind result_bind] in Hbody. injection Hbody as <-.
      apply xmod_sendblock_retrycount in E.
      destruct s, s1. cbn in *. lia.
    + destruct (xmod_sendblock _ _ _) as [[st s1]|i] eqn:E; [|discriminate].
      cbn [mbind result_bind] in Hbody. injection Hbody as <-.
      apply xmod_sendblock_retrycount in E.
      destruct s, s1. cbn in *. lia.
Qed.

(** * The claims *)

(** ** C1: the CRC step *)

(** C1.  For every 16-bit accumulator [a] and every octet [b],
    [xmod_crc_update a b] is the step the specification describes: [b] is
    XORed into the high octet of [a], then eight times the value is shifted
    left by one bit within 16 bits and XORed with [0x1021] when its top bit was
    set before the shift.  The result is again a 16-bit value and depends on
    [a] and [b] alone (the function takes no session).  Both users start
    every block from 0: the handler clears the accumulator on [SOH], and
    [xmod_sendblock] leaves in it the CRC of the slot it sent, folded
    from 0. *)
Theorem crc_update_is_ccitt_false_step a b cap junk s :
  is_u16 a -> is_u8 b ->
  state s = TRANS_AWAIT -> is_u8 (blocknum s) ->
  Forall is_u8 (slot (block_offset cap (blocknum s)) (buffer s)) ->
  0 <= block_offset cap (blocknum s) ->
  block_offset cap (blocknum s) + 128 <= Z.of_nat (length (buffer s)) ->
  xmod_crc_update a b = ccitt_false_step a b
  /\ is_u16 (xmod_crc_update a b)
  /\ (exists s', handlebyte X_SOH s = Ok (TRANS_BLOCK, s')
                 /\ current_crc s' = 0)
  /\ (exists s', xmod_sendblock cap junk s = Ok (junk, s')
                 /\ current_crc s'
                    = crc_bytes 0 (slot (block_offset cap (blocknum s))
                                     (buffer s))).
Proof.
  intros Ha Hb Hst Hbn Hbuf Hlo Hhi. split; [|split; [|split]].
  - now apply xmod_crc_update_spec.
  - apply xmod_crc_update_range.
  - destruct s as [st rc cnt crc rcv m bn last buf out]. simpl in Hst. subst st.
    eexists. split; reflexivity.
  - eexists. split; [now apply xmod_sendblock_ok|]. reflexivity.
Qed.

Lemma crc_update_is_ccitt_false_step_witness :
  xmod_crc_update 0x1234 0xA5 = ccitt_false_step 0x1234 0xA5
  /\ is_u16 (xmod_crc_update 0x1234 0xA5)
  /\ (exists s', handlebyte X_SOH (set_blocknum 1 (fresh demo_buffer))
                 = Ok (TRANS_BLOCK, s')
                 /\ current_crc s' = 0)
  /\ (exists s', xmod_sendblock XMOD_BUFFSIZE_default TRANS_AWAIT
                   (set_blocknum 1 (fresh demo_buffer))
                 = Ok (TRANS_AWAIT, s')
                 /\ current_crc s'
                    = crc_bytes 0
                        (slot (block_offset XMOD_BUFFSIZE_default 1)
                           demo_buffer)).
Proof.
  apply (crc_update_is_ccitt_false_step 0x1234 0xA5 XMOD_BUFFSIZE_default
           TRANS_AWAIT
           (set_blocknum 1 (fresh demo_buffer))).
  - unfold is_u16. lia.
  - unfold is_u8. lia.
  - reflexivity.
  - unfold is_u8. simpl. lia.
  - vm_compute. repeat constructor; discriminate.
  - vm_compute. discriminate.
  - vm_compute. discriminate.
Defined.

(** ** C7: the complement octet *)

(** C7.  In state [TRANS_BLOCK2] an octet [d] that is not [0xFF] minus the
    stored block number makes the handler return [TRANS_ABORT] and change
    nothing; the download loop then stops, so whatever follows on the line
    (the payload of that frame included) never reaches the handler and the
    buffer and the cursor are as they were.  An octet that is the complement
    makes the handler return [TRANS_RUN], again without touching the
    buffer. *)
Theorem complement_checked_in_block2 s d evs :
  state s = TRANS_BLOCK2 -> is_u8 d ->
  (d <> 0xFF - blocknum s ->
     handlebyte d s = Ok (TRANS_ABORT, s)
     /\ exists s', download_loop (Avail d :: evs) s = Ok (s', evs)
                   /\ state s' = TRANS_ABORT
                   /\ buffer s' = buffer s /\ mempos s' = mempos s)
  /\ (d = 0xFF - blocknum s ->
     exists s', handlebyte d s = Ok (TRANS_RUN, s')
                /\ buffer s' = buffer s
                /\ download_loop (Avail d :: evs) s
                   = download_loop evs (reset_millis (set_state TRANS_RUN s'))).
Proof.
  intros Hst Hd. pose proof (u8_small d Hd) as Hu. split.
  - intros Hne.
    assert (Hbn : blocknum s <> 0xFF - u8 d) by (rewrite Hu; lia).
    pose proof (receive_complement_bad s d Hst Hbn) as Hr.
    split.
    + destruct s as [st rc cnt crc rcv m bn last buf out].
      simpl in *. subst st.
      unfold handlebyte, in_state. simpl.
      destruct (Z.eqb_spec bn (255 - u8 d)); [contradiction|reflexivity].
    + eexists. split; [apply (download_loop_stop _ _ _ _ Hr); reflexivity|].
      destruct s; repeat split; reflexivity.
  - intros He.
    assert (Hbn : blocknum s = 0xFF - u8 d) by (rewrite Hu; lia).
    destruct s as [st rc cnt crc rcv m bn last buf out].
    simpl in *. subst st.
    unfold receive, handlebyte, in_state. simpl.
    rewrite <- Hbn, Z.eqb_refl. simpl.
    eexists. split; [reflexivity|].
    split; [destruct (bn =? last); reflexivity|].
    destruct (bn =? last); reflexivity.
Qed.

Lemma complement_checked_in_block2_witness :
  (0xFE <> 0xFF - 2 ->
     handlebyte 0xFE (mkSession TRANS_BLOCK2 0 0 0 0 0 2 1 demo_buffer [])
     = Ok (TRANS_ABORT, mkSession TRANS_BLOCK2 0 0 0 0 0 2 1 demo_buffer [])
     /\ exists s',
          download_loop (Avail 0xFE :: (Avail <$> demo_payload 7))
            (mkSession TRANS_BLOCK2 0 0 0 0 0 2 1 demo_buffer [])
          = Ok (s', Avail <$> demo_payload 7)
          /\ state s' = TRANS_ABORT
          /\ buffer s' = demo_buffer /\ mempos s' = 0)
  /\ (0xFE = 0xFF - 2 ->
     exists s',
       handlebyte 0xFE (mkSession TRANS_BLOCK2 0 0 0 0 0 2 1 demo_buffer [])
       = Ok (TRANS_RUN, s')
       /\ buffer s' = demo_buffer
       /\ download_loop (Avail 0xFE :: (Avail <$> demo_payload 7))
            (mkSession TRANS_BLOCK2 0 0 0 0 0 2 1 demo_buffer [])
          = download_loop (Avail <$> demo_payload 7)
              (reset_millis (set_state TRANS_RUN s'))).
Proof.
  apply (complement_checked_in_block2
           (mkSession TRANS_BLOCK2 0 0 0 0 0 2 1 demo_buffer []) 0xFE
           (Avail <$> demo_payload 7)).
  - reflexivity.
  - unfold is_u8. lia.
Defined.

(** ** C8: the rewind below zero *)

(** C8.  The rewind of state [TRANS_BLOCK2] is a subtraction modulo [2^16]
    with no test of the cursor.  In a download that has just started (cursor
    0, last committed number 0) the header [SOH, 0, 0xFF] is taken for a
    repetition of block 0 and leaves the cursor at 65408; the first payload
    octet is then stored at index 65408, past the end of every array of at
    most 65408 elements. *)
Theorem rewind_wraps_below_zero s d evs :
  Z.of_nat (length (buffer s)) <= 65408 ->
  (forall t c,
      state t = TRANS_BLOCK2 -> blocknum t = 0xFF - u8 c ->
      blocknum t = last_succeeded_block t ->
      handlebyte c t = Ok (TRANS_RUN, set_mempos (u16 (mempos t - 128)) t))
  /\ (exists s',
        xmod_download [Avail X_SOH; Avail 0; Avail 0xFF] s = Ok (s', [])
        /\ state s' = TRANS_RUN /\ mempos s' = 65408)
  /\ xmod_download (Avail X_SOH :: Avail 0 :: Avail 0xFF :: Avail d :: evs) s
     = OutOfBounds 65408.
Proof.
  intros Hcap. split; [|split].
  - intros t c Hst Hc Hlast.
    destruct t as [st rc cnt crc rcv m bn last buf out].
    simpl in *. subst st last.
    unfold handlebyte, in_state. simpl.
    rewrite <- Hc, !Z.eqb_refl. reflexivity.
  - unfold xmod_download. change (Avail 0xFF) with (Avail (0xFF - 0)).
    rewrite (download_header (download_init s) 0 [])
      by (try reflexivity; unfold is_u8; lia).
    eexists. split; [reflexivity|]. split; reflexivity.
  - unfold xmod_download. change (Avail 0xFF) with (Avail (0xFF - 0)).
    rewrite (download_header (download_init s) 0)
      by (try reflexivity; unfold is_u8; lia).
    erewrite download_loop_fault; [reflexivity|].
    rewrite receive_run_overflow; [reflexivity|reflexivity|].
    destruct s. simpl in *. vm_compute (run_cursor _ _). exact Hcap.
Qed.

Lemma rewind_wraps_below_zero_witness :
  (forall t c,
      state t = TRANS_BLOCK2 -> blocknum t = 0xFF - u8 c ->
      blocknum t = last_succeeded_block t ->
      handlebyte c t = Ok (TRANS_RUN, set_mempos (u16 (mempos t - 128)) t))
  /\ (exists s',
        xmod_download [Avail X_SOH; Avail 0; Avail 0xFF] (fresh demo_buffer)
        = Ok (s', [])
        /\ state s' = TRANS_RUN /\ mempos s' = 65408)
  /\ xmod_download
       (Avail X_SOH :: Avail 0 :: Avail 0xFF :: Avail 0x41 :: [])
       (fresh demo_buffer)
     = OutOfBounds 65408.
Proof.
  apply (rewind_wraps_below_zero (fresh demo_buffer) 0x41 []).
  vm_compute. discriminate.
Defined.

(** ** C4: silence and the retry counter *)

Lemma sent_app l k : sent (l ++ k) = sent l ++ sent k.
Proof.
  induction l as [|[c|] l IH]; cbn [sent app]; [reflexivity| |exact IH].
  now rewrite IH.
Qed.

Lemma sent_resets k : sent (resets k) = [].
Proof. induction k as [|k IH]; [reflexivity|exact IH]. Qed.

Lemma sent_handshakes k : sent (handshakes k) = replicate k CHAR_C.
Proof.
  induction k as [|k IH]; [reflexivity|].
  cbn [handshakes sent replicate]. now rewrite IH.
Qed.

Lemma handshakes_snoc (l : list io_event) k :
  (l ++ [Putc CHAR_C; ResetMillis]) ++ handshakes k = l ++ handshakes (S k).
Proof. rewrite <- app_assoc. reflexivity. Qed.

(** One silent iteration whose timer reading is past the timeout. *)
Lemma download_body_timeout ms s :
  TIMEOUT_MS < ms ->
  download_body (Idle ms) s =
  if retrycount s >? MAXRETRY
  then Ok (set_state TRANS_ABORT s)
  else Ok (mkSession (state s) (retrycount s + 1) (counter s) (current_crc s)
             (crc_recv s) (mempos s) (blocknum s) (last_succeeded_block s)
             (buffer s) (io s ++ [Putc CHAR_C; ResetMillis])).
Proof.
  intros Hms. cbn [download_body].
  replace (ms <=? TIMEOUT_MS) with false by (symmetry; apply Z.leb_gt; lia).
  destruct (retrycount s >? MAXRETRY); [reflexivity|].
  destruct s. unfold reset_millis, uart_putc, set_retrycount, set_io. fields.
  rewrite <- app_assoc. reflexivity.
Qed.

(** One silent iteration within the timeout changes nothing. *)
Lemma download_body_waiting ms s :
  ms <= TIMEOUT_MS -> download_body (Idle ms) s = Ok s.
Proof.
  intros Hms. cbn [download_body].
  now replace (ms <=? TIMEOUT_MS) with true by (symmetry; apply Z.leb_le; lia).
Qed.

(** Timeouts while the retry counter stays within its limit: each repeats
    the handshake and counts. *)
Lemma download_loop_timeouts mss : forall s evs,
  running s = true ->
  Forall (fun ms => TIMEOUT_MS < ms) mss ->
  retrycount s + Z.of_nat (length mss) <= MAXRETRY + 1 ->
  download_loop ((Idle <$> mss) ++ evs) s =
  download_loop evs
    (mkSession (state s) (retrycount s + Z.of_nat (length mss)) (counter s)
       (current_crc s) (crc_recv s) (mempos s) (blocknum s)
       (last_succeeded_block s) (buffer s)
       (io s ++ handshakes (length mss))).
Proof.
  induction mss as [|ms mss IH]; intros s evs Hrun Hall Hcnt.
  - destruct s. cbn. now rewrite Z.add_0_r, app_nil_r.
  - inversion Hall as [|? ? Hms Hall']; subst.
    cbn [fmap list_fmap app download_loop length] in *.
    rewrite download_body_timeout by assumption.
    rewrite Z.gtb_ltb.
    replace (MAXRETRY <? retrycount s) with false
      by (symmetry; apply Z.ltb_ge; lia).
    cbn [mbind result_bind].
    assert (Hrun' :
      running (mkSession (state s) (retrycount s + 1) (counter s)
                 (current_crc s) (crc_recv s) (mempos s) (blocknum s)
                 (last_succeeded_block s) (buffer s)
                 (io s ++ [Putc CHAR_C; ResetMillis])) = true)
      by (destruct s; exact Hrun).
    rewrite Hrun'. rewrite IH; fields; try assumption; try lia.
    rewrite handshakes_snoc.
    replace (retrycount s + 1 + Z.of_nat (length mss))
      with (retrycount s + Z.of_nat (S (length mss))) by lia.
    reflexivity.
Qed.

(** The timeout that finds the retry counter past its limit ends the loop. *)
Lemma download_loop_give_up ms evs s :
  TIMEOUT_MS < ms -> MAXRETRY < retrycount s ->
  download_loop (Idle ms :: evs) s = Ok (set_state TRANS_ABORT s, evs).
Proof.
  intros Hms Hcnt. cbn [download_loop].
  rewrite download_body_timeout by assumption.
  rewrite Z.gtb_ltb.
  replace (MAXRETRY <? retrycount s) with true
    by (symmetry; apply Z.ltb_lt; lia).
  destruct s. reflexivity.
Qed.

(** C4, as the code has it.  In a download in which nothing arrives, the
    silent iterations whose timer reading is past 1000 ms repeat the handshake
    and count: after [k <= 16] of them the session is still in [TRANS_AWAIT]
    with the retry counter at [k].  The 17th finds the counter at 16, past the
    maximum of 15, and moves the session to [TRANS_ABORT]: 16 repetitions of
    the handshake after the first one.  In any iteration of that kind the
    session is moved to [TRANS_ABORT] exactly when the counter exceeds 15. *)
Theorem silence_aborts_at_seventeenth_timeout s mss more :
  Forall (fun ms => TIMEOUT_MS < ms) mss -> length mss = 17%nat ->
  (forall k, (k <= 16)%nat ->
     exists s', xmod_download (Idle <$> take k mss) s = Ok (s', [])
                /\ state s' = TRANS_AWAIT /\ retrycount s' = Z.of_nat k
                /\ sent (io s') = sent (io s) ++ replicate (S k) CHAR_C)
  /\ (exists s', xmod_download ((Idle <$> mss) ++ more) s
                 = Ok (s', eat_garbage more)
                /\ state s' = TRANS_ABORT /\ retrycount s' = 16
                /\ sent (io s') = sent (io s) ++ replicate 17 CHAR_C)
  /\ (forall t ms, TIMEOUT_MS < ms ->
        exists t', download_body (Idle ms) t = Ok t'
                   /\ (state t' = TRANS_ABORT <->
                       MAXRETRY < retrycount t \/ state t = TRANS_ABORT)).
Proof.
  intros Hall Hlen. split; [|split].
  - intros k Hk. unfold xmod_download.
    rewrite <- (app_nil_r (Idle <$> take k mss)).
    rewrite download_loop_timeouts.
    + cbn [download_loop mbind result_bind eat_garbage].
      eexists. split; [reflexivity|].
      rewrite length_take, Hlen, Nat.min_l by lia.
      destruct s. cbn. repeat split.
      rewrite !sent_app, sent_handshakes. cbn [sent].
      rewrite <- app_assoc. reflexivity.
    + destruct s. reflexivity.
    + now apply Forall_take.
    + rewrite length_take, Hlen, Nat.min_l by lia.
      destruct s. cbn. unfold MAXRETRY. lia.
  - unfold xmod_download.
    rewrite <- (take_drop 16 mss), fmap_app, <- app_assoc.
    assert (Hl16 : length (take 16 mss) = 16%nat)
      by (rewrite length_take, Hlen; reflexivity).
    rewrite download_loop_timeouts;
      [| destruct s; reflexivity | now apply Forall_take
       | rewrite Hl16; destruct s; cbn; unfold MAXRETRY; lia].
    rewrite Hl16.
    destruct (drop 16 mss) as [|ms [|ms' rest]] eqn:Hd;
      try (apply (f_equal length) in Hd; rewrite length_drop, Hlen in Hd;
           cbn [length] in Hd; lia).
    assert (Hms : TIMEOUT_MS < ms).
    { assert (Hin : Forall (fun ms => TIMEOUT_MS < ms) (drop 16 mss))
        by now apply Forall_drop.
      rewrite Hd in Hin. now inversion Hin. }
    cbn [fmap list_fmap app].
    rewrite download_loop_give_up;
      [| assumption | destruct s; cbn; unfold MAXRETRY; lia].
    cbn [mbind result_bind].
    eexists. split; [reflexivity|].
    destruct s. cbn. repeat split.
    rewrite !sent_app. cbn [sent]. rewrite <- app_assoc. reflexivity.
  - intros t ms Hms. rewrite download_body_timeout by assumption.
    destruct (Z.gtb_spec (retrycount t) MAXRETRY) as [Hgt|Hle].
    + eexists. split; [reflexivity|]. destruct t. cbn in *.
      split; [intros _; left; exact Hgt | reflexivity].
    + eexists. split; [reflexivity|]. cbn. split; [auto|].
      intros [Hgt|Hab]; [lia|assumption].
Qed.

Lemma silence_aborts_at_seventeenth_timeout_witness :
  (forall k, (k <= 16)%nat ->
     exists s',
       xmod_download (Idle <$> take k (replicate 17 1001)) (fresh demo_buffer)
       = Ok (s', [])
       /\ state s' = TRANS_AWAIT /\ retrycount s' = Z.of_nat k
       /\ sent (io s')
          = sent (io (fresh demo_buffer)) ++ replicate (S k) CHAR_C)
  /\ (exists s',
       xmod_download ((Idle <$> replicate 17 1001) ++ [Avail 0x41; Idle 0])
         (fresh demo_buffer)
       = Ok (s', eat_garbage [Avail 0x41; Idle 0])
       /\ state s' = TRANS_ABORT /\ retrycount s' = 16
       /\ sent (io s') = sent (io (fresh demo_buffer)) ++ replicate 17 CHAR_C)
  /\ (forall t ms, TIMEOUT_MS < ms ->
        exists t', download_body (Idle ms) t = Ok t'
                   /\ (state t' = TRANS_ABORT <->
                       MAXRETRY < retrycount t \/ state t = TRANS_ABORT)).
Proof.
  apply (silence_aborts_at_seventeenth_timeout (fresh demo_buffer)
           (replicate 17 1001) [Avail 0x41; Idle 0]).
  - apply Forall_replicate. unfold TIMEOUT_MS. lia.
  - reflexivity.
Defined.

(** Sixteen timeouts in a row leave the download waiting: the claim that the
    16th one aborts does not hold of the code. *)
Lemma sixteen_timeouts_do_not_abort :
  exists s',
    xmod_download (Idle <$> replicate 16 1001) (fresh demo_buffer)
    = Ok (s', [])
    /\ state s' = TRANS_AWAIT /\ state s' <> TRANS_ABORT
    /\ retrycount s' = 16.
Proof.
  eexists. split; [vm_compute; reflexivity|].
  repeat split. discriminate.
Qed.

(** ** C2 and X17: a refused block and its retransmission *)

Lemma run_cursor_new n s :
  n <> last_succeeded_block s -> run_cursor n s = mempos s.
Proof.
  intros Hn. unfold run_cursor.
  destruct (Z.eqb_spec n (last_succeeded_block s)); [contradiction|reflexivity].
Qed.

Lemma run_cursor_repeated n s :
  n = last_succeeded_block s -> 128 <= mempos s < 65536 ->
  run_cursor n s = mempos s - 128.
Proof.
  intros Hn Hm. unfold run_cursor.
  destruct (Z.eqb_spec n (last_succeeded_block s)); [|contradiction].
  apply u16_small. unfold is_u16. lia.
Qed.

Lemma sent_frame_log (l : list io_event) r :
  sent (l ++ resets 132 ++ [Putc r; ResetMillis]) = sent l ++ [r].
Proof. rewrite !sent_app, sent_resets. reflexivity. Qed.

(** X17.  In state [TRANS_CRC2] a received CRC that differs from the
    accumulator makes the handler emit NAK, take 128 from the
    cursor modulo [2^16], leave the last committed number alone and return
    [TRANS_AWAIT].  For a block number [n] other than the last committed one
    and a cursor whose 128-octet slot lies inside the array: a frame [n] with
    a wrong CRC is answered by NAK and leaves cursor and last committed
    number as before; the frame [n] with a matching CRC that follows is
    answered by ACK, leaves its payload in that slot, moves the cursor on by
    128 and makes [n] the last committed number. *)
Theorem crc_mismatch_then_retransmission s n q p hi lo :
  state s = TRANS_AWAIT -> is_u8 n -> n <> last_succeeded_block s ->
  slot_fits (mempos s) s ->
  length q = 128%nat -> length p = 128%nat -> Forall is_u8 p ->
  crc_of_octets hi lo <> crc_bytes 0 q ->
  (forall t d,
      state t = TRANS_CRC2 ->
      u16 (Z.lor (crc_recv t) (u8 d)) <> current_crc t ->
      exists t', handlebyte d t = Ok (TRANS_AWAIT, t')
                 /\ io t' = io t ++ [Putc X_NAK]
                 /\ mempos t' = u16 (mempos t - 128)
                 /\ last_succeeded_block t' = last_succeeded_block t
                 /\ buffer t' = buffer t)
  /\ exists s1 s2,
      download_loop (Avail <$> frame_with n q hi lo) s = Ok (s1, [])
      /\ state s1 = TRANS_AWAIT
      /\ sent (io s1) = sent (io s) ++ [X_NAK]
      /\ mempos s1 = mempos s
      /\ last_succeeded_block s1 = last_succeeded_block s
      /\ download_loop (Avail <$> frame n p) s1 = Ok (s2, [])
      /\ state s2 = TRANS_AWAIT
      /\ sent (io s2) = sent (io s1) ++ [X_ACK]
      /\ mempos s2 = mempos s + 128
      /\ last_succeeded_block s2 = n
      /\ slot (mempos s) (buffer s2) = p.
Proof.
  intros Hst Hn Hnew Hfit Hq Hp Hoct Hcrc. split.
  - intros t d Ht Hne.
    destruct t as [st rc cnt crc rcv m bn last buf out].
    simpl in *. subst st.
    unfold handlebyte, in_state. simpl.
    destruct (Z.eqb_spec (u16 (Z.lor rcv (u8 d))) crc); [contradiction|].
    eexists. split; [reflexivity|]. repeat split.
  - pose proof (run_cursor_new n s Hnew) as Hcur.
    pose proof Hfit as (Hm0 & Hm1 & Hm2).
    set (s1 := mkSession TRANS_AWAIT (retrycount s) 128 (crc_bytes 0 q)
                 (crc_of_octets hi lo) (mempos s) n (last_succeeded_block s)
                 (list_inserts (Z.to_nat (mempos s)) (u8 <$> q) (buffer s))
                 (io s ++ resets 132 ++ [Putc X_NAK; ResetMillis])).
    assert (H1 : download_loop (Avail <$> frame_with n q hi lo) s
                 = Ok (s1, [])).
    { rewrite <- (app_nil_r (Avail <$> frame_with n q hi lo)).
      rewrite download_frame_mismatch by (rewrite ?Hcur; assumption).
      rewrite Hcur. reflexivity. }
    assert (Hcur1 : run_cursor n s1 = mempos s)
      by (apply (run_cursor_new n s1); exact Hnew).
    assert (Hfit1 : slot_fits (run_cursor n s1) s1).
    { rewrite Hcur1. unfold slot_fits, s1. fields.
      rewrite length_inserts. lia. }
    pose proof (download_frame s1 n p [] eq_refl Hn Hp Hfit1) as H2.
    rewrite app_nil_r, Hcur1 in H2. cbn [download_loop] in H2.
    eexists s1, _.
    split; [exact H1|].
    split; [reflexivity|].
    split; [unfold s1; fields; apply sent_frame_log|].
    do 2 (split; [reflexivity|]).
    split; [exact H2|].
    split; [reflexivity|].
    split; [fields; apply sent_frame_log|].
    do 2 (split; [reflexivity|]).
    fields. rewrite fmap_u8_octets by assumption.
    apply slot_list_inserts; [lia | assumption |].
    unfold s1. fields. rewrite length_inserts. lia.
Qed.

Lemma crc_mismatch_then_retransmission_witness :
  (forall t d,
      state t = TRANS_CRC2 ->
      u16 (Z.lor (crc_recv t) (u8 d)) <> current_crc t ->
      exists t', handlebyte d t = Ok (TRANS_AWAIT, t')
                 /\ io t' = io t ++ [Putc X_NAK]
                 /\ mempos t' = u16 (mempos t - 128)
                 /\ last_succeeded_block t' = last_succeeded_block t
                 /\ buffer t' = buffer t)
  /\ exists s1 s2,
      download_loop (Avail <$> frame_with 1 (demo_payload 0x33) 0 0)
        (fresh demo_buffer) = Ok (s1, [])
      /\ state s1 = TRANS_AWAIT
      /\ sent (io s1) = sent (io (fresh demo_buffer)) ++ [X_NAK]
      /\ mempos s1 = mempos (fresh demo_buffer)
      /\ last_succeeded_block s1 = last_succeeded_block (fresh demo_buffer)
      /\ download_loop (Avail <$> frame 1 (demo_payload 0x44)) s1
         = Ok (s2, [])
      /\ state s2 = TRANS_AWAIT
      /\ sent (io s2) = sent (io s1) ++ [X_ACK]
      /\ mempos s2 = mempos (fresh demo_buffer) + 128
      /\ last_succeeded_block s2 = 1
      /\ slot (mempos (fresh demo_buffer)) (buffer s2) = demo_payload 0x44.
Proof.
  apply (crc_mismatch_then_retransmission (fresh demo_buffer) 1
           (demo_payload 0x33) (demo_payload 0x44) 0 0).
  - reflexivity.
  - unfold is_u8. lia.
  - vm_compute. discriminate.
  - unfold slot_fits. vm_compute. repeat split; discriminate.
  - reflexivity.
  - reflexivity.
  - apply Forall_replicate. unfold is_u8. lia.
  - vm_compute. discriminate.
Defined.

(** C2, at an input where the code departs from it.  Blocks 1 and 2 are
    committed in a 256-octet array.  Block 2 comes again with a wrong CRC:
    state [TRANS_BLOCK2] takes 128 from the cursor because the number is the
    last committed one, and the NAK takes 128 once more.  The retransmission
    with the right CRC is rewound a third time: it is answered by ACK, yet
    the cursor ends where it was after the NAK and not 128 further, and the
    payload lies in the slot of block 1, whose content is lost. *)
Lemma retransmitted_duplicate_steps_back :
  exists s1 s2 s3,
    download_loop
      (Avail <$> (frame 1 (demo_payload 0x11) ++ frame 2 (demo_payload 0x22)))
      (download_init (fresh demo_buffer)) = Ok (s1, [])
    /\ mempos s1 = 256 /\ last_succeeded_block s1 = 2
    /\ state s1 = TRANS_AWAIT
    /\ slot 0 (buffer s1) = demo_payload 0x11
    /\ crc_of_octets 0 0 <> crc_bytes 0 (demo_payload 0x33)
    /\ download_loop (Avail <$> frame_with 2 (demo_payload 0x33) 0 0) s1
       = Ok (s2, [])
    /\ sent (io s2) = sent (io s1) ++ [X_NAK] /\ mempos s2 = 128
    /\ download_loop (Avail <$> frame 2 (demo_payload 0x44)) s2 = Ok (s3, [])
    /\ sent (io s3) = sent (io s2) ++ [X_ACK]
    /\ mempos s3 = 128
    /\ mempos s3 <> mempos s2 + 128 /\ mempos s3 <> mempos s1 + 128
    /\ slot 0 (buffer s3) = demo_payload 0x44
    /\ slot 128 (buffer s3) = demo_payload 0x33.
Proof.
  do 3 eexists.
  split; [vm_compute; reflexivity|].
  do 4 (split; [reflexivity|]).
  split; [vm_compute; discriminate|].
  split; [vm_compute; reflexivity|].
  do 2 (split; [reflexivity|]).
  split; [vm_compute; reflexivity|].
  do 2 (split; [reflexivity|]).
  do 2 (split; [vm_compute; discriminate|]).
  split; reflexivity.
Qed.

(** ** C3 and X18: a block that comes again *)

Lemma list_inserts_twice (m : nat) (p buf : list Z) :
  list_inserts m p (list_inserts m p buf) = list_inserts m p buf.
Proof.
  apply list_eq. intros i.
  destruct (Nat.lt_ge_cases i m) as [Hlt|Hge].
  { now rewrite !list_lookup_inserts_lt by assumption. }
  destruct (Nat.lt_ge_cases i (m + length p)) as [Hin|Hout].
  - destruct (Nat.lt_ge_cases i (length buf)) as [Hb|Hb].
    + rewrite !list_lookup_inserts by (rewrite ?length_inserts; lia).
      reflexivity.
    + rewrite !(proj2 (lookup_ge_None _ _)) by (rewrite ?length_inserts; lia).
      reflexivity.
  - now rewrite !list_lookup_inserts_ge by assumption.
Qed.

(** X18.  A well-formed frame whose number is the last
    committed one, arriving when at least 128 octets of the array lie before
    the cursor: state [TRANS_BLOCK2] takes 128 from the cursor, the payload
    goes into the 128 octets before the old cursor and nowhere else, ACK is
    emitted, and the cursor ends where it was.  The same frame once more
    changes neither array nor cursor and is answered by ACK again. *)
Theorem repeated_block_overwrites_previous_slot s n p :
  state s = TRANS_AWAIT -> is_u8 n -> n = last_succeeded_block s ->
  128 <= mempos s < 65536 -> mempos s <= Z.of_nat (length (buffer s)) ->
  length p = 128%nat -> Forall is_u8 p ->
  exists s1 s2 s3,
    download_loop (Avail <$> [X_SOH; n; 0xFF - n]) s = Ok (s1, [])
    /\ state s1 = TRANS_RUN /\ mempos s1 = mempos s - 128
    /\ buffer s1 = buffer s
    /\ download_loop (Avail <$> frame n p) s = Ok (s2, [])
    /\ state s2 = TRANS_AWAIT
    /\ sent (io s2) = sent (io s) ++ [X_ACK]
    /\ mempos s2 = mempos s
    /\ last_succeeded_block s2 = n
    /\ length (buffer s2) = length (buffer s)
    /\ slot (mempos s - 128) (buffer s2) = p
    /\ (forall i : nat,
         Z.of_nat i < mempos s - 128 \/ mempos s <= Z.of_nat i ->
         buffer s2 !! i = buffer s !! i)
    /\ download_loop (Avail <$> frame n p) s2 = Ok (s3, [])
    /\ buffer s3 = buffer s2 /\ mempos s3 = mempos s2
    /\ last_succeeded_block s3 = n
    /\ sent (io s3) = sent (io s2) ++ [X_ACK].
Proof.
  intros Hst Hn Hlast Hm Hcap Hp Hoct.
  pose proof (run_cursor_repeated n s Hlast Hm) as Hcur.
  assert (Hfit : slot_fits (run_cursor n s) s)
    by (rewrite Hcur; unfold slot_fits; lia).
  pose proof (download_header s n [] Hst Hn) as H1.
  rewrite Hcur in H1. cbn [download_loop] in H1.
  pose proof (download_frame s n p [] Hst Hn Hp Hfit) as H2.
  rewrite app_nil_r, Hcur in H2. cbn [download_loop] in H2.
  replace (mempos s - 128 + 128) with (mempos s) in H2 by lia.
  set (s2 := mkSession TRANS_AWAIT (retrycount s) 128 (crc_bytes 0 p)
               (crc_bytes 0 p) (mempos s) n n
               (list_inserts (Z.to_nat (mempos s - 128)) (u8 <$> p) (buffer s))
               (io s ++ resets 132 ++ [Putc X_ACK; ResetMillis])) in *.
  assert (Hcur2 : run_cursor n s2 = mempos s - 128)
    by (apply (run_cursor_repeated n s2); [reflexivity | exact Hm]).
  assert (Hfit2 : slot_fits (run_cursor n s2) s2).
  { rewrite Hcur2. unfold slot_fits, s2. fields.
    rewrite length_inserts. lia. }
  pose proof (download_frame s2 n p [] eq_refl Hn Hp Hfit2) as H3.
  rewrite app_nil_r, Hcur2 in H3. cbn [download_loop] in H3.
  replace (mempos s - 128 + 128) with (mempos s) in H3 by lia.
  eexists _, s2, _.
  split; [exact H1|]. do 3 (split; [reflexivity|]).
  split; [exact H2|]. split; [reflexivity|].
  split; [unfold s2; fields; apply sent_frame_log|].
  do 2 (split; [reflexivity|]).
  split; [unfold s2; fields; apply length_inserts|].
  split.
  { unfold s2. fields. rewrite fmap_u8_octets by assumption.
    apply slot_list_inserts; [lia | assumption | lia]. }
  split.
  { intros i Hi. unfold s2. fields.
    apply lookup_list_inserts_outside.
    rewrite length_fmap, Hp. lia. }
  split; [exact H3|].
  split; [fields; unfold s2; fields; apply list_inserts_twice|].
  do 2 (split; [reflexivity|]).
  fields. apply sent_frame_log.
Qed.

Lemma repeated_block_overwrites_previous_slot_witness :
  exists s1 s2 s3,
    download_loop (Avail <$> [X_SOH; 1; 0xFF - 1])
      (mkSession TRANS_AWAIT 0 128 0 0 128 1 1 demo_buffer []) = Ok (s1, [])
    /\ state s1 = TRANS_RUN
    /\ mempos s1
       = mempos (mkSession TRANS_AWAIT 0 128 0 0 128 1 1 demo_buffer []) - 128
    /\ buffer s1
       = buffer (mkSession TRANS_AWAIT 0 128 0 0 128 1 1 demo_buffer [])
    /\ download_loop (Avail <$> frame 1 (demo_payload 0x44))
         (mkSession TRANS_AWAIT 0 128 0 0 128 1 1 demo_buffer [])
       = Ok (s2, [])
    /\ state s2 = TRANS_AWAIT
    /\ sent (io s2)
       = sent (io (mkSession TRANS_AWAIT 0 128 0 0 128 1 1 demo_buffer []))
         ++ [X_ACK]
    /\ mempos s2
       = mempos (mkSession TRANS_AWAIT 0 128 0 0 128 1 1 demo_buffer [])
    /\ last_succeeded_block s2 = 1
    /\ length (buffer s2)
       = length
           (buffer (mkSession TRANS_AWAIT 0 128 0 0 128 1 1 demo_buffer []))
    /\ slot
         (mempos (mkSession TRANS_AWAIT 0 128 0 0 128 1 1 demo_buffer [])
          - 128)
         (buffer s2) = demo_payload 0x44
    /\ (forall i : nat,
         Z.of_nat i
         < mempos (mkSession TRANS_AWAIT 0 128 0 0 128 1 1 demo_buffer [])
           - 128
         \/ mempos (mkSession TRANS_AWAIT 0 128 0 0 128 1 1 demo_buffer [])
            <= Z.of_nat i ->
         buffer s2 !! i
         = buffer (mkSession TRANS_AWAIT 0 128 0 0 128 1 1 demo_buffer [])
             !! i)
    /\ download_loop (Avail <$> frame 1 (demo_payload 0x44)) s2 = Ok (s3, [])
    /\ buffer s3 = buffer s2 /\ mempos s3 = mempos s2
    /\ last_succeeded_block s3 = 1
    /\ sent (io s3) = sent (io s2) ++ [X_ACK].
Proof.
  apply (repeated_block_overwrites_previous_slot
           (mkSession TRANS_AWAIT 0 128 0 0 128 1 1 demo_buffer []) 1
           (demo_payload 0x44)).
  - reflexivity.
  - unfold is_u8. lia.
  - reflexivity.
  - simpl. lia.
  - vm_compute. discriminate.
  - reflexivity.
  - apply Forall_replicate. unfold is_u8. lia.
Defined.

(** C3, at an input where the code departs from it.  Block 1 is committed
    in a 256-octet array, comes again with a wrong CRC and is refused: the
    refused frame is rewound in [TRANS_BLOCK2] and again on NAK, so the
    cursor is back at 0 while block 1 is still the last committed one.  Its
    retransmission, a well-formed frame with the last committed number, is
    rewound to 65408 and its first octet is stored outside the array. *)
Lemma repeated_block_after_refusal_leaves_array :
  exists s1 s2,
    download_loop (Avail <$> frame 1 (demo_payload 0x11))
      (download_init (fresh demo_buffer)) = Ok (s1, [])
    /\ state s1 = TRANS_AWAIT /\ mempos s1 = 128
    /\ last_succeeded_block s1 = 1
    /\ download_loop (Avail <$> frame_with 1 (demo_payload 0x11) 0 0) s1
       = Ok (s2, [])
    /\ state s2 = TRANS_AWAIT /\ mempos s2 = 0
    /\ last_succeeded_block s2 = 1
    /\ sent (io s2) = sent (io s1) ++ [X_NAK]
    /\ download_loop (Avail <$> frame 1 (demo_payload 0x11)) s2
       = OutOfBounds 65408.
Proof.
  do 2 eexists.
  split; [vm_compute; reflexivity|].
  do 3 (split; [reflexivity|]).
  split; [vm_compute; reflexivity|].
  do 4 (split; [reflexivity|]).
  vm_compute. reflexivity.
Qed.

(** ** C5: from the line into the array and back *)

(** C5, as the code has it.  The handler stores a payload where the cursor
    stands, the transmit driver reads block [n] at its offset
    [128 * (n - 1)] (0 when that is past the array).  When the two agree, a
    well-formed frame [n] that has been received and is then sent by
    [xmod_sendblock] goes out as the very frame that came in, payload
    included. *)
Theorem frame_roundtrip cap junk s n p :
  state s = TRANS_AWAIT -> is_u8 n ->
  length p = 128%nat -> Forall is_u8 p ->
  slot_fits (run_cursor n s) s ->
  run_cursor n s = block_offset cap n ->
  exists s1 s2,
    download_loop (Avail <$> frame n p) s = Ok (s1, [])
    /\ blocknum s1 = n
    /\ slot (block_offset cap n) (buffer s1) = p
    /\ xmod_sendblock cap junk s1 = Ok (junk, s2)
    /\ sent (io s2) = sent (io s1) ++ frame n p.
Proof.
  intros Hst Hn Hp Hoct Hfit Hoff.
  pose proof Hfit as (Hm0 & Hm1 & Hm2).
  pose proof (download_frame s n p [] Hst Hn Hp Hfit) as H1.
  rewrite app_nil_r in H1. cbn [download_loop] in H1.
  set (s1 := mkSession TRANS_AWAIT (retrycount s) 128 (crc_bytes 0 p)
               (crc_bytes 0 p) (run_cursor n s + 128) n n
               (list_inserts (Z.to_nat (run_cursor n s)) (u8 <$> p) (buffer s))
               (io s ++ resets 132 ++ [Putc X_ACK; ResetMillis])) in *.
  assert (Hslot : slot (block_offset cap n) (buffer s1) = p).
  { rewrite <- Hoff. unfold s1. fields.
    rewrite fmap_u8_octets by assumption.
    apply slot_list_inserts; [lia | assumption | lia]. }
  assert (H2 := xmod_sendblock_ok cap junk s1).
  change (blocknum s1) with n in H2. rewrite Hslot in H2.
  specialize (H2 Hn Hoct).
  rewrite <- Hoff in H2.
  assert (Hlen : length (buffer s1) = length (buffer s))
    by (unfold s1; fields; apply length_inserts).
  rewrite Hlen in H2. specialize (H2 Hm0 Hm1).
  eexists s1, _.
  split; [exact H1|]. split; [reflexivity|].
  split; [exact Hslot|]. split; [exact H2|].
  fields. rewrite sent_app. f_equal.
  clear. induction (frame n p) as [|c l IH]; [reflexivity|].
  cbn [fmap list_fmap sent]. now rewrite IH.
Qed.

Lemma frame_roundtrip_witness :
  exists s1 s2,
    download_loop (Avail <$> frame 1 (demo_payload 0x55))
      (download_init (fresh demo_buffer)) = Ok (s1, [])
    /\ blocknum s1 = 1
    /\ slot (block_offset XMOD_BUFFSIZE_default 1) (buffer s1)
       = demo_payload 0x55
    /\ xmod_sendblock XMOD_BUFFSIZE_default TRANS_AWAIT s1
       = Ok (TRANS_AWAIT, s2)
    /\ sent (io s2) = sent (io s1) ++ frame 1 (demo_payload 0x55).
Proof.
  apply (frame_roundtrip XMOD_BUFFSIZE_default TRANS_AWAIT
           (download_init (fresh demo_buffer))
           1 (demo_payload 0x55)).
  - reflexivity.
  - unfold is_u8. lia.
  - reflexivity.
  - apply Forall_replicate. unfold is_u8. lia.
  - unfold slot_fits. vm_compute. repeat split; discriminate.
  - reflexivity.
Defined.

(** A download that has just started receives a well-formed frame numbered
    2.  Its payload is stored at the cursor, index 0; [xmod_sendblock] for
    block 2 reads at offset 128 and sends the zeros it finds there. *)
Lemma out_of_order_frame_not_reproduced :
  exists s1 s2,
    download_loop (Avail <$> frame 2 (demo_payload 0x55))
      (download_init (fresh demo_buffer)) = Ok (s1, [])
    /\ sent (io s1) = [CHAR_C; X_ACK]
    /\ blocknum s1 = 2
    /\ xmod_sendblock XMOD_BUFFSIZE_default TRANS_AWAIT s1
       = Ok (TRANS_AWAIT, s2)
    /\ sent (io s2) = sent (io s1) ++ frame 2 (demo_payload 0)
    /\ take 128 (drop 3 (frame 2 (demo_payload 0))) = demo_payload 0
    /\ demo_payload 0 <> demo_payload 0x55.
Proof.
  do 2 eexists.
  split; [vm_compute; reflexivity|].
  do 2 (split; [reflexivity|]).
  split; [vm_compute; reflexivity|].
  split; [vm_compute; reflexivity|].
  split; [reflexivity|].
  vm_compute. discriminate.
Qed.

(** ** C10: more blocks than the array holds *)

Lemma last_number_cons prev f fs :
  last_number prev (f :: fs) = last_number (fst f) fs.
Proof.
  unfold last_number. destruct fs as [|g fs]; [reflexivity|].
  rewrite last_cons_cons.
  destruct (last (g :: fs)) eqn:E; [reflexivity|].
  apply last_None in E. discriminate.
Qed.


Lemma frames_cons f fs : frames (f :: fs) = frame (fst f) (snd f) ++ frames fs.
Proof. reflexivity. Qed.






(** ** C6 and C9: the upload loop *)

Lemma send_payload_statics n : forall p offset s s',
  send_payload n p offset s = Ok s' ->
  state s' = state s /\ blocknum s' = blocknum s /\ buffer s' = buffer s.
Proof.
  induction n as [|n IH]; intros p offset s s' H.
  - cbn in H. injection H as <-. repeat split.
  - cbn [send_payload] in H.
    destruct (load (p + offset) s) as [v|i]; [|discriminate].
    cbn [mbind result_bind] in H. apply IH in H.
    destruct s. exact H.
Qed.

Lemma xmod_sendblock_statics cap junk s r s' :
  xmod_sendblock cap junk s = Ok (r, s') ->
  r = junk /\ state s' = state s /\ blocknum s' = blocknum s
  /\ buffer s' = buffer s.
Proof.
  unfold xmod_sendblock. intros H.
  destruct (send_payload _ _ _ _) as [s1|i] eqn:E; [|discriminate].
  cbn [mbind result_bind] in H. injection H as <- <-.
  apply send_payload_statics in E. destruct s, s1. cbn in *. tauto.
Qed.

(** Within the block count the offset of block [b] is [128 * (b - 1)], and
    the block lies inside the array. *)
Lemma block_offset_in_range cap b :
  0 <= cap -> 1 <= b <= cap `quot` 128 -> b < 256 ->
  block_offset cap b = 128 * (b - 1) /\ 128 * (b - 1) + 128 <= cap.
Proof.
  intros Hcap Hb Hb8. rewrite Z.quot_div_nonneg in Hb by lia.
  assert (Hle : 128 * (cap / 128) <= cap)
    by (apply Z.mul_div_le; lia).
  unfold block_offset. rewrite u16_small by (unfold is_u16; lia).
  split; [|lia].
  destruct (Z.geb_spec (128 * (b - 1)) cap); [lia|reflexivity].
Qed.


Lemma sent_putc (l : list Z) : sent (Putc <$> l) = l.
Proof.
  induction l as [|c l IH]; [reflexivity|].
  cbn [fmap list_fmap sent]. now rewrite IH.
Qed.

(** What a call of [xmod_sendblock] for a block within the count does. *)
Lemma xmod_sendblock_block cap junk s :
  0 <= cap -> Z.of_nat (length (buffer s)) = cap ->
  Forall is_u8 (buffer s) ->
  1 <= blocknum s <= cap `quot` 128 -> blocknum s < 256 ->
  exists s',
    xmod_sendblock cap junk s = Ok (junk, s')
    /\ state s' = state s /\ blocknum s' = blocknum s
    /\ retrycount s' = retrycount s
    /\ sent (io s')
       = sent (io s)
         ++ frame (blocknum s) (slot (128 * (blocknum s - 1)) (buffer s)).
Proof.
  intros Hcap Hlen Hoct Hbn Hb8.
  destruct (block_offset_in_range cap (blocknum s) Hcap Hbn Hb8) as [Hoff Hin].
  eexists. split.
  - apply xmod_sendblock_ok.
    + unfold is_u8. lia.
    + unfold slot. now apply Forall_take, Forall_drop.
    + rewrite Hoff. lia.
    + rewrite Hoff, Hlen. exact Hin.
  - fields. rewrite Hoff, sent_app, sent_putc. repeat split.
Qed.



(** C9.  [xmod_sendblock] assigns no state and has no [return] statement;
    on the handshake character the loop of [xmod_upload] stores what the
    call hands back in [state].  Whatever that value [junk] is, it is the
    state after the handshake, and it alone decides whether the loop goes
    on: nothing [xmod_sendblock] does to the session has a say. *)
Theorem handshake_state_is_what_sendblock_hands_back cap junk s evs :
  128 <= Z.of_nat (length (buffer s)) -> Forall is_u8 (buffer s) ->
  exists s1 s',
    xmod_sendblock cap junk (set_blocknum 1 (reset_millis s)) = Ok (junk, s1)
    /\ state s1 = state s
    /\ sent (io s1) = sent (io s) ++ frame 1 (slot 0 (buffer s))
    /\ upload_body cap junk (Avail CHAR_C) s = Ok s'
    /\ s' = set_state junk s1
    /\ state s' = junk
    /\ upload_loop cap ((Avail CHAR_C, junk) :: evs) s
       = match junk with
         | TRANS_END | TRANS_ABORT => Ok s'
         | _ => upload_loop cap evs s'
         end.
Proof.
  intros Hlen Hoct.
  destruct s as [st rc cnt crc rcv m bn last buf out].
  cbn [buffer state io] in *.
  set (s0 := mkSession st rc cnt crc rcv m 1 last buf (out ++ [ResetMillis])).
  assert (Hoff : block_offset cap 1 = 0).
  { unfold block_offset. change (u16 (128 * (1 - 1))) with 0.
    destruct (0 >=? cap); reflexivity. }
  assert (Hsend := xmod_sendblock_ok cap junk s0).
  change (blocknum s0) with 1 in Hsend. change (buffer s0) with buf in Hsend.
  rewrite Hoff in Hsend.
  specialize (Hsend ltac:(unfold is_u8; lia)
                    ltac:(unfold slot; now apply Forall_take, Forall_drop)
                    ltac:(lia) ltac:(lia)).
  eexists _, _.
  split; [exact Hsend|].
  split; [reflexivity|].
  split.
  { cbn [io]. unfold s0. cbn [io]. rewrite !sent_app, sent_putc. cbn [sent].
    now rewrite app_nil_r. }
  assert (Hbody :
    upload_body cap junk (Avail CHAR_C)
      (mkSession st rc cnt crc rcv m bn last buf out)
    = Ok (set_state junk
            (mkSession (state s0) (retrycount s0) (counter s0)
               (crc_bytes 0 (slot 0 buf)) (crc_recv s0) (mempos s0) 1
               (last_succeeded_block s0) buf
               (io s0 ++ (Putc <$> frame 1 (slot 0 buf)))))).
  { cbn [upload_body]. change (CHAR_C =? CHAR_C) with true. cbn match.
    unfold reset_millis, set_io, set_blocknum.
    cbn [state retrycount counter current_crc crc_recv mempos blocknum
         last_succeeded_block buffer io].
    fold s0. rewrite Hsend. reflexivity. }
  split; [exact Hbody|].
  split; [reflexivity|].
  split; [reflexivity|].
  cbn [upload_loop]. rewrite Hbody. cbn [mbind result_bind].
  destruct junk; reflexivity.
Qed.

Lemma handshake_state_is_what_sendblock_hands_back_witness :
  exists s1 s',
    xmod_sendblock XMOD_BUFFSIZE_default TRANS_END
      (set_blocknum 1 (reset_millis (upload_init (fresh demo_buffer))))
    = Ok (TRANS_END, s1)
    /\ state s1 = state (upload_init (fresh demo_buffer))
    /\ sent (io s1)
       = sent (io (upload_init (fresh demo_buffer)))
         ++ frame 1 (slot 0 (buffer (upload_init (fresh demo_buffer))))
    /\ upload_body XMOD_BUFFSIZE_default TRANS_END (Avail CHAR_C)
         (upload_init (fresh demo_buffer)) = Ok s'
    /\ s' = set_state TRANS_END s1
    /\ state s' = TRANS_END
    /\ upload_loop XMOD_BUFFSIZE_default
         ((Avail CHAR_C, TRANS_END) :: [(Avail X_ACK, TRANS_RUN)])
         (upload_init (fresh demo_buffer))
       = match TRANS_END with
         | TRANS_END | TRANS_ABORT => Ok s'
         | _ => upload_loop XMOD_BUFFSIZE_default [(Avail X_ACK, TRANS_RUN)] s'
         end.
Proof.
  apply (handshake_state_is_what_sendblock_hands_back XMOD_BUFFSIZE_default
           TRANS_END
           (upload_init (fresh demo_buffer)) [(Avail X_ACK, TRANS_RUN)]).
  - vm_compute. discriminate.
  - apply Forall_replicate. unfold is_u8. lia.
Defined.


(** * Further properties of the code *)

(** ** The CRC engine is linear over XOR *)

Ltac xor_bits :=
  apply Z.bits_inj'; intros ? ?; rewrite ?Z.lxor_spec;
  repeat match goal with
         | |- context [Z.testbit ?a ?i] => destruct (Z.testbit a i)
         end;
  reflexivity.

Lemma lxor_u8 a b : is_u8 a -> is_u8 b -> is_u8 (Z.lxor a b).
Proof.
  unfold is_u8. intros Ha Hb. split.
  - apply Z.lxor_nonneg. lia.
  - apply (bits_below_pow2 8); [lia | apply Z.lxor_nonneg; lia |].
    intros i Hi. rewrite Z.lxor_spec.
    rewrite (below_pow2_bits 8 a), (below_pow2_bits 8 b) by (simpl; lia).
    reflexivity.
Qed.

Lemma top_bit_testbit x : is_u16 x -> top_bit_set x = Z.testbit x 15.
Proof.
  unfold is_u16, top_bit_set. intros Hx.
  rewrite Z.testbit_eqb by lia. change (2 ^ 15) with 32768.
  destruct (Z.leb_spec 32768 x).
  - assert (x / 32768 = 1) as -> by (Z.div_mod_to_equations; lia).
    reflexivity.
  - rewrite Z.div_small by lia. reflexivity.
Qed.

Lemma shift_left16_bits x i :
  0 <= i ->
  Z.testbit (shift_left16 x) i = (i <? 16) && Z.testbit x (i - 1).
Proof.
  intros Hi. unfold shift_left16. change 65536 with (2 ^ 16).
  rewrite Z.testbit_mod_pow2 by lia. f_equal.
  replace (2 * x) with (Z.shiftl x 1)
    by (rewrite Z.shiftl_mul_pow2 by lia; change (2 ^ 1) with 2; lia).
  now rewrite Z.shiftl_spec by lia.
Qed.

Lemma shift_left16_lxor x y :
  shift_left16 (Z.lxor x y) = Z.lxor (shift_left16 x) (shift_left16 y).
Proof.
  apply Z.bits_inj'. intros i Hi.
  rewrite Z.lxor_spec, !shift_left16_bits, Z.lxor_spec by assumption.
  destruct (i <? 16); [reflexivity|].
  cbn [andb]. reflexivity.
Qed.

Lemma spec_round_range x : is_u16 x -> is_u16 (spec_round x).
Proof.
  intros Hx. rewrite <- crc_round_spec by assumption. apply crc_round_range.
Qed.

Lemma spec_round_lxor x y :
  is_u16 x -> is_u16 y ->
  spec_round (Z.lxor x y) = Z.lxor (spec_round x) (spec_round y).
Proof.
  intros Hx Hy. unfold spec_round.
  rewrite !top_bit_testbit by (try apply lxor_u16; assumption).
  rewrite Z.lxor_spec, shift_left16_lxor.
  destruct (Z.testbit x 15), (Z.testbit y 15); cbn [xorb]; xor_bits.
Qed.

Lemma iter_spec_round_range n x :
  is_u16 x -> is_u16 (Nat.iter n spec_round x).
Proof.
  intros Hx. induction n as [|n IH]; [exact Hx|].
  cbn [Nat.iter]. now apply spec_round_range.
Qed.

Lemma iter_spec_round_lxor n x y :
  is_u16 x -> is_u16 y ->
  Nat.iter n spec_round (Z.lxor x y)
  = Z.lxor (Nat.iter n spec_round x) (Nat.iter n spec_round y).
Proof.
  intros Hx Hy. induction n as [|n IH]; [reflexivity|].
  rewrite !Nat.iter_succ, IH.
  apply spec_round_lxor; now apply iter_spec_round_range.
Qed.

Lemma xmod_crc_update_lxor a a' b b' :
  is_u16 a -> is_u16 a' -> is_u8 b -> is_u8 b' ->
  xmod_crc_update (Z.lxor a a') (Z.lxor b b')
  = Z.lxor (xmod_crc_update a b) (xmod_crc_update a' b').
Proof.
  intros Ha Ha' Hb Hb'.
  rewrite !xmod_crc_update_spec
    by (try apply lxor_u16; try apply lxor_u8; assumption).
  unfold ccitt_false_step.
  rewrite <- iter_spec_round_lxor
    by (apply lxor_u16; try assumption; now apply high_octet_range).
  f_equal.
  change 256 with (2 ^ 8). rewrite <- !Z.shiftl_mul_pow2 by lia.
  rewrite Z.shiftl_lxor. xor_bits.
Qed.

Lemma crc_bytes_lxor p : forall e acc acc',
  length p = length e -> Forall is_u8 p -> Forall is_u8 e ->
  is_u16 acc -> is_u16 acc' ->
  crc_bytes (Z.lxor acc acc') (xor_bytes p e)
  = Z.lxor (crc_bytes acc p) (crc_bytes acc' e).
Proof.
  induction p as [|b p IH]; intros [|b' e] acc acc' Hlen Hp He Hacc Hacc';
    try discriminate Hlen; [reflexivity|].
  inversion Hp; inversion He; subst.
  unfold crc_bytes, xor_bytes in *. cbn [zip_with fold_left].
  rewrite xmod_crc_update_lxor by assumption.
  apply IH; try assumption; try apply xmod_crc_update_range.
  now injection Hlen.
Qed.

(** X1.  The XOR of the CRCs of two runs of octets of the same length,
    folded from the same start value, is the CRC of the XOR of the two runs
    folded from 0: what a corruption does to the CRC depends on the corrupted
    bits alone, not on the data or the start value. *)
Theorem crc_difference_is_crc_of_difference acc p p' :
  is_u16 acc -> length p = length p' ->
  Forall is_u8 p -> Forall is_u8 p' ->
  Z.lxor (crc_bytes acc p) (crc_bytes acc p') = crc_bytes 0 (xor_bytes p p').
Proof.
  intros Hacc Hlen Hp Hp'.
  rewrite <- crc_bytes_lxor by assumption.
  now rewrite Z.lxor_nilpotent.
Qed.

Lemma crc_difference_is_crc_of_difference_witness :
  Z.lxor (crc_bytes 0xFFFF [0x31; 0x32; 0x33])
         (crc_bytes 0xFFFF [0x31; 0x3A; 0x33])
  = crc_bytes 0 (xor_bytes [0x31; 0x32; 0x33] [0x31; 0x3A; 0x33]).
Proof.
  apply (crc_difference_is_crc_of_difference 0xFFFF
           [0x31; 0x32; 0x33] [0x31; 0x3A; 0x33]).
  - unfold is_u16. lia.
  - reflexivity.
  - repeat constructor; unfold is_u8; lia.
  - repeat constructor; unfold is_u8; lia.
Defined.

(** ** The CRC of a block followed by its own CRC octets *)

Lemma lxor_high_octet c :
  is_u16 c -> Z.lxor c (crc_hi c * 256) = crc_lo c.
Proof.
  intros Hc. unfold crc_hi, crc_lo. rewrite !land_255.
  change 256 with (2 ^ 8). rewrite <- Z.shiftl_mul_pow2 by lia.
  apply Z.bits_inj'. intros i Hi.
  rewrite Z.lxor_spec, (Z.testbit_mod_pow2 c 8 i) by lia.
  destruct (Z.ltb_spec i 8) as [Hlt|Hge].
  - rewrite Z.shiftl_spec_low by lia. now rewrite xorb_false_r.
  - rewrite Z.shiftl_spec, Z.testbit_mod_pow2, Z.shiftr_spec by lia.
    replace (i - 8 + 8) with i by lia.
    destruct (Z.ltb_spec (i - 8) 8) as [Hlt'|Hge']; cbn [andb].
    + apply xorb_nilpotent.
    + rewrite xorb_false_r.
      apply (below_pow2_bits 16); unfold is_u16 in Hc; simpl; lia.
Qed.

(** While the top bit stays clear a round is a doubling. *)
Lemma iter_spec_round_small n x :
  0 <= x -> x * 2 ^ Z.of_nat n < 65536 ->
  Nat.iter n spec_round x = x * 2 ^ Z.of_nat n.
Proof.
  intros Hx. induction n as [|n IH]; intros Hn.
  - change (Nat.iter 0 spec_round x) with x. change (Z.of_nat 0) with 0.
    rewrite Z.pow_0_r. lia.
  - rewrite Nat.iter_succ.
    replace (Z.of_nat (S n)) with (Z.succ (Z.of_nat n)) in * by lia.
    rewrite Z.pow_succ_r in * by lia.
    rewrite IH by lia.
    unfold spec_round, top_bit_set, shift_left16.
    replace (32768 <=? x * 2 ^ Z.of_nat n) with false
      by (symmetry; apply Z.leb_gt; lia).
    rewrite Z.mod_small; lia.
Qed.

Lemma xmod_crc_update_high_octet c :
  is_u16 c -> xmod_crc_update c (crc_hi c) = crc_lo c * 256.
Proof.
  intros Hc.
  rewrite xmod_crc_update_spec by (try apply crc_hi_range; assumption).
  unfold ccitt_false_step. rewrite lxor_high_octet by assumption.
  pose proof (crc_lo_range c) as Hl. unfold is_u8 in Hl.
  rewrite iter_spec_round_small by (change (2 ^ Z.of_nat 8) with 256; lia).
  reflexivity.
Qed.

Lemma xmod_crc_update_cancels l :
  is_u8 l -> xmod_crc_update (l * 256) l = 0.
Proof.
  intros Hl.
  rewrite xmod_crc_update_spec by (try apply high_octet_range; assumption).
  unfold ccitt_false_step. rewrite Z.lxor_nilpotent. reflexivity.
Qed.

(** X2.  Folding a run of octets and then the two octets of the CRC so
    obtained, high octet first, leaves the accumulator at 0, whatever the run
    and the start value: a frame's payload and CRC octets together have
    CRC 0. *)
Theorem crc_of_block_and_its_crc_is_zero acc p :
  is_u16 acc ->
  crc_bytes acc
    (p ++ [crc_hi (crc_bytes acc p); crc_lo (crc_bytes acc p)]) = 0.
Proof.
  intros Hacc. rewrite crc_bytes_app.
  pose proof (crc_bytes_range acc p Hacc) as Hc.
  set (c := crc_bytes acc p) in *.
  unfold crc_bytes. cbn [fold_left].
  rewrite xmod_crc_update_high_octet by assumption.
  apply xmod_crc_update_cancels, crc_lo_range.
Qed.

Lemma crc_of_block_and_its_crc_is_zero_witness :
  crc_bytes 0
    (demo_payload 0x5A
       ++ [crc_hi (crc_bytes 0 (demo_payload 0x5A));
           crc_lo (crc_bytes 0 (demo_payload 0x5A))]) = 0.
Proof.
  apply (crc_of_block_and_its_crc_is_zero 0 (demo_payload 0x5A)).
  unfold is_u16. lia.
Defined.

(** ** A single inverted bit *)

Lemma xor_bytes_zeros p : xor_bytes p (replicate (length p) 0) = p.
Proof.
  unfold xor_bytes. induction p as [|b p IH]; [reflexivity|].
  cbn [length replicate zip_with]. now rewrite Z.lxor_0_r, IH.
Qed.

(** Inverting a bit is an XOR with the run that has just that bit set. *)
Lemma flip_bit_xor j p : forall i,
  flip_bit i j p = xor_bytes p (flip_bit i j (replicate (length p) 0)).
Proof.
  unfold flip_bit.
  induction p as [|b p IH]; intros [|i]; try reflexivity.
  - cbn [length replicate alter list_alter]. unfold xor_bytes.
    cbn [zip_with]. fold (xor_bytes p (replicate (length p) 0)).
    now rewrite xor_bytes_zeros, Z.lxor_0_l.
  - cbn [length replicate alter list_alter]. unfold xor_bytes.
    cbn [zip_with]. rewrite Z.lxor_0_r. f_equal. apply IH.
Qed.

Lemma flip_bit_octets i j p :
  0 <= j < 8 -> Forall is_u8 p -> Forall is_u8 (flip_bit i j p).
Proof.
  intros Hj Hp. unfold flip_bit. apply Forall_alter; [exact Hp|].
  intros b _ Hb. apply lxor_u8; [exact Hb|].
  unfold is_u8. split; [apply Z.pow_nonneg; lia|].
  change 256 with (2 ^ 8). apply Z.pow_lt_mono_r; lia.
Qed.

(** None of the 1024 single bits of a block has CRC 0. *)
Lemma single_bit_crc_nonzero i j :
  (i < 128)%nat -> 0 <= j < 8 ->
  crc_bytes 0 (flip_bit i j (replicate 128 0)) <> 0.
Proof.
  intros Hi Hj.
  assert (Hall :
    forallb (fun i =>
      forallb (fun j =>
        negb (crc_bytes 0 (flip_bit i (Z.of_nat j) (replicate 128 0)) =? 0))
        (seq 0 8)) (seq 0 128) = true) by (vm_compute; reflexivity).
  rewrite forallb_forall in Hall.
  specialize (Hall i ltac:(apply in_seq; lia)).
  rewrite forallb_forall in Hall.
  specialize (Hall (Z.to_nat j) ltac:(apply in_seq; lia)).
  rewrite Z2Nat.id in Hall by lia.
  apply negb_true_iff, Z.eqb_neq in Hall. exact Hall.
Qed.

Lemma crc_flip_bit acc i j p :
  is_u16 acc -> 0 <= j < 8 -> Forall is_u8 p ->
  crc_bytes acc (flip_bit i j p)
  = Z.lxor (crc_bytes acc p)
      (crc_bytes 0 (flip_bit i j (replicate (length p) 0))).
Proof.
  intros Hacc Hj Hp.
  rewrite flip_bit_xor. rewrite <- (Z.lxor_0_r acc) at 1.
  apply crc_bytes_lxor; try assumption.
  - unfold flip_bit. now rewrite length_alter, length_replicate.
  - apply flip_bit_octets; [assumption|].
    apply Forall_replicate. unfold is_u8. lia.
  - unfold is_u16. lia.
Qed.

(** X3.  A frame whose payload differs in exactly one bit from the payload
    its CRC octets were computed for never passes: the CRC of the received
    payload differs from the received CRC, the handler answers NAK, the cursor
    is back where the payload started and the last committed number is
    unchanged. *)
Theorem single_bit_corruption_is_refused s n p i j :
  state s = TRANS_AWAIT -> is_u8 n ->
  length p = 128%nat -> Forall is_u8 p ->
  slot_fits (run_cursor n s) s ->
  (i < 128)%nat -> 0 <= j < 8 ->
  crc_bytes 0 (flip_bit i j p) <> crc_bytes 0 p
  /\ exists s',
      download_loop
        (Avail <$> frame_with n (flip_bit i j p)
                     (crc_hi (crc_bytes 0 p)) (crc_lo (crc_bytes 0 p))) s
      = Ok (s', [])
      /\ state s' = TRANS_AWAIT
      /\ sent (io s') = sent (io s) ++ [X_NAK]
      /\ mempos s' = run_cursor n s
      /\ last_succeeded_block s' = last_succeeded_block s.
Proof.
  intros Hst Hn Hp Hoct Hfit Hi Hj.
  assert (Hne : crc_bytes 0 (flip_bit i j p) <> crc_bytes 0 p).
  { intros Heq.
    apply (single_bit_crc_nonzero i j Hi Hj).
    rewrite (crc_flip_bit 0 i j p) in Heq
      by (try assumption; unfold is_u16; lia).
    rewrite Hp in Heq.
    set (e := crc_bytes 0 (flip_bit i j (replicate 128 0))) in *.
    replace e with (Z.lxor (crc_bytes 0 p) (Z.lxor (crc_bytes 0 p) e))
      by xor_bits.
    rewrite Heq. apply Z.lxor_nilpotent. }
  split; [exact Hne|].
  assert (Hlen : length (flip_bit i j p) = 128%nat)
    by (unfold flip_bit; now rewrite length_alter).
  pose proof (download_frame_mismatch s n (flip_bit i j p)
                (crc_hi (crc_bytes 0 p)) (crc_lo (crc_bytes 0 p)) []
                Hst Hn Hlen Hfit) as H.
  rewrite frame_crc_matches, app_nil_r in H.
  specialize (H (fun E => Hne (eq_sym E))). cbn [download_loop] in H.
  eexists. split; [exact H|].
  split; [reflexivity|]. split; [apply sent_frame_log|].
  split; reflexivity.
Qed.

Lemma single_bit_corruption_is_refused_witness :
  crc_bytes 0 (flip_bit 5 3 (demo_payload 0x41))
  <> crc_bytes 0 (demo_payload 0x41)
  /\ exists s',
      download_loop
        (Avail <$> frame_with 1 (flip_bit 5 3 (demo_payload 0x41))
                     (crc_hi (crc_bytes 0 (demo_payload 0x41)))
                     (crc_lo (crc_bytes 0 (demo_payload 0x41))))
        (download_init (fresh demo_buffer))
      = Ok (s', [])
      /\ state s' = TRANS_AWAIT
      /\ sent (io s') = sent (io (download_init (fresh demo_buffer))) ++ [X_NAK]
      /\ mempos s' = run_cursor 1 (download_init (fresh demo_buffer))
      /\ last_succeeded_block s'
         = last_succeeded_block (download_init (fresh demo_buffer)).
Proof.
  apply (single_bit_corruption_is_refused
           (download_init (fresh demo_buffer)) 1 (demo_payload 0x41) 5 3).
  - reflexivity.
  - unfold is_u8. lia.
  - reflexivity.
  - apply Forall_replicate. unfold is_u8. lia.
  - unfold slot_fits. vm_compute. repeat split; discriminate.
  - lia.
  - lia.
Defined.

(** ** A whole download *)

Lemma receive_eot s :
  state s = TRANS_AWAIT ->
  receive X_EOT s =
  Ok (mkSession TRANS_END (retrycount s) (counter s) (current_crc s)
        (crc_recv s) (mempos s) (blocknum s) (last_succeeded_block s)
        (buffer s) (io s ++ [Putc X_ACK; Putc X_ACK])).
Proof.
  intros Hst. open_session s. unfold set_state, uart_putc, set_io. fields.
  now rewrite <- app_assoc.
Qed.

Lemma receive_etb s :
  state s = TRANS_AWAIT ->
  receive X_ETB s =
  Ok (mkSession TRANS_END (retrycount s) (counter s) (current_crc s)
        (crc_recv s) (mempos s) (blocknum s) (last_succeeded_block s)
        (buffer s) (io s ++ [Putc X_ACK])).
Proof. intros Hst. open_session s. reflexivity. Qed.

Lemma receive_unexpected s d :
  state s = TRANS_AWAIT -> d <> X_SOH -> d <> X_EOT -> d <> X_ETB ->
  receive d s = Ok (set_state TRANS_ABORT s).
Proof.
  intros Hst H1 H2 H3. open_session s.
  destruct (Z.eqb_spec d X_SOH); [contradiction|].
  destruct (Z.eqb_spec d X_EOT); [contradiction|].
  destruct (Z.eqb_spec d X_ETB); [contradiction|].
  reflexivity.
Qed.

Lemma payloads_length prev fs :
  in_sequence prev fs -> length (payloads fs) = (128 * length fs)%nat.
Proof.
  revert prev. induction fs as [|f fs IH]; intros prev Hseq; [reflexivity|].
  cbn [in_sequence] in Hseq. destruct Hseq as (_ & _ & Hp & Hseq).
  unfold payloads in *. cbn [fmap list_fmap concat length].
  rewrite length_app, Hp, (IH _ Hseq). lia.
Qed.

Lemma payloads_octets fs :
  Forall (fun f => Forall is_u8 (snd f)) fs -> Forall is_u8 (payloads fs).
Proof.
  induction 1 as [|f fs Hf _ IH]; [constructor|].
  unfold payloads in *. cbn [fmap list_fmap concat].
  apply Forall_app. split; assumption.
Qed.

Lemma list_inserts_front (p buf : list Z) :
  (length p <= length buf)%nat ->
  list_inserts 0 p buf = p ++ drop (length p) buf.
Proof.
  intros Hlen. rewrite <- (take_drop (length p) buf) at 1.
  apply list_inserts_0_r. rewrite length_take. lia.
Qed.

(** A run of well-formed frames that fits the array, with what it leaves
    in the array. *)
Lemma download_frames_stored fs : forall s,
  state s = TRANS_AWAIT -> in_sequence (last_succeeded_block s) fs ->
  0 <= mempos s ->
  mempos s + 128 * Z.of_nat (length fs) <= Z.of_nat (length (buffer s)) ->
  mempos s + 128 * Z.of_nat (length fs) < 65536 ->
  exists s',
    (forall evs, download_loop ((Avail <$> frames fs) ++ evs) s
                 = download_loop evs s')
    /\ state s' = TRANS_AWAIT
    /\ mempos s' = mempos s + 128 * Z.of_nat (length fs)
    /\ buffer s'
       = list_inserts (Z.to_nat (mempos s)) (u8 <$> payloads fs) (buffer s)
    /\ last_succeeded_block s' = last_number (last_succeeded_block s) fs
    /\ retrycount s' = retrycount s
    /\ sent (io s') = sent (io s) ++ replicate (length fs) X_ACK.
Proof.
  induction fs as [|[n p] fs IH]; intros s Hst Hseq Hm Hfit Hlim.
  - exists s. cbn. rewrite Z.add_0_r, app_nil_r.
    repeat split; try reflexivity. exact Hst.
  - cbn [in_sequence fst snd length] in *.
    destruct Hseq as (Hn & Hnew & Hp & Hseq).
    pose proof (run_cursor_new n s Hnew) as Hcur.
    assert (Hslot : slot_fits (run_cursor n s) s)
      by (rewrite Hcur; unfold slot_fits; lia).
    set (s1 := mkSession TRANS_AWAIT (retrycount s) 128 (crc_bytes 0 p)
                 (crc_bytes 0 p) (run_cursor n s + 128) n n
                 (list_inserts (Z.to_nat (run_cursor n s)) (u8 <$> p)
                    (buffer s))
                 (io s ++ resets 132 ++ [Putc X_ACK; ResetMillis])).
    destruct (IH s1)
      as (s' & Hrun & Hst' & Hm' & Hbuf' & Hlast' & Hrc' & Hio');
      try reflexivity; try assumption;
      unfold s1; fields; rewrite ?Hcur, ?length_inserts; try lia.
    exists s'. split; [|split; [|split; [|split; [|split; [|split]]]]].
    + intros evs. rewrite frames_cons, fmap_app, <- app_assoc.
      cbn [fst snd].
      rewrite download_frame by assumption. apply Hrun.
    + exact Hst'.
    + rewrite Hm'. unfold s1. fields. rewrite Hcur. lia.
    + rewrite Hbuf'. unfold s1. fields. rewrite Hcur.
      unfold payloads. cbn [fmap list_fmap concat snd].
      rewrite fmap_app, list_inserts_app_l, length_fmap, Hp.
      f_equal. lia.
    + rewrite Hlast', last_number_cons. reflexivity.
    + rewrite Hrc'. reflexivity.
    + rewrite Hio'. unfold s1. fields. rewrite sent_frame_log.
      rewrite <- app_assoc. reflexivity.
Qed.

(** X4.  A download that is sent well-formed frames, none repeating the
    number before it, that together fit the array, and then EOT: the payloads
    lie one after the other from index 0, the rest of the array is as it was,
    every frame was answered by ACK and EOT by two, the session is in
    [TRANS_END], and the bytes pending after EOT have been discarded. *)
Theorem download_stores_transfer s fs more :
  in_sequence 0 fs -> Forall (fun f => Forall is_u8 (snd f)) fs ->
  128 * Z.of_nat (length fs) <= Z.of_nat (length (buffer s)) ->
  128 * Z.of_nat (length fs) < 65536 ->
  exists s',
    xmod_download ((Avail <$> frames fs) ++ Avail X_EOT :: more) s
    = Ok (s', eat_garbage more)
    /\ state s' = TRANS_END
    /\ take (128 * length fs) (buffer s') = payloads fs
    /\ drop (128 * length fs) (buffer s') = drop (128 * length fs) (buffer s)
    /\ mempos s' = 128 * Z.of_nat (length fs)
    /\ sent (io s')
       = sent (io s) ++ CHAR_C :: replicate (length fs) X_ACK
         ++ [X_ACK; X_ACK].
Proof.
  intros Hseq Hoct Hfit Hlim.
  destruct (download_frames_stored fs (download_init s))
    as (s1 & Hrun & Hst1 & Hm1 & Hbuf1 & _ & _ & Hio1);
    try reflexivity; try assumption;
    try (destruct s; cbn; lia).
  pose proof (payloads_length 0 fs Hseq) as Hlen.
  assert (Hbuf : buffer s1
                 = payloads fs ++ drop (128 * length fs) (buffer s)).
  { rewrite Hbuf1, fmap_u8_octets by now apply payloads_octets.
    destruct s. cbn [download_init set_mempos set_retrycount
                     set_last_succeeded_block uart_putc set_io set_state
                     mempos buffer state retrycount counter current_crc
                     crc_recv blocknum last_succeeded_block io].
    change (Z.to_nat 0) with 0%nat.
    rewrite list_inserts_front by (cbn in Hfit; lia).
    now rewrite Hlen. }
  unfold xmod_download. rewrite Hrun.
  erewrite download_loop_stop;
    [| apply receive_eot; exact Hst1 | reflexivity].
  cbn [mbind result_bind].
  eexists. split; [reflexivity|].
  unfold reset_millis, set_io. fields.
  split; [reflexivity|].
  split; [rewrite Hbuf, take_app_length' by (symmetry; exact Hlen);
          reflexivity|].
  split; [rewrite Hbuf, drop_app_length' by (symmetry; exact Hlen);
          reflexivity|].
  split; [rewrite Hm1; destruct s; cbn; lia|].
  rewrite !sent_app, Hio1. destruct s. cbn. rewrite sent_app. cbn.
  rewrite <- !app_assoc. reflexivity.
Qed.

Lemma download_stores_transfer_witness :
  exists s',
    xmod_download
      ((Avail <$> frames [(1, demo_payload 0x11); (2, demo_payload 0x22)])
         ++ Avail X_EOT :: [Avail 0; Idle 0])
      (fresh demo_buffer)
    = Ok (s', eat_garbage [Avail 0; Idle 0])
    /\ state s' = TRANS_END
    /\ take (128 * length [(1, demo_payload 0x11); (2, demo_payload 0x22)])
         (buffer s')
       = payloads [(1, demo_payload 0x11); (2, demo_payload 0x22)]
    /\ drop (128 * length [(1, demo_payload 0x11); (2, demo_payload 0x22)])
         (buffer s')
       = drop (128 * length [(1, demo_payload 0x11); (2, demo_payload 0x22)])
           (buffer (fresh demo_buffer))
    /\ mempos s'
       = 128 * Z.of_nat
                 (length [(1, demo_payload 0x11); (2, demo_payload 0x22)])
    /\ sent (io s')
       = sent (io (fresh demo_buffer)) ++ CHAR_C ::
         replicate (length [(1, demo_payload 0x11); (2, demo_payload 0x22)])
           X_ACK ++ [X_ACK; X_ACK].
Proof.
  apply (download_stores_transfer (fresh demo_buffer)
           [(1, demo_payload 0x11); (2, demo_payload 0x22)]
           [Avail 0; Idle 0]).
  - cbn. unfold is_u8. repeat split; try lia; reflexivity.
  - constructor; [apply Forall_replicate; unfold is_u8; lia|].
    constructor; [apply Forall_replicate; unfold is_u8; lia|].
    constructor.
  - vm_compute. discriminate.
  - vm_compute. reflexivity.
Defined.

(** X5.  Between frames a byte that is not SOH ends the download at once:
    ETB is answered by a single ACK and leaves the session in [TRANS_END],
    any byte other than SOH, EOT and ETB is answered by nothing and leaves it
    in [TRANS_ABORT].  Either way cursor and array are as the frames before
    left them and the bytes pending behind it are discarded. *)
Theorem byte_between_frames_ends_download s fs d more :
  in_sequence 0 fs ->
  128 * Z.of_nat (length fs) <= Z.of_nat (length (buffer s)) ->
  128 * Z.of_nat (length fs) < 65536 ->
  d <> X_SOH -> d <> X_EOT ->
  exists s1 s',
    xmod_download (Avail <$> frames fs) s = Ok (s1, [])
    /\ xmod_download ((Avail <$> frames fs) ++ Avail d :: more) s
       = Ok (s', eat_garbage more)
    /\ buffer s' = buffer s1 /\ mempos s' = mempos s1
    /\ (d = X_ETB ->
          state s' = TRANS_END /\ sent (io s') = sent (io s1) ++ [X_ACK])
    /\ (d <> X_ETB ->
          state s' = TRANS_ABORT /\ sent (io s') = sent (io s1)).
Proof.
  intros Hseq Hfit Hlim Hsoh Heot.
  destruct (download_frames_stored fs (download_init s))
    as (s1 & Hrun & Hst1 & _);
    try reflexivity; try assumption;
    try (destruct s; cbn; lia).
  exists s1.
  assert (H1 : xmod_download (Avail <$> frames fs) s = Ok (s1, [])).
  { unfold xmod_download. rewrite <- (app_nil_r (Avail <$> frames fs)), Hrun.
    reflexivity. }
  unfold xmod_download at 2. rewrite Hrun.
  destruct (Z.eq_dec d X_ETB) as [->|Hetb].
  - erewrite download_loop_stop;
      [| apply receive_etb; exact Hst1 | reflexivity].
    cbn [mbind result_bind]. eexists. split; [exact H1|].
    split; [reflexivity|]. unfold reset_millis, set_io. fields.
    do 2 (split; [reflexivity|]).
    split; [|intros Hne; now contradiction Hne].
    intros _. split; [reflexivity|].
    rewrite !sent_app. cbn [sent]. now rewrite app_nil_r.
  - erewrite download_loop_stop;
      [| apply receive_unexpected; assumption | destruct s1; reflexivity].
    cbn [mbind result_bind]. eexists. split; [exact H1|].
    split; [reflexivity|].
    destruct s1. cbn. rewrite sent_app. cbn. rewrite app_nil_r.
    repeat split; try reflexivity; intros; contradiction.
Qed.

Lemma byte_between_frames_ends_download_witness :
  exists s1 s',
    xmod_download (Avail <$> frames [(1, demo_payload 0x11)])
      (fresh demo_buffer) = Ok (s1, [])
    /\ xmod_download
         ((Avail <$> frames [(1, demo_payload 0x11)])
            ++ Avail X_CAN :: [Avail 0x55; Idle 0])
         (fresh demo_buffer)
       = Ok (s', eat_garbage [Avail 0x55; Idle 0])
    /\ buffer s' = buffer s1 /\ mempos s' = mempos s1
    /\ (X_CAN = X_ETB ->
          state s' = TRANS_END /\ sent (io s') = sent (io s1) ++ [X_ACK])
    /\ (X_CAN <> X_ETB ->
          state s' = TRANS_ABORT /\ sent (io s') = sent (io s1)).
Proof.
  apply (byte_between_frames_ends_download (fresh demo_buffer)
           [(1, demo_payload 0x11)] X_CAN [Avail 0x55; Idle 0]).
  - cbn. unfold is_u8. repeat split; try lia; reflexivity.
  - vm_compute. discriminate.
  - vm_compute. reflexivity.
  - discriminate.
  - discriminate.
Defined.

(** X6.  The retry counter of a download counts its timeouts altogether,
    not those in a row: received frames do not touch it.  After 16 timeouts
    and any number of frames received and committed since, the next timeout
    ends the download in [TRANS_ABORT], with the frames in the array. *)
Theorem timeouts_add_up_across_frames s mss fs ms more :
  Forall (fun ms => TIMEOUT_MS < ms) mss -> length mss = 16%nat ->
  in_sequence 0 fs ->
  128 * Z.of_nat (length fs) <= Z.of_nat (length (buffer s)) ->
  128 * Z.of_nat (length fs) < 65536 ->
  TIMEOUT_MS < ms ->
  exists s',
    xmod_download
      ((Idle <$> mss) ++ (Avail <$> frames fs) ++ Idle ms :: more) s
    = Ok (s', eat_garbage more)
    /\ state s' = TRANS_ABORT
    /\ retrycount s' = 16
    /\ mempos s' = 128 * Z.of_nat (length fs)
    /\ last_succeeded_block s' = last_number 0 fs
    /\ sent (io s')
       = sent (io s) ++ replicate 17 CHAR_C ++ replicate (length fs) X_ACK.
Proof.
  intros Hall Hlen Hseq Hfit Hlim Hms.
  unfold xmod_download.
  rewrite download_loop_timeouts;
    [| destruct s; reflexivity | assumption
     | rewrite Hlen; destruct s; cbn; unfold MAXRETRY; lia].
  rewrite Hlen.
  set (s0 := mkSession _ _ _ _ _ _ _ _ _ _).
  destruct (download_frames_stored fs s0)
    as (s1 & Hrun & Hst1 & Hm1 & _ & Hlast1 & Hrc1 & Hio1);
    try (unfold s0; destruct s; cbn; first [reflexivity | assumption | lia]).
  rewrite Hrun.
  rewrite download_loop_give_up;
    [| assumption
     | rewrite Hrc1; unfold s0; destruct s; cbn; unfold MAXRETRY; lia].
  cbn [mbind result_bind]. eexists. split; [reflexivity|].
  split; [destruct s1; reflexivity|].
  split; [destruct s1; cbn in *; rewrite Hrc1; unfold s0; destruct s;
          reflexivity|].
  split; [destruct s1; cbn in *; rewrite Hm1; unfold s0; destruct s; cbn;
          lia|].
  split; [destruct s1; cbn in *; rewrite Hlast1; unfold s0; destruct s;
          reflexivity|].
  destruct s1. cbn [io set_state] in *. rewrite Hio1. unfold s0.
  destruct s. unfold download_init, uart_putc, set_io, set_state.
  fields. rewrite !sent_app, sent_handshakes. cbn [sent].
  rewrite <- !app_assoc. reflexivity.
Qed.

Lemma timeouts_add_up_across_frames_witness :
  exists s',
    xmod_download
      ((Idle <$> replicate 16 1001)
         ++ (Avail <$> frames [(1, demo_payload 0x11)])
         ++ Idle 1001 :: [Avail X_SOH])
      (fresh demo_buffer)
    = Ok (s', eat_garbage [Avail X_SOH])
    /\ state s' = TRANS_ABORT
    /\ retrycount s' = 16
    /\ mempos s' = 128 * Z.of_nat (length [(1, demo_payload 0x11)])
    /\ last_succeeded_block s' = last_number 0 [(1, demo_payload 0x11)]
    /\ sent (io s')
       = sent (io (fresh demo_buffer)) ++ replicate 17 CHAR_C
         ++ replicate (length [(1, demo_payload 0x11)]) X_ACK.
Proof.
  apply (timeouts_add_up_across_frames (fresh demo_buffer)
           (replicate 16 1001) [(1, demo_payload 0x11)] 1001 [Avail X_SOH]).
  - apply Forall_replicate. unfold TIMEOUT_MS. lia.
  - reflexivity.
  - cbn. unfold is_u8. repeat split; try lia; reflexivity.
  - vm_compute. discriminate.
  - vm_compute. reflexivity.
  - unfold TIMEOUT_MS. lia.
Defined.

(** ** What a download keeps *)

Ltac step_cases H :=
  cbn in H;
  repeat (match type of H with
          | context [if ?b then _ else _] => destruct b eqn:?
          end; cbn in H);
  try discriminate H; injection H as <-.

Ltac solve_replies :=
  eexists; split;
  [ cbn [io]; rewrite ?sent_app; cbn [sent]; rewrite <- ?app_assoc;
    first [ reflexivity | symmetry; apply app_nil_r ]
  | cbn [app];
    repeat (apply List.Forall_cons;
            [unfold is_reply; vm_compute; auto|]);
    apply List.Forall_nil ].

Lemma receive_keeps_shape d s s' :
  well_typed s -> receive d s = Ok s' ->
  well_typed s'
  /\ length (buffer s') = length (buffer s)
  /\ exists out, sent (io s') = sent (io s) ++ out /\ Forall is_reply out.
Proof.
  intros (Hcrc & Hrcv & Hm & Hbn & Hlast & Hbuf) H.
  destruct s as [st rc cnt crc rcv m bn last buf out].
  cbn [current_crc crc_recv mempos blocknum last_succeeded_block buffer
       io] in *.
  unfold receive, handlebyte, in_state, store, in_buffer in H.
  cbn [state] in H.
  destruct st; step_cases H;
    unfold well_typed, set_state, set_counter, set_current_crc, set_crc_recv,
      set_mempos, set_blocknum, set_last_succeeded_block, set_buffer,
      uart_putc, set_io;
    fields;
    (split;
     [ repeat match goal with |- _ /\ _ => split end;
       auto using u16_range, u8_range, xmod_crc_update_range;
       try (unfold is_u16; lia);
       try (apply Forall_insert; auto using u8_range)
     | split;
       [ rewrite ?length_insert; reflexivity
       | solve_replies ] ]).
Qed.

Lemma download_body_keeps_shape e s s' :
  well_typed s -> download_body e s = Ok s' ->
  well_typed s'
  /\ length (buffer s') = length (buffer s)
  /\ exists out, sent (io s') = sent (io s) ++ out /\ Forall is_reply out.
Proof.
  intros Hwt H. destruct e as [ms|d]; cbn [download_body] in H.
  - destruct (ms <=? TIMEOUT_MS).
    { injection H as <-. split; [exact Hwt|]. split; [reflexivity|].
      exists []. split; [now rewrite app_nil_r | constructor]. }
    destruct (retrycount s >? MAXRETRY); injection H as <-;
      destruct s; (split; [exact Hwt|]); (split; [reflexivity|]);
      unfold reset_millis, set_retrycount, uart_putc, set_state, set_io;
      fields; solve_replies.
  - destruct (receive d s) as [s1|i] eqn:E; [|discriminate].
    cbn [mbind result_bind] in H. injection H as <-.
    destruct (receive_keeps_shape d s s1 Hwt E)
      as (Hwt1 & Hlen1 & out & Ho & Hr).
    destruct s1. cbn in *. split; [exact Hwt1|]. split; [exact Hlen1|].
    exists out. rewrite sent_app. cbn. rewrite app_nil_r. now split.
Qed.

Lemma download_loop_keeps_shape evs : forall s s' rest,
  well_typed s -> download_loop evs s = Ok (s', rest) ->
  well_typed s'
  /\ length (buffer s') = length (buffer s)
  /\ exists out, sent (io s') = sent (io s) ++ out /\ Forall is_reply out.
Proof.
  induction evs as [|e evs IH]; intros s s' rest Hwt H.
  - cbn in H. injection H as <- _. split; [exact Hwt|].
    split; [reflexivity|].
    exists []. split; [now rewrite app_nil_r | constructor].
  - cbn [download_loop] in H.
    destruct (download_body e s) as [s1|i] eqn:E; [|discriminate].
    cbn [mbind result_bind] in H.
    destruct (download_body_keeps_shape e s s1 Hwt E)
      as (Hwt1 & Hlen1 & out1 & Ho1 & Hr1).
    destruct (running s1).
    + destruct (IH s1 s' rest Hwt1 H) as (Hwt' & Hlen' & out & Ho & Hr).
      split; [exact Hwt'|]. split; [congruence|].
      exists (out1 ++ out). rewrite Ho, Ho1, <- app_assoc.
      split; [reflexivity | now apply Forall_app].
    + injection H as <- _. split; [exact Hwt1|]. split; [exact Hlen1|].
      exists out1. now split.
Qed.

(** X7.  Whatever arrives, a download that returns leaves every static
    within its C type and the array the size it was and made of octets, and
    the only octets it has put on the line are ['C'], ACK and NAK. *)
Theorem download_keeps_shape evs s s' rest :
  well_typed s -> xmod_download evs s = Ok (s', rest) ->
  well_typed s'
  /\ length (buffer s') = length (buffer s)
  /\ exists out, sent (io s') = sent (io s) ++ out /\ Forall is_reply out.
Proof.
  intros Hwt H. unfold xmod_download in H.
  destruct (download_loop evs (download_init s)) as [[s1 r]|i] eqn:E;
    [|discriminate].
  cbn [mbind result_bind] in H. injection H as <- _.
  assert (Hwt0 : well_typed (download_init s)).
  { destruct Hwt as (Hcrc & Hrcv & Hm & Hbn & Hlast & Hbuf).
    destruct s. unfold well_typed. cbn in *.
    repeat match goal with |- _ /\ _ => split end;
      auto; unfold is_u16, is_u8; lia. }
  destruct (download_loop_keeps_shape evs _ _ _ Hwt0 E)
    as (Hwt1 & Hlen1 & out & Ho & Hr).
  split; [exact Hwt1|].
  split; [rewrite Hlen1; destruct s; reflexivity|].
  exists (CHAR_C :: out). split.
  - rewrite Ho. destruct s. cbn. rewrite sent_app. cbn.
    now rewrite <- app_assoc.
  - constructor; [now left | exact Hr].
Qed.

Lemma download_keeps_shape_witness :
  exists s' rest,
    xmod_download
      ((Avail <$> frame_with 1 (demo_payload 0x33) 0 0)
         ++ (Avail <$> frame 1 (demo_payload 0x44)) ++ [Idle 2000; Avail X_EOT])
      (fresh demo_buffer) = Ok (s', rest)
    /\ well_typed s'
    /\ length (buffer s') = length (buffer (fresh demo_buffer))
    /\ exists out,
        sent (io s') = sent (io (fresh demo_buffer)) ++ out
        /\ Forall is_reply out.
Proof.
  eexists _, _.
  assert (Hwt : well_typed (fresh demo_buffer)).
  { unfold well_typed, is_u16, is_u8. cbn.
    repeat match goal with |- _ /\ _ => split end; try lia.
    apply Forall_replicate. lia. }
  assert (H : xmod_download
                ((Avail <$> frame_with 1 (demo_payload 0x33) 0 0)
                   ++ (Avail <$> frame 1 (demo_payload 0x44))
                   ++ [Idle 2000; Avail X_EOT])
                (fresh demo_buffer) = Ok (_, _))
    by (vm_compute; reflexivity).
  split; [exact H|].
  exact (download_keeps_shape _ _ _ _ Hwt H).
Defined.

(** X8.  In a download that returns, the two [int] counters are far from
    overflow whatever arrived: [retrycount] is between 0 and 16, and [counter]
    is 0 while a frame header is read and between 0 and 127 while a payload
    is. *)
Theorem download_counters_stay_small evs s s' rest :
  xmod_download evs s = Ok (s', rest) ->
  0 <= retrycount s' <= 16
  /\ (state s' = TRANS_BLOCK \/ state s' = TRANS_BLOCK2 -> counter s' = 0)
  /\ (state s' = TRANS_RUN -> 0 <= counter s' < 128).
Proof.
  unfold xmod_download. intros H.
  destruct (download_loop evs (download_init s)) as [[s1 r]|i] eqn:E;
    [|discriminate].
  cbn [mbind result_bind] in H. injection H as <- _.
  destruct (download_loop_counters_ok evs (download_init s) s1 r)
    as [Hrc Hcnt];
    [apply download_init_counters_ok | destruct s; reflexivity | exact E |].
  split; [unfold MAXRETRY in Hrc; lia|].
  split.
  - intros [Hst|Hst]; rewrite Hst in Hcnt; exact Hcnt.
  - intros Hst. rewrite Hst in Hcnt. exact Hcnt.
Qed.

Lemma download_counters_stay_small_witness :
  exists s' rest,
    xmod_download
      ((Idle <$> replicate 3 1001)
         ++ (Avail <$> take 70 (frame 1 (demo_payload 0x44))))
      (fresh demo_buffer) = Ok (s', rest)
    /\ 0 <= retrycount s' <= 16
    /\ (state s' = TRANS_BLOCK \/ state s' = TRANS_BLOCK2 -> counter s' = 0)
    /\ (state s' = TRANS_RUN -> 0 <= counter s' < 128).
Proof.
  eexists _, _.
  assert (H : xmod_download
                ((Idle <$> replicate 3 1001)
                   ++ (Avail <$> take 70 (frame 1 (demo_payload 0x44))))
                (fresh demo_buffer) = Ok (_, _))
    by (vm_compute; reflexivity).
  split; [exact H|].
  exact (download_counters_stay_small _ _ _ _ H).
Defined.

(** ** The transmit driver and the array bounds *)

Lemma block_offset_aligned cap b :
  is_u8 b -> 0 < cap -> cap mod 128 = 0 ->
  0 <= block_offset cap b /\ block_offset cap b + 128 <= cap.
Proof.
  intros Hb Hcap Hmod. unfold block_offset, is_u8 in *.
  assert (Hc : cap = 128 * (cap / 128))
    by (pose proof (Z.div_mod cap 128 ltac:(lia)); lia).
  assert (Ho : exists k, u16 (128 * (b - 1)) = 128 * k /\ 0 <= k).
  { destruct (Z.eq_dec b 0) as [->|Hne].
    - exists 511. split; [reflexivity|lia].
    - exists (b - 1). split; [|lia]. apply u16_small. unfold is_u16. lia. }
  destruct Ho as (k & -> & Hk).
  destruct (Z.geb_spec (128 * k) cap); lia.
Qed.

Lemma slot_length (m : Z) (buf : list Z) :
  0 <= m -> m + 128 <= Z.of_nat (length buf) -> length (slot m buf) = 128%nat.
Proof.
  intros Hm Hfit. unfold slot. rewrite length_take, length_drop. lia.
Qed.

Lemma frame_length n p : length (frame n p) = (length p + 5)%nat.
Proof.
  unfold frame, frame_with. rewrite !length_app. cbn [length]. lia.
Qed.

(** X9.  With an array whose size is a positive multiple of 128,
    [xmod_sendblock] reads inside the array whatever the block number is: it
    sends one frame of 133 octets that carries the block number, the 128
    octets at the block's offset and their CRC, and leaves the array alone.
    The offset is [128 * (blocknum - 1)] for the blocks the array holds and 0
    for every number past them. *)
Theorem sendblock_stays_inside cap junk s :
  0 < cap -> cap mod 128 = 0 ->
  Z.of_nat (length (buffer s)) = cap ->
  is_u8 (blocknum s) -> Forall is_u8 (buffer s) ->
  exists s',
    xmod_sendblock cap junk s = Ok (junk, s')
    /\ sent (io s')
       = sent (io s)
         ++ frame (blocknum s)
              (slot (block_offset cap (blocknum s)) (buffer s))
    /\ length (frame (blocknum s)
                 (slot (block_offset cap (blocknum s)) (buffer s)))
       = 133%nat
    /\ buffer s' = buffer s
    /\ (1 <= blocknum s <= cap / 128 ->
          block_offset cap (blocknum s) = 128 * (blocknum s - 1))
    /\ (cap / 128 < blocknum s -> block_offset cap (blocknum s) = 0).
Proof.
  intros Hcap Hmod Hlen Hbn Hoct.
  destruct (block_offset_aligned cap (blocknum s) Hbn Hcap Hmod) as [Hlo Hhi].
  assert (Hc : cap = 128 * (cap / 128))
    by (pose proof (Z.div_mod cap 128 ltac:(lia)); lia).
  eexists. split.
  { apply xmod_sendblock_ok; try assumption; try lia.
    unfold slot. now apply Forall_take, Forall_drop. }
  fields. rewrite sent_app, sent_putc.
  split; [reflexivity|].
  split; [rewrite frame_length, slot_length by lia; reflexivity|].
  split; [reflexivity|].
  unfold block_offset, is_u8 in *. split.
  - intros Hin. rewrite u16_small by (unfold is_u16; lia).
    destruct (Z.geb_spec (128 * (blocknum s - 1)) cap); [lia|reflexivity].
  - intros Hpast. rewrite u16_small by (unfold is_u16; lia).
    destruct (Z.geb_spec (128 * (blocknum s - 1)) cap); [reflexivity|lia].
Qed.

Lemma sendblock_stays_inside_witness :
  exists s',
    xmod_sendblock XMOD_BUFFSIZE_default TRANS_AWAIT
      (set_blocknum 200 (fresh demo_buffer)) = Ok (TRANS_AWAIT, s')
    /\ sent (io s')
       = sent (io (set_blocknum 200 (fresh demo_buffer)))
         ++ frame (blocknum (set_blocknum 200 (fresh demo_buffer)))
              (slot (block_offset XMOD_BUFFSIZE_default
                       (blocknum (set_blocknum 200 (fresh demo_buffer))))
                 (buffer (set_blocknum 200 (fresh demo_buffer))))
    /\ length (frame (blocknum (set_blocknum 200 (fresh demo_buffer)))
                 (slot (block_offset XMOD_BUFFSIZE_default
                          (blocknum (set_blocknum 200 (fresh demo_buffer))))
                    (buffer (set_blocknum 200 (fresh demo_buffer)))))
       = 133%nat
    /\ buffer s' = buffer (set_blocknum 200 (fresh demo_buffer))
    /\ (1 <= blocknum (set_blocknum 200 (fresh demo_buffer))
        <= XMOD_BUFFSIZE_default / 128 ->
          block_offset XMOD_BUFFSIZE_default
            (blocknum (set_blocknum 200 (fresh demo_buffer)))
          = 128 * (blocknum (set_blocknum 200 (fresh demo_buffer)) - 1))
    /\ (XMOD_BUFFSIZE_default / 128
        < blocknum (set_blocknum 200 (fresh demo_buffer)) ->
          block_offset XMOD_BUFFSIZE_default
            (blocknum (set_blocknum 200 (fresh demo_buffer))) = 0).
Proof.
  apply (sendblock_stays_inside XMOD_BUFFSIZE_default TRANS_AWAIT
           (set_blocknum 200 (fresh demo_buffer))).
  - reflexivity.
  - reflexivity.
  - reflexivity.
  - unfold is_u8. cbn. lia.
  - apply Forall_replicate. unfold is_u8. lia.
Defined.

Lemma send_payload_overflow n : forall p offset s,
  0 <= p + offset <= Z.of_nat (length (buffer s)) ->
  Z.of_nat (length (buffer s)) < p + offset + Z.of_nat n ->
  send_payload n p offset s = OutOfBounds (Z.of_nat (length (buffer s))).
Proof.
  induction n as [|n IH]; intros p offset s Hlo Hhi; [lia|].
  cbn [send_payload]. unfold load.
  destruct (buffer s !! Z.to_nat (p + offset)) as [v|] eqn:Hv.
  - apply lookup_lt_Some in Hv.
    replace (0 <=? p + offset) with true by (symmetry; apply Z.leb_le; lia).
    cbn [mbind result_bind].
    rewrite IH; unfold uart_putc, set_current_crc, set_io; fields;
      try reflexivity; lia.
  - apply lookup_ge_None in Hv. cbn [mbind result_bind]. f_equal. lia.
Qed.

(** X10.  With an array whose size is not a multiple of 128,
    [xmod_sendblock] for the block that starts in the last, incomplete 128
    octets is not stopped by the offset test and reads the element after the
    last one. *)
Theorem sendblock_reads_past_partial_block cap junk s :
  0 < cap -> cap mod 128 <> 0 -> cap / 128 + 1 < 256 ->
  Z.of_nat (length (buffer s)) = cap ->
  blocknum s = cap / 128 + 1 ->
  xmod_sendblock cap junk s = OutOfBounds cap.
Proof.
  intros Hcap Hmod Hb8 Hlen Hbn.
  pose proof (Z.div_mod cap 128 ltac:(lia)) as Hdm.
  pose proof (Z.mod_pos_bound cap 128 ltac:(lia)) as Hmb.
  assert (Hq : 0 <= cap / 128) by (apply Z.div_pos; lia).
  unfold xmod_sendblock.
  unfold uart_putc, set_current_crc, set_io. fields.
  assert (Hoff : block_offset cap (blocknum s) = 128 * (cap / 128)).
  { unfold block_offset. rewrite Hbn.
    replace (cap / 128 + 1 - 1) with (cap / 128) by lia.
    rewrite u16_small by (unfold is_u16; lia).
    destruct (Z.geb_spec (128 * (cap / 128)) cap); [lia|reflexivity]. }
  rewrite Hoff.
  rewrite send_payload_overflow; fields; rewrite ?Hlen; try reflexivity; lia.
Qed.

Lemma sendblock_reads_past_partial_block_witness :
  xmod_sendblock 200 TRANS_AWAIT
    (set_blocknum 2 (fresh (replicate 200 0))) = OutOfBounds 200.
Proof.
  apply (sendblock_reads_past_partial_block 200 TRANS_AWAIT
           (set_blocknum 2 (fresh (replicate 200 0)))).
  - lia.
  - vm_compute. discriminate.
  - vm_compute. reflexivity.
  - reflexivity.
  - reflexivity.
Defined.

(** X11.  What [xmod_sendblock] puts on the line for a block the array
    holds is a frame the receive handler takes: fed to a download that waits
    for a frame and has room for it, the octets are answered by ACK, the block
    number becomes the last committed one, and the receiver's slot holds the
    128 octets of the sender's block. *)
Theorem sent_block_is_accepted cap junk t r :
  0 <= cap -> Z.of_nat (length (buffer t)) = cap ->
  Forall is_u8 (buffer t) ->
  1 <= blocknum t <= cap `quot` 128 -> blocknum t < 256 ->
  state r = TRANS_AWAIT -> slot_fits (run_cursor (blocknum t) r) r ->
  exists t' out r',
    xmod_sendblock cap junk t = Ok (junk, t')
    /\ sent (io t') = sent (io t) ++ out
    /\ download_loop (Avail <$> out) r = Ok (r', [])
    /\ state r' = TRANS_AWAIT
    /\ sent (io r') = sent (io r) ++ [X_ACK]
    /\ last_succeeded_block r' = blocknum t
    /\ mempos r' = run_cursor (blocknum t) r + 128
    /\ slot (run_cursor (blocknum t) r) (buffer r')
       = slot (128 * (blocknum t - 1)) (buffer t).
Proof.
  intros Hcap Hlen Hoct Hbn Hb8 Hst Hfit.
  destruct (xmod_sendblock_block cap junk t Hcap Hlen Hoct Hbn Hb8)
    as (t' & Hsend & _ & _ & _ & Hio).
  destruct (block_offset_in_range cap (blocknum t) Hcap Hbn Hb8) as [_ Hin].
  set (p := slot (128 * (blocknum t - 1)) (buffer t)) in *.
  assert (Hp : length p = 128%nat)
    by (unfold p; apply slot_length; lia).
  assert (Hpo : Forall is_u8 p)
    by (unfold p, slot; now apply Forall_take, Forall_drop).
  assert (Hn : is_u8 (blocknum t)) by (unfold is_u8; lia).
  pose proof (download_frame r (blocknum t) p [] Hst Hn Hp Hfit) as Hrx.
  rewrite app_nil_r in Hrx. cbn [download_loop] in Hrx.
  pose proof Hfit as (Hm0 & Hm1 & Hm2).
  eexists t', _, _.
  split; [exact Hsend|]. split; [exact Hio|]. split; [exact Hrx|].
  fields. split; [reflexivity|]. split; [apply sent_frame_log|].
  do 2 (split; [reflexivity|]).
  rewrite fmap_u8_octets by assumption.
  apply slot_list_inserts; [lia | assumption | lia].
Qed.

Lemma sent_block_is_accepted_witness :
  exists t' out r',
    xmod_sendblock XMOD_BUFFSIZE_default TRANS_AWAIT
      (set_blocknum 2 (fresh (demo_payload 0x11 ++ demo_payload 0x22)))
    = Ok (TRANS_AWAIT, t')
    /\ sent (io t')
       = sent (io (set_blocknum 2
                     (fresh (demo_payload 0x11 ++ demo_payload 0x22))))
         ++ out
    /\ download_loop (Avail <$> out) (download_init (fresh demo_buffer))
       = Ok (r', [])
    /\ state r' = TRANS_AWAIT
    /\ sent (io r')
       = sent (io (download_init (fresh demo_buffer))) ++ [X_ACK]
    /\ last_succeeded_block r'
       = blocknum (set_blocknum 2
                     (fresh (demo_payload 0x11 ++ demo_payload 0x22)))
    /\ mempos r'
       = run_cursor
           (blocknum (set_blocknum 2
                        (fresh (demo_payload 0x11 ++ demo_payload 0x22))))
           (download_init (fresh demo_buffer)) + 128
    /\ slot
         (run_cursor
            (blocknum (set_blocknum 2
                         (fresh (demo_payload 0x11 ++ demo_payload 0x22))))
            (download_init (fresh demo_buffer)))
         (buffer r')
       = slot
           (128 * (blocknum
                     (set_blocknum 2
                        (fresh (demo_payload 0x11 ++ demo_payload 0x22)))
                   - 1))
           (buffer (set_blocknum 2
                      (fresh (demo_payload 0x11 ++ demo_payload 0x22)))).
Proof.
  apply (sent_block_is_accepted XMOD_BUFFSIZE_default TRANS_AWAIT
           (set_blocknum 2 (fresh (demo_payload 0x11 ++ demo_payload 0x22)))
           (download_init (fresh demo_buffer))).
  - vm_compute. discriminate.
  - reflexivity.
  - apply Forall_app. split; apply Forall_replicate; unfold is_u8; lia.
  - vm_compute. split; discriminate.
  - reflexivity.
  - reflexivity.
  - unfold slot_fits. vm_compute. repeat split; discriminate.
Defined.

(** ** A whole upload *)

Lemma reset_millis_fields s :
  reset_millis s
  = mkSession (state s) (retrycount s) (counter s) (current_crc s)
      (crc_recv s) (mempos s) (blocknum s) (last_succeeded_block s)
      (buffer s) (io s ++ [ResetMillis]).
Proof. reflexivity. Qed.

(** The handshake character: block 1 is sent and the state is what the call
    handed back. *)
Lemma upload_body_handshake cap junk s :
  128 <= cap -> Z.of_nat (length (buffer s)) = cap ->
  Forall is_u8 (buffer s) ->
  exists s',
    upload_body cap junk (Avail CHAR_C) s = Ok s'
    /\ state s' = junk /\ blocknum s' = 1
    /\ buffer s' = buffer s /\ retrycount s' = retrycount s
    /\ sent (io s') = sent (io s) ++ frame 1 (slot 0 (buffer s)).
Proof.
  intros Hcap Hlen Hoct.
  destruct s as [st rc cnt crc rcv m bn last buf out].
  cbn [buffer] in *.
  set (s1 := mkSession st rc cnt crc rcv m 1 last buf (out ++ [ResetMillis])).
  assert (Hq : 1 <= cap `quot` 128).
  { rewrite Z.quot_div_nonneg by lia. apply Z.div_le_lower_bound; lia. }
  destruct (xmod_sendblock_block cap junk s1)
    as (s' & Hsend & Hst & Hb & Hrc & Hio);
    try (unfold s1; cbn [blocknum buffer]; first [assumption | lia]).
  pose proof (xmod_sendblock_statics _ _ _ _ _ Hsend) as (_ & _ & _ & Hbuf).
  exists (set_state junk s'). split.
  - cbn [upload_body]. change (CHAR_C =? CHAR_C) with true. cbn match.
    unfold reset_millis, set_io, set_blocknum. fields. fold s1.
    rewrite Hsend. reflexivity.
  - destruct s' as [st' rc' cnt' crc' rcv' m' bn' last' buf' out'].
    unfold set_state. unfold s1 in Hb, Hrc, Hio, Hbuf.
    cbn [state blocknum buffer retrycount io] in *.
    split; [reflexivity|]. split; [exact Hb|]. split; [exact Hbuf|].
    split; [exact Hrc|].
    rewrite Hio, sent_app. cbn [sent]. rewrite app_nil_r.
    do 3 f_equal.
Qed.

(** An ACK before the last block: the next block is sent. *)
Lemma upload_body_ack_next cap junk s :
  0 <= cap -> Z.of_nat (length (buffer s)) = cap ->
  Forall is_u8 (buffer s) ->
  1 <= blocknum s -> blocknum s + 1 <= cap `quot` 128 ->
  blocknum s + 1 < 256 ->
  exists s',
    upload_body cap junk (Avail X_ACK) s = Ok s'
    /\ state s' = state s /\ blocknum s' = blocknum s + 1
    /\ buffer s' = buffer s /\ retrycount s' = retrycount s
    /\ sent (io s')
       = sent (io s)
         ++ frame (blocknum s + 1) (slot (128 * blocknum s) (buffer s)).
Proof.
  intros Hcap Hlen Hoct Hb1 Hnext Hb8.
  assert (Hu : u8 (blocknum s + 1) = blocknum s + 1)
    by (apply u8_small; unfold is_u8; lia).
  destruct s as [st rc cnt crc rcv m bn last buf out].
  cbn [blocknum buffer state io retrycount] in *.
  set (s1 := mkSession st rc cnt crc rcv m (bn + 1) last buf
               (out ++ [ResetMillis])).
  destruct (xmod_sendblock_block cap junk s1)
    as (s' & Hsend & Hst & Hb & Hrc & Hio);
    try (unfold s1; cbn [blocknum buffer]; first [assumption | lia]).
  pose proof (xmod_sendblock_statics _ _ _ _ _ Hsend) as (_ & _ & _ & Hbuf).
  exists s'. split.
  - cbn [upload_body].
    change (X_ACK =? CHAR_C) with false. change (X_ACK =? X_ACK) with true.
    cbn match. unfold reset_millis, set_io, set_blocknum. fields.
    rewrite Hu. fold s1.
    replace (bn + 1 =? cap `quot` 128 + 1) with false
      by (symmetry; apply Z.eqb_neq; lia).
    rewrite Hsend. reflexivity.
  - split; [exact Hst|]. split; [exact Hb|]. split; [exact Hbuf|].
    split; [exact Hrc|].
    rewrite Hio. unfold s1. cbn [io blocknum buffer].
    rewrite sent_app. cbn [sent]. rewrite app_nil_r.
    do 3 f_equal. lia.
Qed.

(** The ACK for the last block: EOT is sent and the state is
    [TRANS_END]. *)
Lemma upload_body_ack_last cap junk s :
  128 <= cap < 32640 -> blocknum s = cap `quot` 128 ->
  upload_body cap junk (Avail X_ACK) s
  = Ok (mkSession TRANS_END (retrycount s) (counter s) (current_crc s)
          (crc_recv s) (mempos s) (blocknum s + 1) (last_succeeded_block s)
          (buffer s) (io s ++ [ResetMillis; Putc X_EOT])).
Proof.
  intros Hcap Hbn.
  assert (Hq : 0 <= cap `quot` 128 <= 254).
  { rewrite Z.quot_div_nonneg by lia. split; [apply Z.div_pos; lia|].
    apply Z.lt_succ_r, Z.div_lt_upper_bound; lia. }
  assert (Hu : u8 (blocknum s + 1) = blocknum s + 1)
    by (apply u8_small; unfold is_u8; lia).
  destruct s as [st rc cnt crc rcv m bn last buf out].
  cbn [blocknum buffer state io retrycount] in *.
  cbn [upload_body].
  change (X_ACK =? CHAR_C) with false. change (X_ACK =? X_ACK) with true.
  cbn match. unfold reset_millis, set_io, set_blocknum. fields.
  rewrite Hu, Hbn, Z.eqb_refl.
  unfold set_state, uart_putc, set_io. fields.
  rewrite <- app_assoc. reflexivity.
Qed.

(** ACK after ACK while blocks are left: the blocks go out in order. *)
Lemma upload_loop_acks cap js : forall s,
  0 <= cap -> Z.of_nat (length (buffer s)) = cap ->
  Forall is_u8 (buffer s) -> running s = true ->
  1 <= blocknum s ->
  blocknum s + Z.of_nat (length js) <= cap `quot` 128 ->
  blocknum s + Z.of_nat (length js) < 256 ->
  exists s',
    (forall evs, upload_loop cap (acks js ++ evs) s = upload_loop cap evs s')
    /\ state s' = state s
    /\ blocknum s' = blocknum s + Z.of_nat (length js)
    /\ buffer s' = buffer s /\ retrycount s' = retrycount s
    /\ sent (io s')
       = sent (io s) ++ buffer_frames (buffer s) (blocknum s + 1) (length js).
Proof.
  induction js as [|j js IH]; intros s Hcap Hlen Hoct Hrun Hb1 Hfit Hb8.
  - exists s. cbn. rewrite Z.add_0_r, app_nil_r. repeat split.
  - cbn [length] in Hfit, Hb8.
    destruct (upload_body_ack_next cap j s)
      as (s1 & Hbody & Hst1 & Hbn1 & Hbuf1 & Hrc1 & Hio1);
      try assumption; try lia.
    assert (Hrun1 : running s1 = true)
      by (unfold running, in_state in *; now rewrite Hst1).
    destruct (IH s1) as (s' & Hloop & Hst' & Hbn' & Hbuf' & Hrc' & Hio');
      rewrite ?Hbuf1, ?Hbn1; try assumption; try lia.
    exists s'. split; [|split; [|split; [|split; [|split]]]].
    + intros evs. cbn [acks fmap list_fmap app upload_loop].
      rewrite Hbody. cbn [mbind result_bind]. rewrite Hrun1.
      apply Hloop.
    + congruence.
    + rewrite Hbn', Hbn1. cbn [length]. lia.
    + congruence.
    + congruence.
    + rewrite Hio', Hio1, Hbuf1, Hbn1. cbn [length buffer_frames].
      rewrite <- app_assoc.
      replace (128 * (blocknum s + 1 - 1)) with (128 * blocknum s) by lia.
      reflexivity.
Qed.

(** X12.  An upload that reads the handshake character and then one ACK
    per block sends the blocks of the array in order, each as a frame with its
    number and CRC, sends EOT on the ACK for the last block and ends in
    [TRANS_END], the array unchanged.  (The value in [state] after the
    handshake is the one the call of [xmod_sendblock] handed back; the upload
    gets this far when that value is neither [TRANS_END] nor
    [TRANS_ABORT].) *)
Theorem upload_sends_whole_buffer cap s j0 js jl more :
  128 <= cap < 32640 -> Z.of_nat (length (buffer s)) = cap ->
  Forall is_u8 (buffer s) ->
  j0 <> TRANS_END -> j0 <> TRANS_ABORT ->
  1 + Z.of_nat (length js) = cap `quot` 128 ->
  exists s',
    xmod_upload cap
      ((Avail CHAR_C, j0) :: acks js ++ (Avail X_ACK, jl) :: more) s
    = Ok s'
    /\ state s' = TRANS_END
    /\ buffer s' = buffer s
    /\ sent (io s')
       = sent (io s)
         ++ buffer_frames (buffer s) 1 (S (length js)) ++ [X_EOT].
Proof.
  intros Hcap Hlen Hoct Hj0 Hj0' Hn.
  assert (Hq : cap `quot` 128 <= 254).
  { rewrite Z.quot_div_nonneg by lia.
    apply Z.lt_succ_r, Z.div_lt_upper_bound; lia. }
  assert (Hinit : buffer (upload_init s) = buffer s /\
                  io (upload_init s) = io s)
    by (destruct s; split; reflexivity).
  destruct Hinit as [Hbi Hioi].
  destruct (upload_body_handshake cap j0 (upload_init s))
    as (s1 & Hbody1 & Hst1 & Hbn1 & Hbuf1 & _ & Hio1);
    rewrite ?Hbi; try assumption; try lia.
  assert (Hrun1 : running s1 = true)
    by (unfold running, in_state; rewrite Hst1; destruct j0;
        try reflexivity; contradiction).
  destruct (upload_loop_acks cap js s1)
    as (s2 & Hloop & Hst2 & Hbn2 & Hbuf2 & _ & Hio2);
    rewrite ?Hbuf1, ?Hbn1, ?Hbi; try assumption; try lia.
  unfold xmod_upload. cbn [upload_loop].
  rewrite Hbody1. cbn [mbind result_bind]. rewrite Hrun1, Hloop.
  cbn [upload_loop].
  rewrite upload_body_ack_last by (try assumption; lia).
  cbn [mbind result_bind].
  eexists. split; [reflexivity|]. fields.
  split; [reflexivity|].
  split; [congruence|].
  rewrite sent_app, Hio2, Hio1, Hbuf1, Hbn1, Hbi, Hioi.
  cbn [sent buffer_frames].
  replace (128 * (1 - 1)) with 0 by lia.
  rewrite <- !app_assoc. reflexivity.
Qed.

Lemma upload_sends_whole_buffer_witness :
  exists s',
    xmod_upload XMOD_BUFFSIZE_default
      ((Avail CHAR_C, TRANS_RUN) :: acks [TRANS_CRC1]
         ++ (Avail X_ACK, TRANS_BLOCK) :: [(Idle 0, TRANS_AWAIT)])
      (fresh (demo_payload 0x11 ++ demo_payload 0x22))
    = Ok s'
    /\ state s' = TRANS_END
    /\ buffer s' = buffer (fresh (demo_payload 0x11 ++ demo_payload 0x22))
    /\ sent (io s')
       = sent (io (fresh (demo_payload 0x11 ++ demo_payload 0x22)))
         ++ buffer_frames
              (buffer (fresh (demo_payload 0x11 ++ demo_payload 0x22)))
              1 (S (length [TRANS_CRC1]))
         ++ [X_EOT].
Proof.
  apply (upload_sends_whole_buffer XMOD_BUFFSIZE_default
           (fresh (demo_payload 0x11 ++ demo_payload 0x22))
           TRANS_RUN [TRANS_CRC1] TRANS_BLOCK [(Idle 0, TRANS_AWAIT)]).
  - unfold XMOD_BUFFSIZE_default. lia.
  - reflexivity.
  - apply Forall_app. split; apply Forall_replicate; unfold is_u8; lia.
  - discriminate.
  - discriminate.
  - reflexivity.
Defined.

(** ** What an upload leaves alone *)

Lemma send_payload_receiver_statics n : forall p offset s s',
  send_payload n p offset s = Ok s' ->
  buffer s' = buffer s /\ mempos s' = mempos s /\ counter s' = counter s
  /\ crc_recv s' = crc_recv s
  /\ last_succeeded_block s' = last_succeeded_block s
  /\ retrycount s' = retrycount s.
Proof.
  induction n as [|n IH]; intros p offset s s' H.
  - cbn in H. injection H as <-. repeat split.
  - cbn [send_payload] in H.
    destruct (load (p + offset) s) as [v|i]; [|discriminate].
    cbn [mbind result_bind] in H. apply IH in H.
    destruct s. exact H.
Qed.

Lemma xmod_sendblock_receiver_statics cap junk s r s' :
  xmod_sendblock cap junk s = Ok (r, s') ->
  buffer s' = buffer s /\ mempos s' = mempos s /\ counter s' = counter s
  /\ crc_recv s' = crc_recv s
  /\ last_succeeded_block s' = last_succeeded_block s
  /\ retrycount s' = retrycount s.
Proof.
  unfold xmod_sendblock. intros H.
  destruct (send_payload _ _ _ _) as [s1|i] eqn:E; [|discriminate].
  cbn [mbind result_bind] in H. injection H as _ <-.
  apply send_payload_receiver_statics in E. destruct s, s1. exact E.
Qed.

Lemma upload_body_receiver_statics cap junk e s s' :
  upload_body cap junk e s = Ok s' ->
  buffer s' = buffer s /\ mempos s' = mempos s /\ counter s' = counter s
  /\ crc_recv s' = crc_recv s
  /\ last_succeeded_block s' = last_succeeded_block s
  /\ retrycount s <= retrycount s'.
Proof.
  intros Hbody.
  destruct e as [ms|d]; cbn [upload_body] in Hbody.
  - destruct (ms <=? TIMEOUT_MS);
      [injection Hbody as <-; repeat split; lia|].
    destruct (retrycount s >? MAXRETRY); injection Hbody as <-;
      destruct s; unfold set_state, reset_millis, set_retrycount, set_io;
      fields; repeat split; lia.
  - destruct (d =? CHAR_C).
    { destruct (xmod_sendblock _ _ _) as [[st s1]|i] eqn:E; [|discriminate].
      cbn [mbind result_bind] in Hbody. injection Hbody as <-.
      apply xmod_sendblock_receiver_statics in E.
      destruct s, s1. unfold set_state, set_blocknum, reset_millis, set_io in *.
      cbn [buffer mempos counter crc_recv last_succeeded_block retrycount]
        in *.
      destruct E as (-> & -> & -> & -> & -> & ->). repeat split; lia. }
    destruct (d =? X_ACK).
    + destruct (_ =? _).
      * injection Hbody as <-. destruct s.
        unfold set_state, uart_putc, set_blocknum, reset_millis, set_io.
        fields. repeat split; lia.
      * destruct (xmod_sendblock _ _ _) as [[st s1]|i] eqn:E;
          [|discriminate].
        cbn [mbind result_bind] in Hbody. injection Hbody as <-.
        apply xmod_sendblock_receiver_statics in E.
        destruct s, s1. unfold set_blocknum, reset_millis, set_io in *.
        cbn [buffer mempos counter crc_recv last_succeeded_block retrycount]
          in *.
        destruct E as (-> & -> & -> & -> & -> & ->). repeat split; lia.
    + destruct (xmod_sendblock _ _ _) as [[st s1]|i] eqn:E; [|discriminate].
      cbn [mbind result_bind] in Hbody. injection Hbody as <-.
      apply xmod_sendblock_receiver_statics in E.
      destruct s, s1. unfold reset_millis, set_io in *.
      cbn [buffer mempos counter crc_recv last_succeeded_block retrycount]
        in *.
      destruct E as (-> & -> & -> & -> & -> & ->). repeat split; lia.
Qed.

Lemma upload_loop_receiver_statics cap evs : forall s s',
  upload_loop cap evs s = Ok s' ->
  buffer s' = buffer s /\ mempos s' = mempos s /\ counter s' = counter s
  /\ crc_recv s' = crc_recv s
  /\ last_succeeded_block s' = last_succeeded_block s
  /\ retrycount s <= retrycount s'.
Proof.
  induction evs as [|[e j] evs IH]; intros s s' H.
  - cbn in H. injection H as <-. repeat split; lia.
  - cbn [upload_loop] in H.
    destruct (upload_body cap j e s) as [s1|i] eqn:E; [|discriminate].
    cbn [mbind result_bind] in H.
    apply upload_body_receiver_statics in E.
    destruct E as (Hb & Hm & Hc & Hr & Hl & Hrc).
    destruct (running s1).
    + apply IH in H. destruct H as (Hb' & Hm' & Hc' & Hr' & Hl' & Hrc').
      repeat match goal with |- _ /\ _ => split end;
        first [congruence | lia].
    + injection H as <-.
      repeat match goal with |- _ /\ _ => split end;
        first [congruence | lia].
Qed.

(** X13.  An upload only reads the array: however it goes, the array,
    the receive cursor, the octet counter and the received CRC are what they
    were before the call, the last stored block number is 0, and the retry
    counter, which the function never sets back, has not gone down. *)
Theorem upload_only_reads cap evs s s' :
  xmod_upload cap evs s = Ok s' ->
  buffer s' = buffer s /\ mempos s' = mempos s /\ counter s' = counter s
  /\ crc_recv s' = crc_recv s /\ last_succeeded_block s' = 0
  /\ retrycount s <= retrycount s'.
Proof.
  unfold xmod_upload. intros H.
  apply upload_loop_receiver_statics in H.
  destruct s. exact H.
Qed.

Lemma upload_only_reads_witness :
  exists s',
    xmod_upload XMOD_BUFFSIZE_default
      [(Avail CHAR_C, TRANS_RUN); (Idle 2000, TRANS_RUN);
       (Avail X_NAK, TRANS_RUN); (Avail X_ACK, TRANS_RUN);
       (Avail X_ACK, TRANS_RUN)]
      (fresh (demo_payload 0x11 ++ demo_payload 0x22)) = Ok s'
    /\ buffer s' = buffer (fresh (demo_payload 0x11 ++ demo_payload 0x22))
    /\ mempos s' = mempos (fresh (demo_payload 0x11 ++ demo_payload 0x22))
    /\ counter s' = counter (fresh (demo_payload 0x11 ++ demo_payload 0x22))
    /\ crc_recv s'
       = crc_recv (fresh (demo_payload 0x11 ++ demo_payload 0x22))
    /\ last_succeeded_block s' = 0
    /\ retrycount (fresh (demo_payload 0x11 ++ demo_payload 0x22))
       <= retrycount s'.
Proof.
  eexists.
  assert (H : xmod_upload XMOD_BUFFSIZE_default
                [(Avail CHAR_C, TRANS_RUN); (Idle 2000, TRANS_RUN);
                 (Avail X_NAK, TRANS_RUN); (Avail X_ACK, TRANS_RUN);
                 (Avail X_ACK, TRANS_RUN)]
                (fresh (demo_payload 0x11 ++ demo_payload 0x22)) = Ok _)
    by (vm_compute; reflexivity).
  split; [exact H|].
  exact (upload_only_reads _ _ _ _ H).
Defined.

(** ** The retry counter of an upload *)

Lemma upload_body_timeout_counts cap junk ms s :
  TIMEOUT_MS < ms -> retrycount s <= MAXRETRY ->
  upload_body cap junk (Idle ms) s
  = Ok (mkSession (state s) (retrycount s + 1) (counter s) (current_crc s)
          (crc_recv s) (mempos s) (blocknum s) (last_succeeded_block s)
          (buffer s) (io s ++ [ResetMillis])).
Proof.
  intros Hms Hrc. cbn [upload_body].
  replace (ms <=? TIMEOUT_MS) with false by (symmetry; apply Z.leb_gt; lia).
  rewrite Z.gtb_ltb.
  replace (MAXRETRY <? retrycount s) with false
    by (symmetry; apply Z.ltb_ge; lia).
  destruct s. reflexivity.
Qed.

Lemma upload_body_timeout_gives_up cap junk ms s :
  TIMEOUT_MS < ms -> MAXRETRY < retrycount s ->
  upload_body cap junk (Idle ms) s = Ok (set_state TRANS_ABORT s).
Proof.
  intros Hms Hrc. cbn [upload_body].
  replace (ms <=? TIMEOUT_MS) with false by (symmetry; apply Z.leb_gt; lia).
  rewrite Z.gtb_ltb.
  replace (MAXRETRY <? retrycount s) with true
    by (symmetry; apply Z.ltb_lt; lia).
  reflexivity.
Qed.

(** Timeouts while the retry counter stays within its limit: each counts,
    and nothing is sent. *)
Lemma upload_loop_timeouts cap evs : forall s more,
  running s = true ->
  Forall (fun ej => is_timeout ej.1) evs ->
  retrycount s + Z.of_nat (length evs) <= MAXRETRY + 1 ->
  upload_loop cap (evs ++ more) s =
  upload_loop cap more
    (mkSession (state s) (retrycount s + Z.of_nat (length evs)) (counter s)
       (current_crc s) (crc_recv s) (mempos s) (blocknum s)
       (last_succeeded_block s) (buffer s)
       (io s ++ resets (length evs))).
Proof.
  induction evs as [|[e j] evs IH]; intros s more Hrun Hall Hcnt.
  - destruct s. cbn. now rewrite Z.add_0_r, app_nil_r.
  - inversion Hall as [|? ? He Hall']; subst.
    destruct e as [ms|d]; [|contradiction]. cbn [is_timeout fst] in He.
    cbn [app upload_loop length] in *.
    rewrite upload_body_timeout_counts by (try assumption; lia).
    cbn [mbind result_bind].
    assert (Hrun' :
      running (mkSession (state s) (retrycount s + 1) (counter s)
                 (current_crc s) (crc_recv s) (mempos s) (blocknum s)
                 (last_succeeded_block s) (buffer s)
                 (io s ++ [ResetMillis])) = true)
      by (destruct s; exact Hrun).
    rewrite Hrun'. rewrite IH; fields; try assumption; try lia.
    rewrite <- app_assoc.
    change ([ResetMillis] ++ resets (length evs))
      with (resets (S (length evs))).
    replace (retrycount s + 1 + Z.of_nat (length evs))
      with (retrycount s + Z.of_nat (S (length evs))) by lia.
    reflexivity.
Qed.

(** X14.  An upload does not set the retry counter back: it goes on
    from the count the call finds.  Entered with the counter at [r], the
    upload lets [16 - r] timeouts pass (none when [r] is 16 or more), sends
    nothing in them, and moves to [TRANS_ABORT] at the next one. *)
Theorem upload_goes_on_from_retry_count cap evs e j more s :
  Forall (fun ej => is_timeout ej.1) evs -> is_timeout e ->
  Z.of_nat (length evs) = Z.max 0 (MAXRETRY + 1 - retrycount s) ->
  exists s',
    xmod_upload cap (evs ++ (e, j) :: more) s = Ok s'
    /\ state s' = TRANS_ABORT
    /\ retrycount s' = Z.max (retrycount s) (MAXRETRY + 1)
    /\ sent (io s') = sent (io s)
    /\ buffer s' = buffer s.
Proof.
  intros Hall He Hlen.
  destruct e as [ms|d]; [|contradiction]. cbn [is_timeout] in He.
  unfold xmod_upload.
  assert (Hrc : retrycount (upload_init s) = retrycount s)
    by (destruct s; reflexivity).
  destruct (Z.le_gt_cases (retrycount s) (MAXRETRY + 1)) as [Hle|Hgt].
  - rewrite upload_loop_timeouts;
      [|destruct s; reflexivity|exact Hall|rewrite Hrc; lia].
    cbn [upload_loop].
    rewrite upload_body_timeout_gives_up
      by (try assumption; fields; rewrite Hrc; unfold MAXRETRY in *; lia).
    cbn [mbind result_bind].
    eexists. split; [reflexivity|].
    unfold set_state. fields. rewrite Hrc.
    split; [reflexivity|].
    split; [unfold MAXRETRY in *; lia|].
    split; [|destruct s; reflexivity].
    rewrite sent_app, sent_resets, app_nil_r. destruct s. reflexivity.
  - destruct evs as [|ej evs]; [|cbn [length] in Hlen; lia].
    cbn [app upload_loop].
    rewrite upload_body_timeout_gives_up
      by (try assumption; rewrite Hrc; unfold MAXRETRY in *; lia).
    cbn [mbind result_bind].
    eexists. split; [reflexivity|].
    unfold set_state. fields. rewrite Hrc.
    split; [reflexivity|].
    split; [unfold MAXRETRY in *; lia|].
    destruct s. split; reflexivity.
Qed.

Lemma upload_goes_on_from_retry_count_witness :
  exists s',
    xmod_upload XMOD_BUFFSIZE_default
      ([(Idle 1001, TRANS_RUN); (Idle 5000, TRANS_RUN)]
         ++ (Idle 2000, TRANS_RUN) :: [(Avail CHAR_C, TRANS_RUN)])
      (set_retrycount 14 (fresh demo_buffer)) = Ok s'
    /\ state s' = TRANS_ABORT
    /\ retrycount s'
       = Z.max (retrycount (set_retrycount 14 (fresh demo_buffer)))
           (MAXRETRY + 1)
    /\ sent (io s') = sent (io (set_retrycount 14 (fresh demo_buffer)))
    /\ buffer s' = buffer (set_retrycount 14 (fresh demo_buffer)).
Proof.
  apply (upload_goes_on_from_retry_count XMOD_BUFFSIZE_default
           [(Idle 1001, TRANS_RUN); (Idle 5000, TRANS_RUN)]
           (Idle 2000) TRANS_RUN [(Avail CHAR_C, TRANS_RUN)]
           (set_retrycount 14 (fresh demo_buffer))).
  - repeat constructor; cbn; unfold TIMEOUT_MS; lia.
  - cbn. unfold TIMEOUT_MS. lia.
  - reflexivity.
Defined.

(** X15.  A download that gave up after silence leaves the retry
    counter at 16, and [xmod_upload] starts from there: the upload that
    follows moves to [TRANS_ABORT] at its first timeout and sends nothing,
    where an upload entered with the counter at 0 waits through 16. *)
Theorem upload_after_silent_download_gives_up cap mss ms e j more s :
  length mss = 16%nat -> Forall (fun ms => TIMEOUT_MS < ms) mss ->
  TIMEOUT_MS < ms -> is_timeout e ->
  exists s1 s2,
    xmod_download ((Idle <$> mss) ++ [Idle ms]) s = Ok (s1, [])
    /\ state s1 = TRANS_ABORT /\ retrycount s1 = MAXRETRY + 1
    /\ xmod_upload cap ((e, j) :: more) s1 = Ok s2
    /\ state s2 = TRANS_ABORT
    /\ sent (io s2) = sent (io s1).
Proof.
  intros Hlen Hall Hms He.
  destruct e as [ms'|d]; [|contradiction]. cbn [is_timeout] in He.
  unfold xmod_download.
  rewrite download_loop_timeouts;
    [|destruct s; reflexivity|exact Hall
     |destruct s; cbn [download_init retrycount]; rewrite Hlen;
      unfold MAXRETRY; cbn; lia].
  rewrite download_loop_give_up
    by (try assumption; fields; destruct s; cbn [download_init retrycount];
        rewrite Hlen; unfold MAXRETRY; cbn; lia).
  cbn [mbind result_bind eat_garbage].
  eexists _, _. split; [reflexivity|].
  unfold set_state. fields.
  split; [reflexivity|].
  split; [destruct s; cbn [download_init retrycount]; rewrite Hlen;
          unfold MAXRETRY; cbn; lia|].
  unfold xmod_upload. cbn [upload_loop].
  rewrite upload_body_timeout_gives_up
    by (try assumption; destruct s;
        cbn [upload_init download_init retrycount]; unfold upload_init;
        unfold set_last_succeeded_block, set_blocknum, set_state; fields;
        rewrite Hlen; unfold MAXRETRY; cbn; lia).
  cbn [mbind result_bind].
  split; [reflexivity|].
  split; [reflexivity|reflexivity].
Qed.

Lemma upload_after_silent_download_gives_up_witness :
  exists s1 s2,
    xmod_download ((Idle <$> replicate 16 1001) ++ [Idle 1500])
      (fresh demo_buffer) = Ok (s1, [])
    /\ state s1 = TRANS_ABORT /\ retrycount s1 = MAXRETRY + 1
    /\ xmod_upload XMOD_BUFFSIZE_default
         ((Idle 1200, TRANS_RUN) :: [(Avail CHAR_C, TRANS_RUN)]) s1 = Ok s2
    /\ state s2 = TRANS_ABORT
    /\ sent (io s2) = sent (io s1).
Proof.
  apply (upload_after_silent_download_gives_up XMOD_BUFFSIZE_default
           (replicate 16 1001) 1500 (Idle 1200) TRANS_RUN
           [(Avail CHAR_C, TRANS_RUN)] (fresh demo_buffer)).
  - reflexivity.
  - apply Forall_replicate. unfold TIMEOUT_MS. lia.
  - unfold TIMEOUT_MS. lia.
  - cbn. unfold TIMEOUT_MS. lia.
Defined.

(** ** Arrays of more than 254 blocks *)

Lemma upload_body_not_end cap junk e s s' :
  32640 <= cap -> junk <> TRANS_END -> state s <> TRANS_END ->
  upload_body cap junk e s = Ok s' -> state s' <> TRANS_END.
Proof.
  intros Hcap Hj Hst Hbody.
  assert (Hq : 255 <= cap `quot` 128).
  { rewrite Z.quot_div_nonneg by lia. apply Z.div_le_lower_bound; lia. }
  destruct e as [ms|d]; cbn [upload_body] in Hbody.
  - destruct (ms <=? TIMEOUT_MS); [now injection Hbody as <-|].
    destruct (retrycount s >? MAXRETRY); injection Hbody as <-;
      destruct s; unfold set_state, reset_millis, set_retrycount, set_io;
      fields; [discriminate|exact Hst].
  - destruct (d =? CHAR_C).
    { destruct (xmod_sendblock _ _ _) as [[st s1]|i] eqn:E; [|discriminate].
      cbn [mbind result_bind] in Hbody. injection Hbody as <-.
      apply xmod_sendblock_statics in E. destruct E as (-> & _).
      destruct s1. exact Hj. }
    destruct (d =? X_ACK).
    + pose proof (u8_range (blocknum (reset_millis s) + 1)) as Hu.
      unfold is_u8 in Hu.
      unfold set_blocknum in Hbody. cbn [blocknum] in Hbody.
      replace (u8 (blocknum (reset_millis s) + 1) =? cap `quot` 128 + 1)
        with false in Hbody by (symmetry; apply Z.eqb_neq; lia).
      destruct (xmod_sendblock _ _ _) as [[st s1]|i] eqn:E; [|discriminate].
      cbn [mbind result_bind] in Hbody. injection Hbody as <-.
      apply xmod_sendblock_statics in E. destruct E as (_ & -> & _).
      destruct s. exact Hst.
    + destruct (xmod_sendblock _ _ _) as [[st s1]|i] eqn:E; [|discriminate].
      cbn [mbind result_bind] in Hbody. injection Hbody as <-.
      apply xmod_sendblock_statics in E. destruct E as (_ & -> & _).
      destruct s. exact Hst.
Qed.

Lemma upload_loop_not_end cap evs : forall s s',
  32640 <= cap -> Forall (fun ej => ej.2 <> TRANS_END) evs ->
  state s <> TRANS_END ->
  upload_loop cap evs s = Ok s' -> state s' <> TRANS_END.
Proof.
  induction evs as [|[e j] evs IH]; intros s s' Hcap Hall Hst H.
  - cbn in H. now injection H as <-.
  - inversion Hall as [|? ? Hj Hall']; subst. cbn [snd] in Hj.
    cbn [upload_loop] in H.
    destruct (upload_body cap j e s) as [s1|i] eqn:E; [|discriminate].
    cbn [mbind result_bind] in H.
    apply upload_body_not_end in E; try assumption.
    destruct (running s1).
    + exact (IH _ _ Hcap Hall' E H).
    + now injection H as <-.
Qed.

(** X16.  The block number is an octet and [xmod_upload] compares it
    with [XMOD_BUFFSIZE / 128 + 1]: with an array of 32640 octets or more
    that number is 256 or more, so no ACK ever ends the upload.  Unless a
    call of [xmod_sendblock] hands back [TRANS_END], no run of the upload
    ends in [TRANS_END]. *)
Theorem large_array_upload_never_ends cap evs s s' :
  32640 <= cap -> Forall (fun ej => ej.2 <> TRANS_END) evs ->
  state s' = TRANS_END ->
  xmod_upload cap evs s <> Ok s'.
Proof.
  intros Hcap Hall Hend H. unfold xmod_upload in H.
  apply upload_loop_not_end in H; try assumption.
  - contradiction.
  - destruct s. discriminate.
Qed.

Lemma large_array_upload_never_ends_witness :
  xmod_upload 32640
    [(Avail CHAR_C, TRANS_RUN); (Avail X_ACK, TRANS_RUN);
     (Avail X_ACK, TRANS_RUN)]
    (fresh (demo_payload 0x11 ++ demo_payload 0x22))
  <> Ok (set_state TRANS_END
           (fresh (demo_payload 0x11 ++ demo_payload 0x22))).
Proof.
  apply (large_array_upload_never_ends 32640
           [(Avail CHAR_C, TRANS_RUN); (Avail X_ACK, TRANS_RUN);
            (Avail X_ACK, TRANS_RUN)]).
  - lia.
  - repeat constructor; discriminate.
  - reflexivity.
Defined.

(** ** C6: arrays the block number cannot count *)


